(** * Mimosa26 raw data interpreter: shallow embedding and properties

    Embedding of [pyBAR_mimosa26_interpreter/raw_data_interpreter.py]
    (the word helpers, [build_hits], [RawDataInterpreter]) and, of
    [data_interpreter.py], of the construction checks
    ([DataInterpreter.__init__]), the two histogram functions and the chunk
    loop of [interpret_word_table].

    Conventions of the embedding

    - Raw words, scalars and array elements are [Z].  The scalars of
      [build_hits] ([trigger_number], [last_trigger_number],
      [trigger_timestamp], [delta_timestamp], ...) are 64 bit signed integers
      under numba and never leave that range, so they are plain [Z].  A store
      into a typed numpy array or into a field of [hit_dtype] truncates to the
      width of the element type; this is written out with [u8], [u16], [u32]
      and [i32].
    - The numpy buffers are lists.  They have the fixed shapes given by
      [RawDataInterpreter.reset]: shape 6 for the per plane buffers and shape 7
      for [frame_id] and [event_status].  An index is resolved as numpy does
      ([py_index]): a negative index counts from the end.  [build_hits] and
      the histogram functions are compiled with [@njit], which checks no
      bounds: an index out of range for its axis raises nothing there, the
      access goes to a foreign element or outside the array, and what the run
      returns is not what the source says.  The embedding has no result for
      such a run ([None]); a result [Some] is the result of a run whose
      indices are all in range ([in_bounds]).  Where a comment says that a
      call fails, this is meant: the run is not in bounds.
    - [build_hits] is one loop; its body is [interpret_word], which returns the
      hits emitted by the word, and the chunk driver [build_hits_loop] appends
      them to the growing hit buffer. *)

From Stdlib Require Import ZArith Lia Bool List.
From stdpp Require Import base numbers list option.

Local Open Scope Z_scope.

(** ** Module constants *)

Definition FRAME_UNIT_CYCLE : Z := 4608.

Definition MULTIPLE_TRG_WORD : Z := 0x00000001.
Definition NO_TRG_WORD : Z := 0x00000002.
Definition DATA_ERROR : Z := 0x00000004.
Definition EVENT_INCOMPLETE : Z := 0x00000008.
Definition UNKNOWN_WORD : Z := 0x00000010.
Definition UNEVEN_EVENT : Z := 0x00000020.
Definition TRG_ERROR : Z := 0x00000040.
Definition TRUNC_EVENT : Z := 0x00000080.
Definition TRAILER_H_ERROR : Z := 0x00000100.
Definition TRAILER_L_ERROR : Z := 0x00000200.
Definition MIMOSA_OVERFLOW : Z := 0x00000400.
Definition NO_HIT : Z := 0x00000800.
Definition COL_ERROR : Z := 0x00001000.
Definition ROW_ERROR : Z := 0x00002000.
Definition TRG_WORD : Z := 0x00004000.
Definition TS_OVERFLOW : Z := 0x00008000.

(** ** Fixed width stores *)

Definition u8 (x : Z) : Z := x mod 2 ^ 8.
Definition u16 (x : Z) : Z := x mod 2 ^ 16.
Definition u32 (x : Z) : Z := x mod 2 ^ 32.
Definition i32 (x : Z) : Z := (x + 2 ^ 31) mod 2 ^ 32 - 2 ^ 31.

(** ** Word helpers (the [@njit] one-liners) *)

Definition is_mimosa_data (word : Z) : bool :=
  Z.land 0xff000000 word =? 0x20000000.

Definition is_data_loss (word : Z) : bool :=
  Z.land 0x00020000 word =? 0x00020000.

Definition get_plane_number (word : Z) : Z :=
  Z.land (Z.shiftr word 20) 0xf.

Definition get_frame_id_low (word : Z) : Z := Z.land 0x0000ffff word.

Definition get_frame_id_high (word : Z) : Z :=
  Z.shiftl (Z.land 0x0000ffff word) 16.

Definition is_frame_header0 (word : Z) : bool :=
  Z.land 0x0000ffff word =? 0x00005555.

Definition is_frame_header1 (word plane : Z) : bool :=
  Z.land 0x0000ffff word =? Z.lor 0x00005550 plane.

Definition is_frame_trailer0 (word : Z) : bool :=
  Z.land 0x0000ffff word =? 0xaa50.

Definition is_frame_trailer1 (word plane : Z) : bool :=
  Z.land 0x0000ffff word =? Z.lor 0xaa50 plane.

Definition get_frame_length (word : Z) : Z := Z.land 0x0000ffff word * 2.

Definition get_n_hits (word : Z) : Z := Z.land 0x00000003 word.

Definition get_column (word : Z) : Z := Z.land (Z.shiftr word 2) 0x7ff.

Definition get_row (word : Z) : Z := Z.land (Z.shiftr word 4) 0x7ff.

Definition is_frame_header (word : Z) : bool :=
  Z.land 0x00010000 word =? 0x00010000.

Definition get_m26_timestamp_low (word : Z) : Z := Z.land 0x0000ffff word.

Definition get_m26_timestamp_high (word : Z) : Z :=
  Z.shiftl (Z.land 0x0000ffff word) 16.

Definition get_n_words (word : Z) : Z := Z.land 0x0000000f word.

Definition has_overflow (word : Z) : bool :=
  negb (Z.land 0x00008000 word =? 0).

Definition is_trigger_word (word : Z) : bool :=
  Z.land 0x80000000 word =? 0x80000000.

Definition get_trigger_timestamp (word : Z) : Z :=
  Z.shiftr (Z.land word 0x7fff0000) 16.

Definition get_trigger_number (word trigger_data_format : Z) : Z :=
  if trigger_data_format =? 2 then Z.land word 0x0000ffff
  else Z.land word 0x7fffffff.

(** [event_status[plane_id] |= status_code] on the uint32 buffer; the slot has
    been resolved by the caller. *)
Definition add_event_status (slot : nat) (event_status : list Z)
    (status_code : Z) : list Z :=
  <[slot := u32 (Z.lor (event_status !!! slot) status_code)]> event_status.

(** ** Hits *)

Module Hit.

(** One element of [hit_dtype]. *)
Record t : Type := mk {
  plane : Z;
  frame : Z;
  time_stamp : Z;
  trigger_number : Z;
  column : Z;
  row : Z;
  event_status : Z
}.

(** The seven field stores of one [hits[hit_index][...] = ...] block, in the
    field order of [hit_dtype]; every store truncates to the field width
    (u1, u4, u4, u2, u2, u2, u4). *)
Definition store (plane frame time_stamp trigger_number column row
    event_status : Z) : t :=
  {| plane := u8 plane;
     frame := u32 frame;
     time_stamp := u32 time_stamp;
     trigger_number := u16 trigger_number;
     column := u16 column;
     row := u16 row;
     event_status := u32 event_status |}.

End Hit.

(** ** The buffered variables of [build_hits] *)

Record state : Type := mk_state {
  frame_id : list Z;            (* uint32, shape 7 *)
  last_frame_id : Z;
  frame_length : list Z;        (* int32, shape 6 *)
  m26_data_loss : list bool;    (* bool, shape 6 *)
  word_index : list Z;          (* int32, shape 6 *)
  n_words : list Z;             (* uint32, shape 6 *)
  row : list Z;                 (* int32, shape 6 *)
  event_status : list Z;        (* uint32, shape 7 *)
  event_number : list Z;        (* int64, shape 6; passed through *)
  trigger_number : Z;
  m26_timestamps : list Z;      (* uint32, shape 6 *)
  trigger_timestamp : Z;
  last_m26_timestamps : Z;
  last_trigger_timestamp : Z
}.

Definition with_frame_id (v : list Z) (s : state) : state :=
  mk_state v (last_frame_id s) (frame_length s) (m26_data_loss s)
    (word_index s) (n_words s) (row s) (event_status s) (event_number s)
    (trigger_number s) (m26_timestamps s) (trigger_timestamp s)
    (last_m26_timestamps s) (last_trigger_timestamp s).

Definition with_last_frame_id (v : Z) (s : state) : state :=
  mk_state (frame_id s) v (frame_length s) (m26_data_loss s)
    (word_index s) (n_words s) (row s) (event_status s) (event_number s)
    (trigger_number s) (m26_timestamps s) (trigger_timestamp s)
    (last_m26_timestamps s) (last_trigger_timestamp s).

Definition with_frame_length (v : list Z) (s : state) : state :=
  mk_state (frame_id s) (last_frame_id s) v (m26_data_loss s)
    (word_index s) (n_words s) (row s) (event_status s) (event_number s)
    (trigger_number s) (m26_timestamps s) (trigger_timestamp s)
    (last_m26_timestamps s) (last_trigger_timestamp s).

Definition with_m26_data_loss (v : list bool) (s : state) : state :=
  mk_state (frame_id s) (last_frame_id s) (frame_length s) v
    (word_index s) (n_words s) (row s) (event_status s) (event_number s)
    (trigger_number s) (m26_timestamps s) (trigger_timestamp s)
    (last_m26_timestamps s) (last_trigger_timestamp s).

Definition with_word_index (v : list Z) (s : state) : state :=
  mk_state (frame_id s) (last_frame_id s) (frame_length s) (m26_data_loss s)
    v (n_words s) (row s) (event_status s) (event_number s)
    (trigger_number s) (m26_timestamps s) (trigger_timestamp s)
    (last_m26_timestamps s) (last_trigger_timestamp s).

Definition with_n_words (v : list Z) (s : state) : state :=
  mk_state (frame_id s) (last_frame_id s) (frame_length s) (m26_data_loss s)
    (word_index s) v (row s) (event_status s) (event_number s)
    (trigger_number s) (m26_timestamps s) (trigger_timestamp s)
    (last_m26_timestamps s) (last_trigger_timestamp s).

Definition with_row (v : list Z) (s : state) : state :=
  mk_state (frame_id s) (last_frame_id s) (frame_length s) (m26_data_loss s)
    (word_index s) (n_words s) v (event_status s) (event_number s)
    (trigger_number s) (m26_timestamps s) (trigger_timestamp s)
    (last_m26_timestamps s) (last_trigger_timestamp s).

Definition with_event_status (v : list Z) (s : state) : state :=
  mk_state (frame_id s) (last_frame_id s) (frame_length s) (m26_data_loss s)
    (word_index s) (n_words s) (row s) v (event_number s)
    (trigger_number s) (m26_timestamps s) (trigger_timestamp s)
    (last_m26_timestamps s) (last_trigger_timestamp s).

Definition with_trigger_number (v : Z) (s : state) : state :=
  mk_state (frame_id s) (last_frame_id s) (frame_length s) (m26_data_loss s)
    (word_index s) (n_words s) (row s) (event_status s) (event_number s)
    v (m26_timestamps s) (trigger_timestamp s)
    (last_m26_timestamps s) (last_trigger_timestamp s).

Definition with_m26_timestamps (v : list Z) (s : state) : state :=
  mk_state (frame_id s) (last_frame_id s) (frame_length s) (m26_data_loss s)
    (word_index s) (n_words s) (row s) (event_status s) (event_number s)
    (trigger_number s) v (trigger_timestamp s)
    (last_m26_timestamps s) (last_trigger_timestamp s).

Definition with_trigger_timestamp (v : Z) (s : state) : state :=
  mk_state (frame_id s) (last_frame_id s) (frame_length s) (m26_data_loss s)
    (word_index s) (n_words s) (row s) (event_status s) (event_number s)
    (trigger_number s) (m26_timestamps s) v
    (last_m26_timestamps s) (last_trigger_timestamp s).

Definition with_last_m26_timestamps (v : Z) (s : state) : state :=
  mk_state (frame_id s) (last_frame_id s) (frame_length s) (m26_data_loss s)
    (word_index s) (n_words s) (row s) (event_status s) (event_number s)
    (trigger_number s) (m26_timestamps s) (trigger_timestamp s)
    v (last_trigger_timestamp s).

(** ** numpy index resolution *)

Definition py_index (len i : Z) : option nat :=
  if (0 <=? i) && (i <? len) then Some (Z.to_nat i)
  else if (- len <=? i) && (i <? 0) then Some (Z.to_nat (i + len))
  else None.

(** [for i in range(1, 7): event_status[i] = 0] *)
Definition reset_m26_event_status (event_status : list Z) : list Z :=
  foldl (fun es i => <[i := 0]> es) event_status (seq 1 6).

(** ** The loop body of [build_hits] *)

(** The Mimosa26 branch.  [p] is the resolved position of [plane_id] in the
    shape 6 buffers and [q] the resolved position of [plane_id + 1] in the
    shape 7 buffers.  Returns the buffered variables, [last_trigger_number]
    and the hits the word stores, in order. *)
Definition interpret_m26 (st : state) (last_trigger_number : Z) (word : Z)
    (plane_id : Z) (p q : nat) : state * Z * list Hit.t :=
  if is_data_loss word then
    (with_m26_data_loss (<[p := true]> (m26_data_loss st)) st,
     last_trigger_number, [])
  else if is_frame_header word then
    let st1 :=
      if plane_id =? 0 then
        with_last_frame_id (frame_id st !!! 1%nat)
          (with_last_m26_timestamps (m26_timestamps st !!! 0%nat) st)
      else st in
    let ts :=
      u32 (Z.lor (get_m26_timestamp_low word)
                 (Z.land (m26_timestamps st1 !!! p) 0xffff0000)) in
    (with_m26_data_loss (<[p := false]> (m26_data_loss st1))
       (with_n_words (<[p := 0]> (n_words st1))
          (with_frame_length (<[p := i32 (-1)]> (frame_length st1))
             (with_word_index (<[p := 0]> (word_index st1))
                (with_m26_timestamps (<[p := ts]> (m26_timestamps st1)) st1)))),
     last_trigger_number, [])
  else if (m26_data_loss st !!! p : bool) then
    (* [m26_data_loss[plane_id] is True]: in compiled code the identity test
       on booleans is the equality test; [continue] *)
    (st, last_trigger_number, [])
  else
    let wi := i32 (word_index st !!! p + 1) in
    let st1 := with_word_index (<[p := wi]> (word_index st)) st in
    let fl := frame_length st !!! p in
    if wi =? 1 then
      let es :=
        if get_m26_timestamp_high word
           <? Z.land (m26_timestamps st !!! p) 0xffff0000
        then add_event_status q (event_status st) TS_OVERFLOW
        else event_status st in
      let ts :=
        u32 (Z.lor (get_m26_timestamp_high word)
                   (Z.land (m26_timestamps st !!! p) 0x0000ffff)) in
      (with_m26_timestamps (<[p := ts]> (m26_timestamps st))
         (with_event_status es st1),
       last_trigger_number, [])
    else if wi =? 2 then
      let fid :=
        u32 (Z.lor (get_frame_id_low word)
                   (Z.land (frame_id st !!! q) 0xffff0000)) in
      (with_frame_id (<[q := fid]> (frame_id st)) st1,
       last_trigger_number, [])
    else if wi =? 3 then
      let fid :=
        u32 (Z.lor (get_frame_id_high word)
                   (Z.land (frame_id st !!! q) 0x0000ffff)) in
      (with_frame_id (<[q := fid]> (frame_id st)) st1,
       last_trigger_number, [])
    else if wi =? 4 then
      (with_frame_length (<[p := i32 (get_frame_length word)]> (frame_length st))
         st1,
       last_trigger_number, [])
    else if wi =? 5 then
      let es :=
        if negb (fl =? get_frame_length word)
        then add_event_status q (event_status st) EVENT_INCOMPLETE
        else event_status st in
      (with_event_status es st1, last_trigger_number, [])
    else if wi =? 5 + fl + 1 then
      let es :=
        if negb (is_frame_trailer0 word)
        then add_event_status q (event_status st) TRAILER_H_ERROR
        else event_status st in
      (with_event_status es st1, last_trigger_number, [])
    else if wi =? 5 + fl + 2 then
      let es :=
        if negb (is_frame_trailer1 word (plane_id + 1))
        then add_event_status q (event_status st) TRAILER_L_ERROR
        else event_status st in
      (with_event_status es st1, last_trigger_number, [])
    else if wi >? 5 + fl + 2 then
      (with_m26_data_loss (<[p := true]> (m26_data_loss st)) st1,
       last_trigger_number, [])
    else if n_words st !!! p =? 0 then
      (* row word *)
      let uneven := wi =? 5 + fl in
      let es1 :=
        if uneven then add_event_status q (event_status st) UNEVEN_EVENT
        else event_status st in
      let nw1 :=
        if uneven then n_words st
        else <[p := u32 (get_n_words word)]> (n_words st) in
      let row1 :=
        if uneven then row st else <[p := i32 (get_row word)]> (row st) in
      let es2 :=
        if has_overflow word then add_event_status q es1 MIMOSA_OVERFLOW
        else es1 in
      let nw2 := if has_overflow word then <[p := 0]> nw1 else nw1 in
      let es3 :=
        if row1 !!! p >? 576 then add_event_status q es2 ROW_ERROR else es2 in
      (with_event_status es3 (with_row row1 (with_n_words nw2 st1)),
       last_trigger_number, [])
    else
      (* column word *)
      let nw := <[p := u32 (n_words st !!! p - 1)]> (n_words st) in
      let n_hits := get_n_hits word in
      let column := get_column word in
      let es :=
        if column >=? 1152
        then add_event_status q (event_status st) COL_ERROR
        else event_status st in
      let hits :=
        map (fun k : nat =>
               Hit.store (plane_id + 1)
                         (frame_id st !!! q)
                         (m26_timestamps st !!! p)
                         (if trigger_number st <? 0 then 0
                          else trigger_number st)
                         (column + Z.of_nat k)
                         (row st !!! p)
                         (es !!! q))
            (seq 0 (Z.to_nat (n_hits + 1))) in
      (with_event_status (reset_m26_event_status es) (with_n_words nw st1),
       last_trigger_number, hits).

(** The TLU branch. *)
Definition interpret_tlu (trigger_data_format : Z) (st : state)
    (last_trigger_number : Z) (word : Z) : state * Z * list Hit.t :=
  let es0 := <[0%nat := 0]> (event_status st) in
  let es1 := add_event_status 0 es0 TRG_WORD in
  let trigger_number_tmp := get_trigger_number word trigger_data_format in
  let es2 :=
    if (last_trigger_number >=? 0) && (trigger_number st >=? 0) then
      if negb (last_trigger_number + 1 =? trigger_number_tmp)
         && (trigger_number_tmp >? 0)
      then add_event_status 0 es1 TRG_ERROR
      else es1
    else es1 in
  let last_trigger_number' := trigger_number st in
  let trigger_number' := trigger_number_tmp in
  let tt0 :=
    Z.lor (get_trigger_timestamp word)
          (Z.land (last_m26_timestamps st) 0xffff8000) in
  let tt :=
    if tt0 <? last_m26_timestamps st then tt0 + 2 ^ 15 else tt0 in
  let delta_timestamp :=
    if tt <? last_m26_timestamps st
    then tt + (2 ^ 32 - last_m26_timestamps st)
    else tt - last_m26_timestamps st in
  let fid :=
    <[0%nat := u32 (last_frame_id st + delta_timestamp / FRAME_UNIT_CYCLE)]>
      (frame_id st) in
  let hit :=
    Hit.store 255 (fid !!! 0%nat) tt trigger_number' 0
              (delta_timestamp mod FRAME_UNIT_CYCLE) (es2 !!! 0%nat) in
  (with_trigger_timestamp tt
     (with_trigger_number trigger_number'
        (with_frame_id fid (with_event_status es2 st))),
   last_trigger_number', [hit]).

(** One iteration of [for raw_i in range(raw_data.shape[0])].  Every branch of
    a Mimosa26 word indexes the per plane buffers with [plane_id]; a plane
    number 7 to 15 lies beyond their end: no result. *)
Definition interpret_word (trigger_data_format : Z) (st : state)
    (last_trigger_number : Z) (word : Z) : option (state * Z * list Hit.t) :=
  if is_mimosa_data word then
    let plane_id := get_plane_number word - 1 in
    p ← py_index 6 plane_id;
    q ← py_index 7 (plane_id + 1);
    Some (interpret_m26 st last_trigger_number word plane_id p q)
  else if is_trigger_word word then
    Some (interpret_tlu trigger_data_format st last_trigger_number word)
  else
    Some (with_event_status (add_event_status 0 (event_status st) UNKNOWN_WORD)
            st,
          last_trigger_number, []).

(** ** The hit buffer and the chunk loop *)

(** [hits] with its allocated length [hits.shape[0]]; the populated prefix
    [hits[:hit_index]] is [stored]. *)
Record hit_buffer : Type := mk_hit_buffer {
  capacity : Z;
  stored : list Hit.t
}.

Definition hit_index (b : hit_buffer) : Z := Z.of_nat (length (stored b)).

(** The growth test before a hit is stored, and the store.  When the buffer is
    full a block of [max_hits_per_chunk] elements is concatenated; a store at
    an index that is still outside the buffer writes outside the array: no
    result. *)
Definition append_hit (max_hits_per_chunk : Z) (b : hit_buffer) (h : Hit.t)
    : option hit_buffer :=
  let cap :=
    if hit_index b >=? capacity b then capacity b + max_hits_per_chunk
    else capacity b in
  if hit_index b <? cap
  then Some {| capacity := cap; stored := stored b ++ [h] |}
  else None.

Fixpoint append_hits (max_hits_per_chunk : Z) (b : hit_buffer)
    (hs : list Hit.t) : option hit_buffer :=
  match hs with
  | [] => Some b
  | h :: hs' =>
      b' ← append_hit max_hits_per_chunk b h;
      append_hits max_hits_per_chunk b' hs'
  end.

Fixpoint build_hits_loop (max_hits_per_chunk trigger_data_format : Z)
    (raw_data : list Z) (st : state) (last_trigger_number : Z)
    (hits : hit_buffer) : option (state * Z * hit_buffer) :=
  match raw_data with
  | [] => Some (st, last_trigger_number, hits)
  | word :: rest =>
      r ← interpret_word trigger_data_format st last_trigger_number word;
      hits' ← append_hits max_hits_per_chunk hits r.2;
      build_hits_loop max_hits_per_chunk trigger_data_format rest
        r.1.1 r.1.2 hits'
  end.

(** [build_hits]: returns the populated prefix of the hit buffer and the
    buffered variables.  [np.empty] with a negative shape raises. *)
Definition build_hits (raw_data : list Z) (st : state)
    (max_hits_per_chunk trigger_data_format : Z)
    : option (list Hit.t * state) :=
  if max_hits_per_chunk <? 0 then None
  else
    let hits := {| capacity := max_hits_per_chunk; stored := [] |} in
    let last_trigger_number :=
      if trigger_number st <=? 0 then -1 else trigger_number st - 1 in
    r ← build_hits_loop max_hits_per_chunk trigger_data_format raw_data st
          last_trigger_number hits;
    Some (stored r.2, r.1.1).

(** ** [class RawDataInterpreter] *)

Module RawDataInterpreter.

Record t : Type := mk {
  max_hits_per_chunk : Z;
  trigger_data_format : Z;
  buffers : state;
  tlu_word_index : list Z
}.

(** The values [reset] assigns. *)
Definition reset_state : state :=
  let frame_id := replicate 7 0 in
  let m26_timestamps := replicate 6 0 in
  {| frame_id := frame_id;
     last_frame_id := frame_id !!! 1%nat;
     frame_length := replicate 6 (-1);
     m26_data_loss := replicate 6 false;
     word_index := replicate 6 0;
     m26_timestamps := m26_timestamps;
     trigger_timestamp := 0;
     last_m26_timestamps := m26_timestamps !!! 0%nat;
     last_trigger_timestamp := 0;
     n_words := replicate 6 0;
     row := replicate 6 (-1);
     event_status := replicate 7 0;
     event_number := replicate 6 (-1);
     trigger_number := -1 |}.

Definition reset (self : t) : t :=
  {| max_hits_per_chunk := max_hits_per_chunk self;
     trigger_data_format := trigger_data_format self;
     buffers := reset_state;
     tlu_word_index := replicate 6 0 |}.

(** [__init__]: stores both arguments unchecked and resets. *)
Definition init (max_hits_per_chunk trigger_data_format : Z) : t :=
  reset {| max_hits_per_chunk := max_hits_per_chunk;
           trigger_data_format := trigger_data_format;
           buffers := reset_state;
           tlu_word_index := [] |}.

(** [RawDataInterpreter()] with the default arguments. *)
Definition default : t := init 500000 2.

Definition interpret_raw_data (self : t) (raw_data : list Z)
    : option (list Hit.t * t) :=
  chunk_result ← build_hits raw_data (buffers self)
                    (max_hits_per_chunk self) (trigger_data_format self);
  Some (chunk_result.1,
        {| max_hits_per_chunk := max_hits_per_chunk self;
           trigger_data_format := trigger_data_format self;
           buffers := chunk_result.2;
           tlu_word_index := tlu_word_index self |}).

(** Successive calls of [interpret_raw_data] on one interpreter; the hits of
    the calls are collected in call order. *)
Fixpoint interpret_chunks (self : t) (chunks : list (list Z))
    : option (list Hit.t * t) :=
  match chunks with
  | [] => Some ([], self)
  | c :: cs =>
      r ← interpret_raw_data self c;
      r' ← interpret_chunks r.2 cs;
      Some (r.1 ++ r'.1, r'.2)
  end.

End RawDataInterpreter.

(** ** [DataInterpreter.__init__]

    Only the checks and the construction of the raw data interpreter are
    embedded; file names, the PDF output and the event builder do not take
    part in them. *)

Module DataInterpreter.

Inductive error : Type :=
| RuntimeError_chunk_size      (* raise RuntimeError('Please chose ...') *)
| RuntimeError_bare_raise.     (* [raise] with no active exception *)

Record t : Type := mk {
  _raw_data_interpreter : RawDataInterpreter.t;
  chunk_size : Z;
  trigger_data_format : Z
}.

Definition init (chunk_size trigger_data_format : Z) : error + t :=
  if chunk_size <? 100 then inl RuntimeError_chunk_size
  else
    let raw := RawDataInterpreter.init 500000 trigger_data_format in
    if negb (trigger_data_format =? 2) then inl RuntimeError_bare_raise
    else inr {| _raw_data_interpreter := raw;
                chunk_size := chunk_size;
                trigger_data_format := trigger_data_format |}.

End DataInterpreter.

(** ** Derived notions used in the statements *)

(** The hit sequence of the chunk loop, without the hit buffer: the words are
    interpreted in order and their hits concatenated in that order. *)
Fixpoint interpret_words (trigger_data_format : Z) (raw_data : list Z)
    (st : state) (last_trigger_number : Z)
    : option (state * Z * list Hit.t) :=
  match raw_data with
  | [] => Some (st, last_trigger_number, [])
  | word :: rest =>
      r ← interpret_word trigger_data_format st last_trigger_number word;
      r' ← interpret_words trigger_data_format rest r.1.1 r.1.2;
      Some (r'.1.1, r'.1.2, r.2 ++ r'.2)
  end.

(** [last_trigger_number] as [build_hits] initialises it on entry. *)
Definition initial_last_trigger_number (st : state) : Z :=
  if trigger_number st <=? 0 then -1 else trigger_number st - 1.

(** The buffers have the shapes [reset] gives them. *)
Record shaped (st : state) : Prop := mk_shaped {
  shaped_frame_id : length (frame_id st) = 7%nat;
  shaped_frame_length : length (frame_length st) = 6%nat;
  shaped_m26_data_loss : length (m26_data_loss st) = 6%nat;
  shaped_word_index : length (word_index st) = 6%nat;
  shaped_n_words : length (n_words st) = 6%nat;
  shaped_row : length (row st) = 6%nat;
  shaped_event_status : length (event_status st) = 7%nat;
  shaped_m26_timestamps : length (m26_timestamps st) = 6%nat
}.

(** A status word has the given status code set. *)
Definition has_status (event_status status_code : Z) : Prop :=
  Z.land event_status status_code = status_code.

(** The decoding position of one plane: the entries of the four per plane
    buffers that the frame decoder reads and writes. *)
Definition plane_position (st : state) (p : nat) : Z * Z * Z * Z :=
  (word_index st !!! p, frame_length st !!! p, n_words st !!! p, row st !!! p).

(** The word index a word of the plane slot [p] is given. *)
Definition next_word_index (st : state) (p : nat) : Z :=
  i32 (word_index st !!! p + 1).

(** The tests of the positional dispatch all fail, so that the word goes to
    the row / column branch: it is not at one of the positions 1 to 5, not at
    one of the two trailer positions and not beyond them. *)
Definition at_pixel_word (st : state) (p : nat) : bool :=
  let wi := next_word_index st p in
  let fl := frame_length st !!! p in
  negb (wi =? 1) && negb (wi =? 2) && negb (wi =? 3) && negb (wi =? 4)
  && negb (wi =? 5) && negb (wi =? 5 + fl + 1) && negb (wi =? 5 + fl + 2)
  && negb (wi >? 5 + fl + 2).

(** The position in the shape 6 buffers that a Mimosa26 word works on. *)
Definition plane_slot (word : Z) : option nat :=
  py_index 6 (get_plane_number word - 1).

(** No status slot of a Mimosa26 plane (slots 1 to 6) has bit [n] set. *)
Definition m26_status_bit_clear (n : Z) (st : state) : Prop :=
  forall i : nat, (1 <= i)%nat -> Z.testbit (event_status st !!! i) n = false.

(** A fresh interpreter whose plane 1 header time stamp has been latched. *)
Definition anchored_state (last_ts last_fid : Z) : state :=
  with_last_frame_id last_fid
    (with_last_m26_timestamps last_ts RawDataInterpreter.reset_state).

(** A fresh interpreter whose plane 1 is in loss mode. *)
Definition plane_1_lost : state :=
  with_m26_data_loss [true; false; false; false; false; false]
    RawDataInterpreter.reset_state.

(** ** The histogram functions of [data_interpreter.py]

    Both are compiled functions over the hit array.  [hits[...]['plane'] - 1]
    is a signed integer there, so that the plane 0 gives the index -1. *)

(** [hist[i][j] += 1] on a two dimensional int32 array. *)
Definition increment_2d (hist : list (list Z)) (i j : Z)
    : option (list (list Z)) :=
  a ← py_index (Z.of_nat (length hist)) i;
  line ← hist !! a;
  b ← py_index (Z.of_nat (length line)) j;
  x ← line !! b;
  Some (<[a := <[b := i32 (x + 1)]> line]> hist).

(** [hist[i][j, k] += 1] on a three dimensional int32 array. *)
Definition increment_3d (hist : list (list (list Z))) (i j k : Z)
    : option (list (list (list Z))) :=
  a ← py_index (Z.of_nat (length hist)) i;
  plane ← hist !! a;
  plane' ← increment_2d plane j k;
  Some (<[a := plane']> hist).

(** [fill_occupanc_hist]: TLU hits are passed over, every other hit is counted
    at [hist[plane - 1][column, row]].  A hit with an index out of range for
    its axis is counted by the compiled code in whatever lies at the computed
    address; such a run has no result here. *)
Fixpoint fill_occupanc_hist (hist : list (list (list Z))) (hits : list Hit.t)
    : option (list (list (list Z))) :=
  match hits with
  | [] => Some hist
  | h :: rest =>
      if Hit.plane h =? 255 then fill_occupanc_hist hist rest
      else
        hist' ← increment_3d hist (Hit.plane h - 1) (Hit.column h)
                   (Hit.row h);
        fill_occupanc_hist hist' rest
  end.

(** [if hits[hit_index]['event_status'] & (0b1 << i)] *)
Definition status_bit_set (event_status : Z) (i : nat) : bool :=
  negb (Z.land event_status (Z.shiftl 1 (Z.of_nat i)) =? 0).

(** The inner loop [for i in range(32)] of [fill_event_status_hist] for one
    hit, over the remaining values of [i]. *)
Fixpoint fill_event_status_bits (hist : list (list Z)) (line : Z)
    (event_status : Z) (bits : list nat) : option (list (list Z)) :=
  match bits with
  | [] => Some hist
  | i :: rest =>
      if status_bit_set event_status i then
        hist' ← increment_2d hist line (Z.of_nat i);
        fill_event_status_bits hist' line event_status rest
      else fill_event_status_bits hist line event_status rest
  end.

(** The line of the event status histogram a hit is counted in: line 0 for
    the TLU hits, the plane number for the others. *)
Definition event_status_line (h : Hit.t) : Z :=
  if Hit.plane h =? 255 then 0 else Hit.plane h.

(** The loop over the hits of [fill_event_status_hist], with the values that
    [i] runs over. *)
Fixpoint fill_event_status_hits (bits : list nat) (hist : list (list Z))
    (hits : list Hit.t) : option (list (list Z)) :=
  match hits with
  | [] => Some hist
  | h :: rest =>
      hist' ← fill_event_status_bits hist (event_status_line h)
                 (Hit.event_status h) bits;
      fill_event_status_hits bits hist' rest
  end.

(** [fill_event_status_hist]: [i] runs over [range(32)]. *)
Definition fill_event_status_hist (hist : list (list Z)) (hits : list Hit.t)
    : option (list (list Z)) :=
  fill_event_status_hits (seq 0 32) hist hits.

(** The slices [raw_data.read(i, i + chunk_size)] for
    [i in range(0, raw_data.shape[0], chunk_size)] that
    [DataInterpreter.interpret_word_table] hands to the raw data interpreter,
    for a positive chunk size. *)
Definition word_table_chunks (chunk_size : nat) (raw_data : list Z)
    : list (list Z) :=
  map (fun k : nat => take chunk_size (drop (k * chunk_size) raw_data))
      (seq 0 ((length raw_data + chunk_size - 1) / chunk_size)).

(** ** Further notions for the properties of the whole interpreter *)

(** A run of a compiled function all of whose indices are in range for their
    arrays: the embedding has a result for it.  In a run that is not in
    bounds an access goes to a foreign element or outside the array,
    unchecked. *)
Definition in_bounds {A : Type} (run : option A) : Prop := is_Some run.

(** A Mimosa26 word whose plane number has no entry in the buffers. *)
Definition out_of_planes (word : Z) : bool :=
  is_mimosa_data word && (6 <? get_plane_number word).

(** The buffered variables hold values of their element types, within the
    bounds the frame decoder keeps. *)
Record in_range (st : state) : Prop := mk_in_range {
  range_shaped : shaped st;
  range_frame_id : forall i : nat, 0 <= frame_id st !!! i < 2 ^ 32;
  range_last_frame_id : 0 <= last_frame_id st < 2 ^ 32;
  range_m26_timestamps :
    forall i : nat, 0 <= m26_timestamps st !!! i < 2 ^ 32;
  range_last_m26_timestamps : 0 <= last_m26_timestamps st < 2 ^ 32;
  range_event_status : forall i : nat, 0 <= event_status st !!! i < 2 ^ 32;
  range_frame_length :
    forall i : nat, -1 <= frame_length st !!! i <= 131070;
  range_word_index : forall i : nat, 0 <= word_index st !!! i <= 131078;
  range_word_index_frame :
    forall i : nat,
      m26_data_loss st !!! i = false ->
      word_index st !!! i <= Z.max 5 (frame_length st !!! i + 7);
  range_n_words : forall i : nat, 0 <= n_words st !!! i <= 15;
  range_row : forall i : nat, -1 <= row st !!! i <= 2047;
  range_row_latched :
    forall i : nat, n_words st !!! i <> 0 -> 0 <= row st !!! i;
  range_trigger_number : -1 <= trigger_number st < 2 ^ 31
}.

(** The fields of a hit as [build_hits] fills them: a TLU hit, or a hit of a
    plane number 0 to 6 with a column and a row that fit the 11 bit fields of
    the pixel words. *)
Definition hit_in_range (h : Hit.t) : Prop :=
  (Hit.plane h = 255 /\ Hit.column h = 0 /\ 0 <= Hit.row h < 4608) \/
  (0 <= Hit.plane h <= 6 /\ 0 <= Hit.column h <= 2050 /\
   0 <= Hit.row h <= 2047).

(** Two status words that agree in every bit but the one of TRG_ERROR. *)
Definition same_but_trg_error (x y : Z) : Prop :=
  Z.lor x TRG_ERROR = Z.lor y TRG_ERROR.

(** Two hits that agree in every field, but for TRG_ERROR in the status. *)
Record hit_same_but_trg_error (h h' : Hit.t) : Prop := mk_hit_same {
  same_plane : Hit.plane h = Hit.plane h';
  same_frame : Hit.frame h = Hit.frame h';
  same_time_stamp : Hit.time_stamp h = Hit.time_stamp h';
  same_trigger_number : Hit.trigger_number h = Hit.trigger_number h';
  same_column : Hit.column h = Hit.column h';
  same_row : Hit.row h = Hit.row h';
  same_event_status :
    same_but_trg_error (Hit.event_status h) (Hit.event_status h')
}.

(** Two sets of buffered variables that agree in everything, but for
    TRG_ERROR in the status slots. *)
Record state_same_but_trg_error (st st' : state) : Prop := mk_state_same {
  same_but_event_status :
    st' = with_event_status (event_status st') st;
  same_event_status_length :
    length (event_status st) = length (event_status st');
  same_event_status_slots :
    forall i : nat,
      same_but_trg_error (event_status st !!! i) (event_status st' !!! i)
}.


(** ** Notions for the histograms *)

(** A two dimensional array of the shape [(n, m)]. *)
Definition hist_shape (n m : nat) (hist : list (list Z)) : Prop :=
  length hist = n /\ Forall (fun line => length line = m) hist.

(** A three dimensional array of the shape [(n, m, k)]. *)
Definition hist_shape_3d (n m k : nat) (hist : list (list (list Z)))
    : Prop :=
  length hist = n /\ Forall (hist_shape m k) hist.

(** [hist[a][b]] and [hist[a][b, c]] at indices within the shape. *)
Definition cell (hist : list (list Z)) (a b : nat) : Z :=
  (hist !!! a) !!! b.

Definition cell_3d (hist : list (list (list Z))) (a b c : nat) : Z :=
  cell (hist !!! a) b c.

(** The number of the hits of line [line] with the status bit [i] set. *)
Definition status_count (hits : list Hit.t) (line : Z) (i : nat) : Z :=
  Z.of_nat
    (length
       (List.filter
          (fun h => (event_status_line h =? line)
                    && status_bit_set (Hit.event_status h) i)
          hits)).

(** The hits of the pixel [(b, c)] that belong to the entry [a] of the
    occupancy array: those of the plane [a + 1], and with them, in the last
    entry, those of the plane number 0. *)
Definition counted_in_plane (h : Hit.t) (a : nat) : bool :=
  (Hit.plane h =? Z.of_nat a + 1)
  || ((Hit.plane h =? 0) && (a =? 5)%nat).

Definition occupancy_count (hits : list Hit.t) (a b c : nat) : Z :=
  Z.of_nat
    (length
       (List.filter
          (fun h => negb (Hit.plane h =? 255) && counted_in_plane h a
                    && (Hit.column h =? Z.of_nat b)
                    && (Hit.row h =? Z.of_nat c))
          hits)).

(** The indices of a hit lie within an occupancy array of the shape
    [(n, m, k)], counting from the front or from the end. *)
Definition occupancy_indexable (n m k : nat) (h : Hit.t) : Prop :=
  Hit.plane h = 255 \/
  (- Z.of_nat n <= Hit.plane h - 1 < Z.of_nat n /\
   - Z.of_nat m <= Hit.column h < Z.of_nat m /\
   - Z.of_nat k <= Hit.row h < Z.of_nat k).

(** ** The chunk loop of [DataInterpreter.interpret_word_table] *)

(** The three switches that [set_standard_settings] and the setters
    assign. *)
Record settings : Type := mk_settings {
  create_occupancy_hist : bool;
  create_error_hist : bool;
  create_hit_table : bool
}.

Definition standard_settings : settings :=
  {| create_occupancy_hist := true;
     create_error_hist := true;
     create_hit_table := false |}.

(** The body of the loop over the chunks: the chunk is interpreted, its hits
    are appended to the hit table and counted in the two histograms, each as
    its switch says.  The file objects are lists here. *)
Fixpoint word_table_loop (s : settings) (chunks : list (list Z))
    (it : RawDataInterpreter.t) (hit_table : list Hit.t)
    (occupancy_arrays : list (list (list Z)))
    (event_status_hist : list (list Z))
    : option (RawDataInterpreter.t * list Hit.t
              * list (list (list Z)) * list (list Z)) :=
  match chunks with
  | [] => Some (it, hit_table, occupancy_arrays, event_status_hist)
  | raw_data_chunk :: rest =>
      r ← RawDataInterpreter.interpret_raw_data it raw_data_chunk;
      let hit_table' :=
        if create_hit_table s then hit_table ++ r.1 else hit_table in
      occupancy_arrays' ←
        (if create_occupancy_hist s
         then fill_occupanc_hist occupancy_arrays r.1
         else Some occupancy_arrays);
      event_status_hist' ←
        (if create_error_hist s
         then fill_event_status_hist event_status_hist r.1
         else Some event_status_hist);
      word_table_loop s rest r.2 hit_table' occupancy_arrays'
        event_status_hist'
  end.

(** The buffered variables of one plane slot: its decoding position, its
    loss flag, its frame time stamp and its frame number. *)
Definition plane_buffers (st : state) (p : nat)
    : Z * Z * Z * Z * bool * Z * Z :=
  (plane_position st p, m26_data_loss st !!! p, m26_timestamps st !!! p,
   frame_id st !!! S p).
(** ** Arithmetic of the fixed width stores and of the bit fields *)

Lemma u8_small x : 0 <= x < 2 ^ 8 -> u8 x = x.
Proof. intros H. unfold u8. apply Z.mod_small. exact H. Qed.

Lemma u16_small x : 0 <= x < 2 ^ 16 -> u16 x = x.
Proof. intros H. unfold u16. apply Z.mod_small. exact H. Qed.

Lemma u32_small x : 0 <= x < 2 ^ 32 -> u32 x = x.
Proof. intros H. unfold u32. apply Z.mod_small. exact H. Qed.

Lemma u32_range x : 0 <= u32 x < 2 ^ 32.
Proof. unfold u32. apply Z.mod_pos_bound. lia. Qed.

Lemma i32_small x : - 2 ^ 31 <= x < 2 ^ 31 -> i32 x = x.
Proof. intros H. unfold i32. rewrite Z.mod_small; lia. Qed.

Lemma land_ones_range a n : 0 <= n -> 0 <= Z.land a (Z.ones n) < 2 ^ n.
Proof.
  intros Hn. rewrite Z.land_ones by exact Hn. apply Z.mod_pos_bound.
  apply Z.pow_pos_nonneg; lia.
Qed.

Lemma get_plane_number_range w : 0 <= get_plane_number w < 16.
Proof. unfold get_plane_number. apply (land_ones_range _ 4). lia. Qed.

Lemma get_n_hits_range w : 0 <= get_n_hits w < 4.
Proof.
  unfold get_n_hits. rewrite Z.land_comm. apply (land_ones_range _ 2). lia.
Qed.

Lemma get_column_range w : 0 <= get_column w < 2048.
Proof. unfold get_column. apply (land_ones_range _ 11). lia. Qed.

Lemma get_row_range w : 0 <= get_row w < 2048.
Proof. unfold get_row. apply (land_ones_range _ 11). lia. Qed.

Lemma get_n_words_range w : 0 <= get_n_words w < 16.
Proof.
  unfold get_n_words. rewrite Z.land_comm. apply (land_ones_range _ 4). lia.
Qed.

Lemma get_frame_length_range w : 0 <= get_frame_length w <= 131070.
Proof.
  unfold get_frame_length. rewrite Z.land_comm.
  pose proof (land_ones_range w 16 ltac:(lia)) as H.
  change (Z.ones 16) with 0xffff in H. lia.
Qed.

(** ** Index resolution *)

(** Case analysis on the integer comparisons of the goal. *)
Ltac cases_Zcmp :=
  repeat match goal with
    | |- context [Z.eqb ?a ?b] => destruct (Z.eqb_spec a b)
    | |- context [Z.leb ?a ?b] => destruct (Z.leb_spec a b)
    | |- context [Z.ltb ?a ?b] => destruct (Z.ltb_spec a b)
    | |- context [Z.gtb ?a ?b] => rewrite (Z.gtb_ltb a b)
    | |- context [Z.geb ?a ?b] => rewrite (Z.geb_leb a b)
    end.

Lemma py_index_6 i p :
  py_index 6 i = Some p ->
  (p < 6)%nat /\ (-6 <= i < 6) /\ Z.of_nat p = (if i <? 0 then i + 6 else i).
Proof.
  unfold py_index. cases_Zcmp; simpl; intros Hs; inversion Hs; subst; lia.
Qed.

Lemma py_index_plane w p q :
  py_index 6 (get_plane_number w - 1) = Some p ->
  py_index 7 (get_plane_number w - 1 + 1) = Some q ->
  (p < 6)%nat /\ (q < 7)%nat /\ q = Z.to_nat (get_plane_number w) /\
  get_plane_number w <= 6.
Proof.
  intros Hp Hq. pose proof (get_plane_number_range w) as Hr.
  apply py_index_6 in Hp. destruct Hp as (Hp & Hi & _).
  revert Hq. unfold py_index.
  replace (get_plane_number w - 1 + 1) with (get_plane_number w) by lia.
  cases_Zcmp; simpl; intros Hq; inversion Hq; subst; lia.
Qed.

Lemma py_index_valid_plane w :
  1 <= get_plane_number w <= 6 ->
  py_index 6 (get_plane_number w - 1)
    = Some (Z.to_nat (get_plane_number w - 1)) /\
  py_index 7 (get_plane_number w - 1 + 1)
    = Some (Z.to_nat (get_plane_number w)).
Proof.
  intros H. unfold py_index.
  replace (get_plane_number w - 1 + 1) with (get_plane_number w) by lia.
  cases_Zcmp; try lia. split; reflexivity.
Qed.

(** ** The chunk loop and the hit buffer *)

Lemma append_hit_grows max_hits b h :
  0 < max_hits -> hit_index b <= capacity b ->
  exists cap,
    append_hit max_hits b h
      = Some {| capacity := cap; stored := stored b ++ [h] |} /\
    Z.of_nat (length (stored b ++ [h])) <= cap.
Proof.
  intros Hmax Hcap. unfold append_hit, hit_index in *.
  rewrite length_app. simpl length.
  destruct (Z.geb_spec (Z.of_nat (length (stored b))) (capacity b)).
  - exists (capacity b + max_hits).
    destruct (Z.ltb_spec (Z.of_nat (length (stored b)))
                (capacity b + max_hits)); [|lia].
    split; [reflexivity|lia].
  - exists (capacity b).
    destruct (Z.ltb_spec (Z.of_nat (length (stored b))) (capacity b)); [|lia].
    split; [reflexivity|lia].
Qed.

Lemma append_hits_grows max_hits hs : forall b,
  0 < max_hits -> hit_index b <= capacity b ->
  exists cap,
    append_hits max_hits b hs
      = Some {| capacity := cap; stored := stored b ++ hs |} /\
    Z.of_nat (length (stored b ++ hs)) <= cap.
Proof.
  induction hs as [|h hs IH]; intros b Hmax Hcap.
  - exists (capacity b). rewrite app_nil_r. destruct b; simpl. split; [reflexivity|].
    exact Hcap.
  - destruct (append_hit_grows max_hits b h Hmax Hcap) as (cap & Happ & Hlen).
    simpl. rewrite Happ. simpl.
    destruct (IH {| capacity := cap; stored := stored b ++ [h] |} Hmax Hlen)
      as (cap' & Happ' & Hlen').
    simpl in Happ', Hlen'. rewrite <- app_assoc in Happ', Hlen'.
    exists cap'. split; assumption.
Qed.

Lemma build_hits_loop_pure max_hits fmt ws : forall st lt b,
  0 < max_hits -> hit_index b <= capacity b ->
  match interpret_words fmt ws st lt with
  | Some (st', lt', hs) =>
      exists cap,
        build_hits_loop max_hits fmt ws st lt b
          = Some (st', lt', {| capacity := cap; stored := stored b ++ hs |})
  | None => build_hits_loop max_hits fmt ws st lt b = None
  end.
Proof.
  induction ws as [|w ws IH]; intros st lt b Hmax Hcap.
  - simpl. exists (capacity b). rewrite app_nil_r. destruct b; reflexivity.
  - simpl. destruct (interpret_word fmt st lt w) as [[[st1 lt1] hs1]|];
      simpl; [|reflexivity].
    destruct (append_hits_grows max_hits hs1 b Hmax Hcap)
      as (cap & Happ & Hlen).
    rewrite Happ. simpl.
    specialize (IH st1 lt1 {| capacity := cap; stored := stored b ++ hs1 |}
                  Hmax Hlen).
    destruct (interpret_words fmt ws st1 lt1) as [[[st2 lt2] hs2]|]; simpl.
    + destruct IH as (cap' & IH). exists cap'. rewrite IH. simpl.
      rewrite <- app_assoc. reflexivity.
    + exact IH.
Qed.

(** With a positive [max_hits_per_chunk] the buffer never fails: [build_hits]
    returns the hits of the words in stream order. *)
Lemma build_hits_pure ws st max_hits fmt :
  0 < max_hits ->
  build_hits ws st max_hits fmt
    = (r ← interpret_words fmt ws st (initial_last_trigger_number st);
       Some (r.2, r.1.1)).
Proof.
  intros Hmax. unfold build_hits.
  destruct (Z.ltb_spec max_hits 0); [lia|].
  pose proof (build_hits_loop_pure max_hits fmt ws st
                (initial_last_trigger_number st)
                {| capacity := max_hits; stored := [] |} Hmax) as Hloop.
  unfold hit_index in Hloop. simpl in Hloop. specialize (Hloop ltac:(lia)).
  fold (initial_last_trigger_number st).
  destruct (interpret_words fmt ws st (initial_last_trigger_number st))
    as [[[st' lt'] hs]|]; simpl.
  - destruct Hloop as (cap & Hloop). rewrite Hloop. reflexivity.
  - rewrite Hloop. reflexivity.
Qed.

Lemma interpret_words_app fmt ws1 : forall ws2 st lt,
  interpret_words fmt (ws1 ++ ws2) st lt
    = (r1 ← interpret_words fmt ws1 st lt;
       r2 ← interpret_words fmt ws2 r1.1.1 r1.1.2;
       Some (r2.1.1, r2.1.2, r1.2 ++ r2.2)).
Proof.
  induction ws1 as [|w ws1 IH]; intros ws2 st lt.
  - simpl. destruct (interpret_words fmt ws2 st lt) as [[[st2 lt2] hs2]|];
      reflexivity.
  - simpl. destruct (interpret_word fmt st lt w) as [[[st1 lt1] hs1]|];
      simpl; [|reflexivity].
    rewrite IH.
    destruct (interpret_words fmt ws1 st1 lt1) as [[[st2 lt2] hs2]|];
      simpl; [|reflexivity].
    destruct (interpret_words fmt ws2 st2 lt2) as [[[st3 lt3] hs3]|];
      simpl; [|reflexivity].
    rewrite app_assoc. reflexivity.
Qed.

(** ** Scenarios on a freshly constructed interpreter *)

(** C9. The eight words of the single empty frame scenario, fed to a freshly
    constructed interpreter, emit no hit and leave all seven event status
    slots at zero.  (Their plane number field is 0 and each of them has the
    frame start flag set, so each one is handled as a frame header.) *)
Theorem single_empty_frame_no_hits :
  exists it,
    RawDataInterpreter.interpret_raw_data RawDataInterpreter.default
      [0x20015555; 0x20015551; 0x20010001; 0x20010000;
       0x20010000; 0x20010000; 0x2001AA50; 0x2001AA51]
      = Some ([], it) /\
    event_status (RawDataInterpreter.buffers it) = [0; 0; 0; 0; 0; 0; 0].
Proof. eexists. split; vm_compute; reflexivity. Qed.

(** C1. Two trigger words with the trigger numbers 1 and 2: fed in one call
    the second TLU hit has the status TRG_WORD, fed in two calls it has
    TRG_WORD | TRG_ERROR.  [last_trigger_number] is not among the buffered
    variables; every call recomputes it from [trigger_number]. *)
Theorem chunking_changes_trigger_status :
  option_map (fun r => map Hit.event_status r.1)
    (RawDataInterpreter.interpret_raw_data RawDataInterpreter.default
       [0x80000001; 0x80000002])
    = Some [0x4000; 0x4000] /\
  option_map (fun r => map Hit.event_status r.1)
    (RawDataInterpreter.interpret_chunks RawDataInterpreter.default
       [[0x80000001]; [0x80000002]])
    = Some [0x4000; 0x4040].
Proof. split; vm_compute; reflexivity. Qed.

(** C3. Three trigger words with the trigger numbers 1, 2, 3 in one chunk on a
    fresh interpreter: the third TLU hit carries TRG_ERROR.  The comparison
    uses [last_trigger_number], which at that point holds the trigger number
    seen two words before. *)
Theorem clean_triggers_get_trg_error :
  option_map (fun r => map (fun h => (Hit.trigger_number h, Hit.event_status h)) r.1)
    (RawDataInterpreter.interpret_raw_data RawDataInterpreter.default
       [0x80000001; 0x80000002; 0x80000003])
    = Some [(1, 0x4000); (2, 0x4000); (3, 0x4040)].
Proof. vm_compute. reflexivity. Qed.

(** ** Construction *)

(** C8, as stated, fails: a raw data interpreter constructed with the trigger
    data format 0 exists and interprets a trigger word, taking the low 31 bits
    as trigger number. *)
Lemma raw_interpreter_accepts_format_0 :
  exists h it,
    RawDataInterpreter.interpret_raw_data (RawDataInterpreter.init 500000 0)
      [0x80010005] = Some ([h], it) /\
    Hit.plane h = 255 /\
    trigger_number (RawDataInterpreter.buffers it) = 0x10005.
Proof. do 2 eexists. repeat split; vm_compute; reflexivity. Qed.

(** C8, amended.  A trigger data format other than 2 is rejected by the
    constructor of [DataInterpreter]: it raises, whatever the chunk size (the
    chunk size check raises first for a chunk size below 100).  The
    constructor of [RawDataInterpreter] stores the format unchecked and starts
    from the reset buffers. *)
Theorem format_rejected_by_data_interpreter (chunk_size fmt max_hits : Z) :
  fmt <> 2 ->
  (exists e, DataInterpreter.init chunk_size fmt = inl e) /\
  (100 <= chunk_size ->
   DataInterpreter.init chunk_size fmt
     = inl DataInterpreter.RuntimeError_bare_raise) /\
  (chunk_size < 100 ->
   DataInterpreter.init chunk_size fmt
     = inl DataInterpreter.RuntimeError_chunk_size) /\
  RawDataInterpreter.trigger_data_format
    (RawDataInterpreter.init max_hits fmt) = fmt /\
  RawDataInterpreter.buffers (RawDataInterpreter.init max_hits fmt)
    = RawDataInterpreter.reset_state.
Proof.
  intros Hfmt. unfold DataInterpreter.init.
  destruct (Z.ltb_spec chunk_size 100);
    destruct (Z.eqb_spec fmt 2); try contradiction; simpl.
  - repeat split; eauto; intros; lia.
  - repeat split; eauto; intros; lia.
Qed.

Lemma format_rejected_by_data_interpreter_witness :
  0 <> 2 /\
  DataInterpreter.init 100000000 0
    = inl DataInterpreter.RuntimeError_bare_raise.
Proof.
  split; [lia|].
  apply (format_rejected_by_data_interpreter 100000000 0 500000); lia.
Defined.

(** ** The TLU branch *)

Lemma trigger_word_classified w :
  Z.testbit w 31 = true ->
  is_mimosa_data w = false /\ is_trigger_word w = true.
Proof.
  intros Hbit. unfold is_mimosa_data, is_trigger_word. split.
  - apply Z.eqb_neq. intros Heq.
    apply (f_equal (fun x => Z.testbit x 31)) in Heq.
    rewrite Z.land_spec, Hbit in Heq. vm_compute in Heq. discriminate.
  - apply Z.eqb_eq. apply Z.bits_inj'. intros n Hn.
    rewrite Z.land_spec. change 0x80000000 with (2 ^ 31).
    rewrite Z.pow2_bits_eqb by lia.
    destruct (Z.eqb_spec 31 n) as [<-|]; [rewrite Hbit|]; reflexivity.
Qed.

Lemma get_trigger_timestamp_field w :
  get_trigger_timestamp w = Z.land (Z.shiftr w 16) 0x7FFF.
Proof. unfold get_trigger_timestamp. rewrite Z.shiftr_land. reflexivity. Qed.

Lemma land_upper_17 x :
  0 <= x < 2 ^ 32 -> Z.land x 0xffff8000 = x - x mod 2 ^ 15.
Proof.
  intros Hx.
  assert (Hsplit : x = Z.land x 0xffff8000 + Z.land x (Z.ones 15)).
  { rewrite Z.add_nocarry_lor.
    - rewrite <- Z.land_lor_distr_r.
      change (Z.lor 0xffff8000 (Z.ones 15)) with (Z.ones 32).
      rewrite Z.land_ones by lia. rewrite Z.mod_small by lia. reflexivity.
    - apply Z.bits_inj'. intros n Hn. rewrite !Z.land_spec, Z.bits_0.
      change 0xffff8000 with (Z.shiftl (Z.ones 17) 15).
      rewrite Z.shiftl_spec by lia.
      destruct (Z.ltb_spec n 15).
      + rewrite (Z.testbit_neg_r _ (n - 15)) by lia.
        rewrite andb_false_r. reflexivity.
      + rewrite (Z.ones_spec_high 15 n) by lia.
        rewrite !andb_false_r. reflexivity. }
  rewrite Z.land_ones in Hsplit by lia. lia.
Qed.

Lemma lor_trigger_timestamp a x :
  0 <= x < 2 ^ 32 ->
  Z.lor (Z.land a 0x7FFF) (Z.land x 0xffff8000)
    = a mod 2 ^ 15 + (x - x mod 2 ^ 15).
Proof.
  intros Hx. rewrite <- Z.add_nocarry_lor.
  - rewrite land_upper_17 by exact Hx.
    change 0x7FFF with (Z.ones 15). rewrite Z.land_ones by lia. reflexivity.
  - apply Z.bits_inj'. intros n Hn. rewrite !Z.land_spec, Z.bits_0.
    change 0xffff8000 with (Z.shiftl (Z.ones 17) 15).
    change 0x7FFF with (Z.ones 15).
    rewrite Z.shiftl_spec by lia.
    destruct (Z.ltb_spec n 15).
    + rewrite (Z.testbit_neg_r _ (n - 15)) by lia.
      rewrite !andb_false_r. reflexivity.
    + rewrite (Z.ones_spec_high 15 n) by lia.
      rewrite andb_false_r. reflexivity.
Qed.

(** A word with bit 31 set is handled as a trigger word and emits exactly
    one hit, with plane 255 and column 0.  With the 32 bit value
    [trigger_timestamp] built from the 15 bit field of the word and the upper
    17 bits of [last_m26_timestamps], 2^15 added once if that is below
    [last_m26_timestamps], and [delta] the distance from
    [last_m26_timestamps] to it (across the 32 bit wrap when
    [trigger_timestamp] is still below): the time stamp of the hit is
    [trigger_timestamp], its frame is [last_frame_id + delta / 4608] as a
    32 bit value, and its row is [delta mod 4608], which is below 4608. *)
Lemma tlu_word_reconstruction fmt st lt w :
  Z.testbit w 31 = true ->
  shaped st ->
  0 <= last_m26_timestamps st < 2 ^ 32 ->
  let last := last_m26_timestamps st in
  let tt0 := Z.lor (Z.land (Z.shiftr w 16) 0x7FFF) (Z.land last 0xFFFF8000) in
  let trigger_timestamp := u32 (if tt0 <? last then tt0 + 2 ^ 15 else tt0) in
  let delta :=
    if trigger_timestamp <? last then trigger_timestamp + (2 ^ 32 - last)
    else trigger_timestamp - last in
  exists st' lt' h,
    interpret_word fmt st lt w = Some (st', lt', [h]) /\
    Hit.plane h = 255 /\
    Hit.column h = 0 /\
    Hit.time_stamp h = trigger_timestamp /\
    Hit.frame h = u32 (last_frame_id st + delta / 4608) /\
    Hit.row h = delta mod 4608 /\
    0 <= Hit.row h < 4608 /\
    0 <= delta < 2 ^ 15 /\
    (tt0 + 2 ^ 15 < 2 ^ 32 ->
     trigger_timestamp = (if tt0 <? last then tt0 + 2 ^ 15 else tt0) /\
     delta = trigger_timestamp - last) /\
    (0 <= last_frame_id st -> last_frame_id st + delta / 4608 < 2 ^ 32 ->
     Hit.frame h = last_frame_id st + delta / 4608).
Proof.
  intros Hbit Hshape Hlast last tt0 trigger_timestamp delta.
  destruct (trigger_word_classified w Hbit) as [Hm Ht].
  unfold interpret_word. rewrite Hm, Ht. unfold interpret_tlu.
  do 3 eexists. split; [reflexivity|].
  rewrite get_trigger_timestamp_field. fold last. fold tt0.
  assert (Htt0 : tt0 = Z.shiftr w 16 mod 2 ^ 15 + (last - last mod 2 ^ 15))
    by (apply lor_trigger_timestamp; exact Hlast).
  pose proof (Z.mod_pos_bound (Z.shiftr w 16) (2 ^ 15) ltac:(lia)) as Hts.
  pose proof (Z.mod_pos_bound last (2 ^ 15) ltac:(lia)) as Hlo.
  set (tt := if tt0 <? last then tt0 + 2 ^ 15 else tt0) in *.
  assert (Htt : last <= tt < last + 2 ^ 15)
    by (subst tt; destruct (Z.ltb_spec tt0 last); lia).
  assert (Hdelta_code :
    (if tt <? last then tt + (2 ^ 32 - last) else tt - last) = tt - last)
    by (destruct (Z.ltb_spec tt last); lia).
  rewrite Hdelta_code.
  assert (Hdelta : delta = tt - last).
  { subst delta trigger_timestamp. unfold u32.
    destruct (Z.ltb_spec tt (2 ^ 32)).
    - rewrite Z.mod_small by lia. destruct (Z.ltb_spec tt last); lia.
    - replace (tt mod 2 ^ 32) with (tt - 2 ^ 32).
      + destruct (Z.ltb_spec (tt - 2 ^ 32) last); lia.
      + apply Z.mod_unique with (q := 1); lia. }
  rewrite <- Hdelta.
  pose proof (Z.mod_pos_bound delta 4608 ltac:(lia)) as Hrow.
  unfold Hit.store, FRAME_UNIT_CYCLE. simpl.
  rewrite list_lookup_total_insert_eq
    by (rewrite (shaped_frame_id st Hshape); lia).
  assert (u32_idemp_mod : forall x, u32 (u32 x) = x mod 2 ^ 32)
    by (intros x; unfold u32; apply Z.mod_mod; lia).
  repeat split.
  - unfold u32. rewrite Z.mod_mod by lia. reflexivity.
  - apply u16_small. lia.
  - rewrite u16_small by lia. lia.
  - rewrite u16_small by lia. lia.
  - lia.
  - lia.
  - subst trigger_timestamp. apply u32_small.
    destruct (Z.ltb_spec tt0 last); lia.
  - subst trigger_timestamp. rewrite u32_small; [lia|].
    fold tt. destruct (Z.ltb_spec tt0 last); lia.
  - intros Hfid Hsum. rewrite u32_idemp_mod. apply Z.mod_small.
    split; [|exact Hsum].
    apply Z.add_nonneg_nonneg; [exact Hfid|]. apply Z.div_pos; lia.
Qed.

Lemma shaped_reset_state : shaped RawDataInterpreter.reset_state.
Proof. constructor; reflexivity. Qed.

(** ** Shapes are kept *)

#[local] Arguments interpret_m26 : simpl never.
#[local] Arguments interpret_tlu : simpl never.
#[local] Arguments Hit.store : simpl never.
#[local] Arguments add_event_status : simpl never.
#[local] Arguments reset_m26_event_status : simpl never.
#[local] Arguments u8 : simpl never.
#[local] Arguments u16 : simpl never.
#[local] Arguments u32 : simpl never.
#[local] Arguments i32 : simpl never.

(** The three branches of the loop body. *)
Lemma interpret_word_cases fmt st lt w r :
  interpret_word fmt st lt w = Some r ->
  (is_mimosa_data w = true /\
   exists p q,
     py_index 6 (get_plane_number w - 1) = Some p /\
     py_index 7 (get_plane_number w - 1 + 1) = Some q /\
     r = interpret_m26 st lt w (get_plane_number w - 1) p q) \/
  (is_mimosa_data w = false /\ is_trigger_word w = true /\
   r = interpret_tlu fmt st lt w) \/
  (is_mimosa_data w = false /\ is_trigger_word w = false /\
   r = (with_event_status
          (add_event_status 0 (event_status st) UNKNOWN_WORD) st, lt, [])).
Proof.
  unfold interpret_word.
  destruct (is_mimosa_data w).
  - destruct (py_index 6 (get_plane_number w - 1)) as [p|];
      [|discriminate].
    destruct (py_index 7 (get_plane_number w - 1 + 1)) as [q|];
      [|discriminate].
    simpl. intros [= <-]. left. split; [reflexivity|].
    exists p, q. repeat split.
  - destruct (is_trigger_word w); intros [= <-]; right; [left|right];
      repeat split.
Qed.


Ltac state_simpl :=
  cbn [frame_id last_frame_id frame_length m26_data_loss word_index n_words
       row event_status event_number trigger_number m26_timestamps
       trigger_timestamp last_m26_timestamps last_trigger_timestamp
       with_frame_id with_last_frame_id with_frame_length with_m26_data_loss
       with_word_index with_n_words with_row with_event_status
       with_trigger_number with_m26_timestamps with_trigger_timestamp
       with_last_m26_timestamps fst snd] in *.

Ltac split_ifs :=
  repeat match goal with
    | |- context [if ?b then _ else _] => destruct b eqn:?
    end.

Lemma length_add_event_status q es code :
  length (add_event_status q es code) = length es.
Proof. unfold add_event_status. apply length_insert. Qed.

Lemma length_reset_m26_event_status es :
  length (reset_m26_event_status es) = length es.
Proof.
  unfold reset_m26_event_status. simpl. rewrite !length_insert. reflexivity.
Qed.

Ltac solve_shaped Hshape :=
  destruct Hshape; constructor; state_simpl;
  rewrite ?length_reset_m26_event_status, ?length_add_event_status,
    ?length_insert;
  assumption.

Lemma interpret_m26_shaped st lt w pid p q :
  shaped st -> shaped (interpret_m26 st lt w pid p q).1.1.
Proof.
  intros Hshape. unfold interpret_m26. cbv zeta.
  split_ifs; solve_shaped Hshape.
Qed.

Lemma interpret_tlu_shaped fmt st lt w :
  shaped st -> shaped (interpret_tlu fmt st lt w).1.1.
Proof.
  intros Hshape. unfold interpret_tlu. cbv zeta.
  split_ifs; solve_shaped Hshape.
Qed.

Lemma interpret_word_shaped fmt st lt w st' lt' hs :
  interpret_word fmt st lt w = Some (st', lt', hs) ->
  shaped st -> shaped st'.
Proof.
  intros Hstep Hshape.
  destruct (interpret_word_cases _ _ _ _ _ Hstep)
    as [(_ & p & q & _ & _ & Hr) | [(_ & _ & Hr) | (_ & _ & Hr)]].
  - pose proof (interpret_m26_shaped st lt w (get_plane_number w - 1) p q
                  Hshape) as Hs.
    rewrite <- Hr in Hs. exact Hs.
  - pose proof (interpret_tlu_shaped fmt st lt w Hshape) as Hs.
    rewrite <- Hr in Hs. exact Hs.
  - inversion Hr; subst. solve_shaped Hshape.
Qed.

Lemma interpret_words_shaped fmt ws : forall st lt st' lt' hs,
  interpret_words fmt ws st lt = Some (st', lt', hs) ->
  shaped st -> shaped st'.
Proof.
  induction ws as [|w ws IH]; intros st lt st' lt' hs Hrun Hshape.
  - simpl in Hrun. inversion Hrun; subst. exact Hshape.
  - simpl in Hrun.
    destruct (interpret_word fmt st lt w) as [[[st1 lt1] hs1]|] eqn:Hstep;
      [|discriminate].
    simpl in Hrun.
    destruct (interpret_words fmt ws st1 lt1) as [[[st2 lt2] hs2]|] eqn:Hrest;
      [|discriminate].
    simpl in Hrun. inversion Hrun; subst.
    eapply IH; [exact Hrest|]. eapply interpret_word_shaped; eassumption.
Qed.

(** ** Status bits of the emitted hits *)

Lemma testbit_u32_low x n : 0 <= n < 32 -> Z.testbit (u32 x) n = Z.testbit x n.
Proof. intros Hn. unfold u32. apply Z.mod_pow2_bits_low. lia. Qed.

Lemma land_bit_clear x n :
  0 <= n -> Z.testbit x n = false -> Z.land x (2 ^ n) = 0.
Proof.
  intros Hn Hbit. apply Z.bits_inj'. intros m Hm.
  rewrite Z.land_spec, Z.bits_0, Z.pow2_bits_eqb by lia.
  destruct (Z.eqb_spec n m) as [<-|]; [rewrite Hbit|rewrite andb_false_r];
    reflexivity.
Qed.

Section StatusBit.

(** A bit position of the status word. *)
Variable n : Z.
Hypothesis n_range : 0 <= n < 32.

Lemma bit_clear_insert (es : list Z) (j : nat) (v : Z) :
  Z.testbit v n = false ->
  (forall i : nat, (1 <= i)%nat -> Z.testbit (es !!! i) n = false) ->
  forall i : nat, (1 <= i)%nat -> Z.testbit (<[j := v]> es !!! i) n = false.
Proof.
  intros Hv Hes i Hi.
  destruct (decide (j = i)) as [->|Hne].
  - destruct (decide (i < length es)%nat).
    + rewrite list_lookup_total_insert_eq by assumption. exact Hv.
    + rewrite list_insert_ge by lia. apply Hes, Hi.
  - rewrite list_lookup_total_insert_ne by assumption. apply Hes, Hi.
Qed.

Lemma bit_clear_insert_0 (es : list Z) (v : Z) :
  (forall i : nat, (1 <= i)%nat -> Z.testbit (es !!! i) n = false) ->
  forall i : nat,
    (1 <= i)%nat -> Z.testbit (<[0%nat := v]> es !!! i) n = false.
Proof.
  intros Hes i Hi. rewrite list_lookup_total_insert_ne by lia.
  apply Hes, Hi.
Qed.

Lemma bit_clear_add_event_status (es : list Z) (q : nat) (code : Z) :
  Z.testbit code n = false ->
  (forall i : nat, (1 <= i)%nat -> Z.testbit (es !!! i) n = false) ->
  forall i : nat,
    (1 <= i)%nat -> Z.testbit (add_event_status q es code !!! i) n = false.
Proof.
  intros Hcode Hes i Hi. unfold add_event_status.
  destruct (decide (q = i)) as [->|Hne].
  - destruct (decide (i < length es)%nat).
    + rewrite list_lookup_total_insert_eq by assumption.
      rewrite testbit_u32_low by exact n_range.
      rewrite Z.lor_spec, Hcode, (Hes i Hi). reflexivity.
    + rewrite list_insert_ge by lia. apply Hes, Hi.
  - rewrite list_lookup_total_insert_ne by assumption. apply Hes, Hi.
Qed.

Lemma bit_clear_reset (es : list Z) :
  (forall i : nat, (1 <= i)%nat -> Z.testbit (es !!! i) n = false) ->
  forall i : nat,
    (1 <= i)%nat -> Z.testbit (reset_m26_event_status es !!! i) n = false.
Proof.
  intros Hes. unfold reset_m26_event_status. simpl.
  repeat apply bit_clear_insert; try apply Z.bits_0. exact Hes.
Qed.

End StatusBit.

Ltac solve_bit_clear :=
  repeat first
    [ assumption
    | apply bit_clear_reset
    | apply bit_clear_add_event_status
    | apply bit_clear_insert_0
    | reflexivity
    | lia ].

Lemma interpret_m26_status st lt w pid p q :
  m26_status_bit_clear 4 st ->
  0 <= pid + 1 < 16 ->
  q = Z.to_nat (pid + 1) ->
  m26_status_bit_clear 4 (interpret_m26 st lt w pid p q).1.1 /\
  forall h, In h (interpret_m26 st lt w pid p q).2 ->
    Hit.plane h = pid + 1 /\
    (Hit.plane h <> 0 -> Z.testbit (Hit.event_status h) 4 = false).
Proof.
  intros Hclear Hpid Hq. unfold m26_status_bit_clear in *.
  unfold interpret_m26. cbv zeta.
  split_ifs; (split; [state_simpl; solve_bit_clear|]);
    intros h Hin; cbn [snd In] in Hin; try contradiction;
    apply in_map_iff in Hin as (k & <- & _);
    unfold Hit.store; cbn [Hit.plane Hit.event_status];
    rewrite u8_small by lia; (split; [reflexivity|]); intros Hne;
    rewrite testbit_u32_low by lia;
    match goal with
    | |- Z.testbit (?es !!! q) 4 = false =>
        assert (Hall : forall i : nat,
                  (1 <= i)%nat -> Z.testbit (es !!! i) 4 = false)
          by solve_bit_clear;
        apply Hall; lia
    end.
Qed.

Lemma interpret_tlu_status fmt st lt w :
  shaped st ->
  m26_status_bit_clear 4 st ->
  m26_status_bit_clear 4 (interpret_tlu fmt st lt w).1.1 /\
  forall h, In h (interpret_tlu fmt st lt w).2 ->
    Hit.plane h = 255 /\
    (Hit.event_status h = TRG_WORD \/
     Hit.event_status h = Z.lor TRG_WORD TRG_ERROR).
Proof.
  intros Hshape Hclear. unfold m26_status_bit_clear in *.
  pose proof (shaped_event_status st Hshape) as Hlen.
  unfold interpret_tlu. cbv zeta.
  assert (Hes1 :
    add_event_status 0 (<[0%nat:=0]> (event_status st)) TRG_WORD !!! 0%nat
      = TRG_WORD).
  { unfold add_event_status.
    rewrite list_lookup_total_insert_eq by (rewrite length_insert; lia).
    rewrite list_lookup_total_insert_eq by lia. reflexivity. }
  split.
  - split_ifs; state_simpl; solve_bit_clear.
  - intros h Hin. cbn [snd In] in Hin. destruct Hin as [<-|[]].
    unfold Hit.store; cbn [Hit.plane Hit.event_status].
    split; [reflexivity|].
    split_ifs.
    + right. unfold add_event_status at 1.
      rewrite list_lookup_total_insert_eq
        by (rewrite length_add_event_status, length_insert; lia).
      rewrite Hes1. reflexivity.
    + left. rewrite Hes1. reflexivity.
    + left. rewrite Hes1. reflexivity.
Qed.

(** What one word contributes: the status slots 1 to 6 stay free of
    UNKNOWN_WORD, a TLU hit has the status TRG_WORD or TRG_WORD | TRG_ERROR,
    and a hit of a plane other than 0 does not carry UNKNOWN_WORD. *)
Lemma interpret_word_status fmt st lt w st' lt' hs :
  interpret_word fmt st lt w = Some (st', lt', hs) ->
  shaped st ->
  m26_status_bit_clear 4 st ->
  m26_status_bit_clear 4 st' /\
  forall h, In h hs ->
    (Hit.plane h = 255 ->
     Hit.event_status h = TRG_WORD \/
     Hit.event_status h = Z.lor TRG_WORD TRG_ERROR) /\
    (Hit.plane h <> 0 -> Z.land (Hit.event_status h) UNKNOWN_WORD = 0).
Proof.
  intros Hstep Hshape Hclear.
  destruct (interpret_word_cases _ _ _ _ _ Hstep)
    as [(_ & p & q & Hp & Hq & Hr) | [(_ & _ & Hr) | (_ & _ & Hr)]].
  - destruct (py_index_plane w p q Hp Hq) as (_ & _ & Hq' & _).
    pose proof (get_plane_number_range w) as Hrange.
    destruct (interpret_m26_status st lt w (get_plane_number w - 1) p q Hclear)
      as [Hc Hh]; [lia| rewrite Hq'; f_equal; lia |].
    rewrite <- Hr in Hc, Hh. split; [exact Hc|].
    intros h Hin. destruct (Hh h Hin) as [Hplane Hbit]. split.
    + intros H255. lia.
    + intros Hne. apply (land_bit_clear _ 4); [lia|]. apply Hbit, Hne.
  - destruct (interpret_tlu_status fmt st lt w Hshape Hclear) as [Hc Hh].
    rewrite <- Hr in Hc, Hh. split; [exact Hc|].
    intros h Hin. destruct (Hh h Hin) as [Hplane Hst]. split.
    + intros _. exact Hst.
    + intros _. destruct Hst as [-> | ->]; reflexivity.
  - inversion Hr; subst. split.
    + unfold m26_status_bit_clear in *. state_simpl.
      unfold add_event_status. apply bit_clear_insert_0. exact Hclear.
    + intros h [].
Qed.

Lemma append_hits_stored max_hits hs : forall b b',
  append_hits max_hits b hs = Some b' -> stored b' = stored b ++ hs.
Proof.
  induction hs as [|h hs IH]; intros b b' Happ.
  - simpl in Happ. inversion Happ; subst. rewrite app_nil_r. reflexivity.
  - simpl in Happ. unfold append_hit in Happ.
    destruct (hit_index b <?
              (if hit_index b >=? capacity b then capacity b + max_hits
               else capacity b)); [|discriminate].
    simpl in Happ. apply IH in Happ. simpl in Happ.
    rewrite <- app_assoc in Happ. exact Happ.
Qed.

Lemma build_hits_loop_sound max_hits fmt ws : forall st lt b st' lt' b',
  build_hits_loop max_hits fmt ws st lt b = Some (st', lt', b') ->
  exists hs,
    interpret_words fmt ws st lt = Some (st', lt', hs) /\
    stored b' = stored b ++ hs.
Proof.
  induction ws as [|w ws IH]; intros st lt b st' lt' b' Hloop.
  - simpl in Hloop. inversion Hloop; subst. exists [].
    rewrite app_nil_r. split; reflexivity.
  - simpl in Hloop.
    destruct (interpret_word fmt st lt w) as [[[st1 lt1] hs1]|] eqn:Hstep;
      [|discriminate].
    simpl in Hloop.
    destruct (append_hits max_hits b hs1) as [b1|] eqn:Happ; [|discriminate].
    simpl in Hloop. apply IH in Hloop as (hs2 & Hrest & Hstored).
    apply append_hits_stored in Happ.
    exists (hs1 ++ hs2). simpl. rewrite Hstep. simpl. rewrite Hrest. simpl.
    split; [reflexivity|]. rewrite Hstored, Happ, app_assoc. reflexivity.
Qed.

(** Whatever the buffer size, a call of [build_hits] that returns, returns the
    hits of the words in stream order. *)
Lemma build_hits_sound ws st max_hits fmt hs st' :
  build_hits ws st max_hits fmt = Some (hs, st') ->
  exists lt',
    interpret_words fmt ws st (initial_last_trigger_number st)
      = Some (st', lt', hs).
Proof.
  unfold build_hits. destruct (max_hits <? 0); [discriminate|].
  fold (initial_last_trigger_number st).
  destruct (build_hits_loop max_hits fmt ws st (initial_last_trigger_number st)
              {| capacity := max_hits; stored := [] |})
    as [[[st1 lt1] b1]|] eqn:Hloop; [|discriminate].
  simpl. intros [= <- <-].
  apply build_hits_loop_sound in Hloop as (hs & Hrun & Hstored).
  simpl in Hstored. rewrite Hstored. exists lt1. exact Hrun.
Qed.

Lemma interpret_words_status fmt ws : forall st lt st' lt' hs,
  interpret_words fmt ws st lt = Some (st', lt', hs) ->
  shaped st ->
  m26_status_bit_clear 4 st ->
  m26_status_bit_clear 4 st' /\
  forall h, In h hs ->
    (Hit.plane h = 255 ->
     Hit.event_status h = TRG_WORD \/
     Hit.event_status h = Z.lor TRG_WORD TRG_ERROR) /\
    (Hit.plane h <> 0 -> Z.land (Hit.event_status h) UNKNOWN_WORD = 0).
Proof.
  induction ws as [|w ws IH]; intros st lt st' lt' hs Hrun Hshape Hclear.
  - simpl in Hrun. inversion Hrun; subst. split; [exact Hclear|].
    intros h [].
  - simpl in Hrun.
    destruct (interpret_word fmt st lt w) as [[[st1 lt1] hs1]|] eqn:Hstep;
      [|discriminate].
    simpl in Hrun.
    destruct (interpret_words fmt ws st1 lt1) as [[[st2 lt2] hs2]|] eqn:Hrest;
      [|discriminate].
    simpl in Hrun. inversion Hrun; subst.
    destruct (interpret_word_status _ _ _ _ _ _ _ Hstep Hshape Hclear)
      as [Hclear1 Hhits1].
    pose proof (interpret_word_shaped _ _ _ _ _ _ _ Hstep Hshape) as Hshape1.
    destruct (IH _ _ _ _ _ Hrest Hshape1 Hclear1) as [Hclear2 Hhits2].
    split; [exact Hclear2|].
    intros h Hin. apply in_app_iff in Hin as [Hin|Hin]; auto.
Qed.

Lemma interpret_chunks_status chunks : forall it hits it',
  RawDataInterpreter.interpret_chunks it chunks = Some (hits, it') ->
  shaped (RawDataInterpreter.buffers it) ->
  m26_status_bit_clear 4 (RawDataInterpreter.buffers it) ->
  forall h, In h hits ->
    (Hit.plane h = 255 ->
     Hit.event_status h = TRG_WORD \/
     Hit.event_status h = Z.lor TRG_WORD TRG_ERROR) /\
    (Hit.plane h <> 0 -> Z.land (Hit.event_status h) UNKNOWN_WORD = 0).
Proof.
  induction chunks as [|c cs IH]; intros it hits it' Hrun Hshape Hclear.
  - simpl in Hrun. inversion Hrun; subst. intros h [].
  - simpl in Hrun. unfold RawDataInterpreter.interpret_raw_data in Hrun.
    destruct (build_hits c (RawDataInterpreter.buffers it)
                (RawDataInterpreter.max_hits_per_chunk it)
                (RawDataInterpreter.trigger_data_format it))
      as [[hs1 st1]|] eqn:Hbuild; [|discriminate].
    simpl in Hrun.
    match type of Hrun with
    | context [RawDataInterpreter.interpret_chunks ?x cs] =>
        destruct (RawDataInterpreter.interpret_chunks x cs)
          as [[hs2 it2]|] eqn:Hrest; [|discriminate]
    end.
    simpl in Hrun. inversion Hrun; subst.
    apply build_hits_sound in Hbuild as (lt1 & Hwords).
    destruct (interpret_words_status _ _ _ _ _ _ _ Hwords Hshape Hclear)
      as [Hclear1 Hhits1].
    pose proof (interpret_words_shaped _ _ _ _ _ _ _ Hwords Hshape) as Hshape1.
    intros h Hin. apply in_app_iff in Hin as [Hin|Hin]; [auto|].
    eapply IH; [exact Hrest| exact Hshape1 | exact Hclear1 | exact Hin].
Qed.

(** C10, as stated, fails: after an unknown word, Mimosa26 words with the
    plane number 0 take their status from slot 0, and the hit of their column
    word carries UNKNOWN_WORD. *)
Lemma plane_0_hit_carries_unknown_word :
  option_map (fun r => map (fun h => (Hit.plane h, Hit.event_status h)) r.1)
    (RawDataInterpreter.interpret_raw_data RawDataInterpreter.default
       [0x00000000; 0x20000000; 0x20000000; 0x20000000; 0x20000001;
        0x20000001; 0x20000011; 0x20000004])
    = Some [(0, UNKNOWN_WORD)].
Proof. vm_compute. reflexivity. Qed.

(** C10, amended.  On a freshly constructed interpreter, over any sequence of
    chunks: every TLU hit (plane 255) has the event status TRG_WORD or
    TRG_WORD | TRG_ERROR, and no hit of a plane other than 0 (the planes 1 to
    6 and the TLU) carries UNKNOWN_WORD. *)
Theorem tlu_status_and_unknown_word max_hits fmt chunks hits it h :
  RawDataInterpreter.interpret_chunks (RawDataInterpreter.init max_hits fmt)
    chunks = Some (hits, it) ->
  In h hits ->
  (Hit.plane h = 255 ->
   Hit.event_status h = TRG_WORD \/
   Hit.event_status h = Z.lor TRG_WORD TRG_ERROR) /\
  (Hit.plane h <> 0 -> Z.land (Hit.event_status h) UNKNOWN_WORD = 0).
Proof.
  intros Hrun Hin.
  eapply interpret_chunks_status; [exact Hrun| | |exact Hin].
  - exact shaped_reset_state.
  - intros i Hi. cbn [RawDataInterpreter.buffers RawDataInterpreter.init
                      RawDataInterpreter.reset].
    do 7 (destruct i as [|i]; [try lia; reflexivity|]). reflexivity.
Qed.

Lemma tlu_status_and_unknown_word_witness :
  (255 = 255 -> 0x4040 = TRG_WORD \/ 0x4040 = Z.lor TRG_WORD TRG_ERROR) /\
  (255 <> 0 -> Z.land 0x4040 UNKNOWN_WORD = 0).
Proof.
  apply (tlu_status_and_unknown_word 500000 2
           [[0x00000000; 0x80000001]; [0x80000002]]
           [Hit.mk 255 0 0 1 0 0 0x4000; Hit.mk 255 0 0 2 0 0 0x4040]
           (RawDataInterpreter.mk 500000 2
              (with_trigger_number 2
                 (with_event_status [0x4040; 0; 0; 0; 0; 0; 0]
                    RawDataInterpreter.reset_state))
              (replicate 6 0))
           (Hit.mk 255 0 0 2 0 0 0x4040)).
  - vm_compute. reflexivity.
  - right. left. reflexivity.
Defined.

(** ** The paths of the Mimosa26 branch *)

(** The pixel word slots of a frame of length L are the positions 6 to
    5 + L. *)
Lemma at_pixel_word_positions st p :
  6 <= word_index st !!! p + 1 <= 5 + frame_length st !!! p ->
  frame_length st !!! p <= 131070 ->
  at_pixel_word st p = true.
Proof.
  intros Hpos Hfl. unfold at_pixel_word, next_word_index.
  rewrite i32_small by lia. cbv zeta. rewrite Z.gtb_ltb.
  repeat (apply andb_true_intro; split);
    apply negb_true_iff; first [apply Z.eqb_neq | apply Z.ltb_ge]; lia.
Qed.

(** A word that reaches the row / column branch while [n_words] of its plane
    is not 0 is a column word. *)
Lemma interpret_m26_column_word st lt w pid p q :
  is_data_loss w = false ->
  is_frame_header w = false ->
  m26_data_loss st !!! p = false ->
  at_pixel_word st p = true ->
  n_words st !!! p <> 0 ->
  interpret_m26 st lt w pid p q
    = (let es :=
         if get_column w >=? 1152
         then add_event_status q (event_status st) COL_ERROR
         else event_status st in
       (with_event_status (reset_m26_event_status es)
          (with_n_words (<[p := u32 (n_words st !!! p - 1)]> (n_words st))
             (with_word_index (<[p := next_word_index st p]> (word_index st))
                st)),
        lt,
        map (fun k : nat =>
               Hit.store (pid + 1) (frame_id st !!! q)
                 (m26_timestamps st !!! p)
                 (if trigger_number st <? 0 then 0 else trigger_number st)
                 (get_column w + Z.of_nat k) (row st !!! p) (es !!! q))
            (seq 0 (Z.to_nat (get_n_hits w + 1))))).
Proof.
  intros Hloss Hhdr Hl Hpix Hnw. unfold interpret_m26.
  rewrite Hloss, Hhdr, Hl. cbv zeta.
  unfold at_pixel_word in Hpix. cbv zeta in Hpix.
  repeat (apply andb_true_iff in Hpix; destruct Hpix as [Hpix ?]).
  repeat match goal with
    | H : negb _ = true |- _ => apply negb_true_iff in H
    end.
  unfold next_word_index in *.
  repeat match goal with
    | H : _ = false |- _ => rewrite H
    end.
  destruct (Z.eqb_spec (n_words st !!! p) 0); [contradiction|].
  reflexivity.
Qed.

Lemma u32_idemp x : u32 (u32 x) = u32 x.
Proof. unfold u32. apply Z.mod_mod. lia. Qed.

Lemma lookup_add_event_status q es code :
  (q < length es)%nat ->
  add_event_status q es code !!! q = u32 (Z.lor (es !!! q) code).
Proof.
  intros Hq. unfold add_event_status.
  apply list_lookup_total_insert_eq. exact Hq.
Qed.

Lemma lookup_map_seq {A} (f : nat -> A) (n j : nat) :
  (j < n)%nat -> map f (seq 0 n) !! j = Some (f j).
Proof.
  intros Hj.
  change (map f (seq 0 n)) with (f <$> seq 0 n).
  rewrite list_lookup_fmap, lookup_seq_lt by exact Hj. reflexivity.
Qed.

Lemma interpret_words_cons fmt w ws st lt :
  interpret_words fmt (w :: ws) st lt
    = (r ← interpret_word fmt st lt w;
       r' ← interpret_words fmt ws r.1.1 r.1.2;
       Some (r'.1.1, r'.1.2, r.2 ++ r'.2)).
Proof. reflexivity. Qed.

(** ** Pixel groups *)

(** C6. A column word (a Mimosa26 word that the positional dispatch of its
    plane sends to the row / column branch, reached while [n_words] of the
    plane is positive) with the column [c] and
    the hits field [k] emits exactly [k + 1] hits.  The hit number [j] of the
    group has the column [c + j]; all of them have the plane number of the
    word and the frame, time stamp, trigger number, row and event status of
    the plane at that moment (the status includes COL_ERROR when [c] is out
    of range), each as stored in its field of the hit record.  In the output
    of [build_hits] the group stands, unbroken, after the hits of the words
    before the column word and before the hits of the words after it. *)
Theorem column_word_group fmt max_hits st0 ws1 w ws2 st lt hs1 p :
  0 < max_hits ->
  shaped st0 ->
  interpret_words fmt ws1 st0 (initial_last_trigger_number st0)
    = Some (st, lt, hs1) ->
  is_mimosa_data w = true ->
  is_data_loss w = false ->
  is_frame_header w = false ->
  plane_slot w = Some p ->
  m26_data_loss st !!! p = false ->
  at_pixel_word st p = true ->
  0 < n_words st !!! p ->
  let q := Z.to_nat (get_plane_number w) in
  let c := get_column w in
  let k := get_n_hits w in
  let status :=
    if c >=? 1152 then Z.lor (event_status st !!! q) COL_ERROR
    else event_status st !!! q in
  exists st' group,
    interpret_word fmt st lt w = Some (st', lt, group) /\
    Z.of_nat (length group) = k + 1 /\
    (forall j : nat, Z.of_nat j <= k ->
       exists h,
         group !! j = Some h /\
         Hit.column h = c + Z.of_nat j /\
         Hit.plane h = get_plane_number w /\
         Hit.frame h = u32 (frame_id st !!! q) /\
         Hit.time_stamp h = u32 (m26_timestamps st !!! p) /\
         Hit.trigger_number h
           = u16 (if trigger_number st <? 0 then 0 else trigger_number st) /\
         Hit.row h = u16 (row st !!! p) /\
         Hit.event_status h = u32 status) /\
    (forall st2 lt2 hs2,
       interpret_words fmt ws2 st' lt = Some (st2, lt2, hs2) ->
       build_hits (ws1 ++ w :: ws2) st0 max_hits fmt
         = Some (hs1 ++ group ++ hs2, st2)).
Proof.
  intros Hmax Hshape0 Hrun Hm Hloss Hhdr Hslot Hl Hpix Hnw q c k status.
  pose proof (interpret_words_shaped _ _ _ _ _ _ _ Hrun Hshape0) as Hshape.
  unfold plane_slot in Hslot.
  pose proof (get_plane_number_range w) as Hrange.
  pose proof (get_n_hits_range w) as Hk.
  pose proof (get_column_range w) as Hc.
  destruct (py_index_6 _ _ Hslot) as (Hp & Hpid & _).
  assert (Hq7 : py_index 7 (get_plane_number w - 1 + 1) = Some q).
  { unfold py_index.
    replace (get_plane_number w - 1 + 1) with (get_plane_number w) by lia.
    cases_Zcmp; try lia. reflexivity. }
  assert (Hstep : interpret_word fmt st lt w
                  = Some (interpret_m26 st lt w (get_plane_number w - 1) p q)).
  { unfold interpret_word. rewrite Hm, Hslot. cbn [mbind option_bind].
    rewrite Hq7. reflexivity. }
  rewrite (interpret_m26_column_word st lt w _ p q Hloss Hhdr Hl Hpix)
    in Hstep by lia.
  cbv zeta in Hstep.
  do 2 eexists. split; [exact Hstep|].
  split; [|split].
  - rewrite length_map, length_seq. fold k. lia.
  - intros j Hj. eexists. split.
    + apply lookup_map_seq. fold k. lia.
    + unfold Hit.store. cbn [Hit.column Hit.plane Hit.frame Hit.time_stamp
                             Hit.trigger_number Hit.row Hit.event_status].
      fold c. repeat split.
      * apply u16_small. lia.
      * rewrite u8_small by lia. lia.
      * subst status. fold c.
        destruct (c >=? 1152); [|reflexivity].
        rewrite lookup_add_event_status
          by (rewrite (shaped_event_status st Hshape); lia).
        apply u32_idemp.
  - intros st2 lt2 hs2 Hrest.
    rewrite build_hits_pure by exact Hmax.
    rewrite interpret_words_app, Hrun. cbn [mbind option_bind fst snd].
    rewrite interpret_words_cons, Hstep. cbn [mbind option_bind fst snd].
    rewrite Hrest. reflexivity.
Qed.

Lemma column_word_group_witness :
  exists st2,
    build_hits
      ([0x20115555; 0x20100000; 0x20100007; 0x20100000; 0x20100001;
        0x20100001; 0x20100321]
       ++ 0x20100192 :: [0x2010AA50; 0x2010AA51])
      RawDataInterpreter.reset_state 500000 2
    = Some ([] ++ [Hit.mk 1 7 0x5555 0 100 50 0; Hit.mk 1 7 0x5555 0 101 50 0;
                   Hit.mk 1 7 0x5555 0 102 50 0] ++ [], st2).
Proof.
  edestruct (column_word_group 2 500000 RawDataInterpreter.reset_state
               [0x20115555; 0x20100000; 0x20100007; 0x20100000; 0x20100001;
                0x20100001; 0x20100321]
               0x20100192 [0x2010AA50; 0x2010AA51])
    as (st' & group & Hstep & _ & _ & Horder).
  - lia.
  - exact shaped_reset_state.
  - vm_compute. reflexivity.
  - reflexivity.
  - reflexivity.
  - reflexivity.
  - vm_compute. reflexivity.
  - vm_compute. reflexivity.
  - apply at_pixel_word_positions; vm_compute; [split|]; discriminate.
  - vm_compute. reflexivity.
  - vm_compute in Hstep. injection Hstep as <- <-.
    eexists. eapply Horder. vm_compute. reflexivity.
Defined.

(** ** Trigger words in a chunk *)

(** C2. A word with bit 31 set, at any place of a chunk, is handled as a
    trigger word and gives exactly one hit, with plane 255 and column 0.
    With the 32 bit value [trigger_timestamp] built from the 15 bit field of
    the word and the upper 17 bits of [last_m26_timestamps], 2^15 added once
    if that is below [last_m26_timestamps], and [delta] the distance from
    [last_m26_timestamps] to it (across the 32 bit wrap when
    [trigger_timestamp] is still below): the time stamp of the hit is
    [trigger_timestamp], its frame is [last_frame_id + delta / 4608] as a
    32 bit value, and its row is [delta mod 4608], which is below 4608.  In
    the output of [build_hits], for a positive buffer size, this one hit
    stands after the hits of the words before the trigger word and before
    the hits of the words after it. *)
Theorem tlu_hit_reconstruction fmt max_hits st0 ws1 w ws2 st lt hs1 :
  0 < max_hits ->
  shaped st0 ->
  interpret_words fmt ws1 st0 (initial_last_trigger_number st0)
    = Some (st, lt, hs1) ->
  Z.testbit w 31 = true ->
  0 <= last_m26_timestamps st < 2 ^ 32 ->
  let last := last_m26_timestamps st in
  let tt0 := Z.lor (Z.land (Z.shiftr w 16) 0x7FFF) (Z.land last 0xFFFF8000) in
  let trigger_timestamp := u32 (if tt0 <? last then tt0 + 2 ^ 15 else tt0) in
  let delta :=
    if trigger_timestamp <? last then trigger_timestamp + (2 ^ 32 - last)
    else trigger_timestamp - last in
  exists st' lt' h,
    interpret_word fmt st lt w = Some (st', lt', [h]) /\
    Hit.plane h = 255 /\
    Hit.column h = 0 /\
    Hit.time_stamp h = trigger_timestamp /\
    Hit.frame h = u32 (last_frame_id st + delta / 4608) /\
    Hit.row h = delta mod 4608 /\
    0 <= Hit.row h < 4608 /\
    0 <= delta < 2 ^ 15 /\
    (tt0 + 2 ^ 15 < 2 ^ 32 ->
     trigger_timestamp = (if tt0 <? last then tt0 + 2 ^ 15 else tt0) /\
     delta = trigger_timestamp - last) /\
    (0 <= last_frame_id st -> last_frame_id st + delta / 4608 < 2 ^ 32 ->
     Hit.frame h = last_frame_id st + delta / 4608) /\
    (forall st2 lt2 hs2,
       interpret_words fmt ws2 st' lt' = Some (st2, lt2, hs2) ->
       build_hits (ws1 ++ w :: ws2) st0 max_hits fmt
         = Some (hs1 ++ h :: hs2, st2)).
Proof.
  intros Hmax Hshape0 Hrun Hbit Hlast last tt0 trigger_timestamp delta.
  pose proof (interpret_words_shaped _ _ _ _ _ _ _ Hrun Hshape0) as Hshape.
  pose proof (tlu_word_reconstruction fmt st lt w Hbit Hshape Hlast) as Hword.
  cbv zeta in Hword. subst delta trigger_timestamp tt0 last.
  destruct Hword
    as (st' & lt' & h & Hstep & H1 & H2 & H3 & H4 & H5 & H6 & H7 & H8 & H9).
  exists st', lt', h.
  repeat (split; [assumption|]).
  intros st2 lt2 hs2 Hrest.
  rewrite build_hits_pure by exact Hmax.
  rewrite interpret_words_app, Hrun. cbn [mbind option_bind fst snd].
  rewrite interpret_words_cons, Hstep. cbn [mbind option_bind fst snd].
  rewrite Hrest. reflexivity.
Qed.

Lemma tlu_hit_reconstruction_witness :
  exists st2,
    build_hits
      ([0x20115555; 0x20100000; 0x20116755] ++ 0xA0000001 :: [0x20100000])
      RawDataInterpreter.reset_state 500000 2
    = Some ([] ++ Hit.mk 255 4 0xA000 1 0 683 0x4000 :: [], st2).
Proof.
  edestruct (tlu_hit_reconstruction 2 500000 RawDataInterpreter.reset_state
               [0x20115555; 0x20100000; 0x20116755]
               0xA0000001 [0x20100000])
    as (st' & lt' & h & Hstep & _ & _ & _ & _ & _ & _ & _ & _ & _ & Horder).
  - lia.
  - exact shaped_reset_state.
  - vm_compute. reflexivity.
  - reflexivity.
  - vm_compute. split; [discriminate|reflexivity].
  - vm_compute in Hstep. injection Hstep as <- <- <-.
    eexists. eapply Horder. vm_compute. reflexivity.
Defined.

(** ** Loss mode *)

Lemma interpret_m26_hit_plane st lt w pid p q h :
  In h (interpret_m26 st lt w pid p q).2 -> Hit.plane h = u8 (pid + 1).
Proof.
  unfold interpret_m26. cbv zeta.
  split_ifs; intros Hin; cbn [snd In] in Hin; try contradiction;
    apply in_map_iff in Hin as (k & <- & _); reflexivity.
Qed.

(** A word of one plane leaves the decoding position and the loss flag of the
    other planes alone. *)
Lemma interpret_m26_other_slot st lt w pid p' q p :
  p <> p' ->
  plane_position (interpret_m26 st lt w pid p' q).1.1 p = plane_position st p /\
  m26_data_loss (interpret_m26 st lt w pid p' q).1.1 !!! p
    = m26_data_loss st !!! p.
Proof.
  intros Hne. unfold interpret_m26, plane_position. cbv zeta.
  split_ifs; state_simpl;
    rewrite ?list_lookup_total_insert_ne by (intros Heq; apply Hne; symmetry; exact Heq);
    split; reflexivity.
Qed.

(** In loss mode a word that is not handled as a frame header is dropped. *)
Lemma interpret_m26_discard st lt w pid p q :
  (p < length (m26_data_loss st))%nat ->
  m26_data_loss st !!! p = true ->
  (is_frame_header w = true -> is_data_loss w = true) ->
  (interpret_m26 st lt w pid p q).2 = [] /\
  (interpret_m26 st lt w pid p q).1.2 = lt /\
  plane_position (interpret_m26 st lt w pid p q).1.1 p = plane_position st p /\
  m26_data_loss (interpret_m26 st lt w pid p q).1.1 !!! p = true.
Proof.
  intros Hp Hl Hhdr. unfold interpret_m26.
  destruct (is_data_loss w) eqn:Hloss.
  - unfold plane_position. state_simpl.
    rewrite list_lookup_total_insert_eq by exact Hp. repeat split.
  - destruct (is_frame_header w); [specialize (Hhdr eq_refl); discriminate|].
    rewrite Hl. repeat split. exact Hl.
Qed.

(** A frame header of the plane ends loss mode. *)
Lemma interpret_m26_header st lt w pid p q :
  shaped st -> (p < 6)%nat ->
  is_data_loss w = false ->
  is_frame_header w = true ->
  (interpret_m26 st lt w pid p q).2 = [] /\
  (interpret_m26 st lt w pid p q).1.2 = lt /\
  plane_position (interpret_m26 st lt w pid p q).1.1 p
    = (0, -1, 0, row st !!! p) /\
  m26_data_loss (interpret_m26 st lt w pid p q).1.1 !!! p = false.
Proof.
  intros Hshape Hp Hloss Hhdr. unfold interpret_m26, plane_position.
  rewrite Hloss, Hhdr. cbv zeta. destruct Hshape.
  destruct (pid =? 0); state_simpl;
    rewrite !list_lookup_total_insert_eq by lia; repeat split.
Qed.

Lemma interpret_tlu_slots fmt st lt w p :
  plane_position (interpret_tlu fmt st lt w).1.1 p = plane_position st p /\
  m26_data_loss (interpret_tlu fmt st lt w).1.1 !!! p
    = m26_data_loss st !!! p /\
  forall h, In h (interpret_tlu fmt st lt w).2 -> Hit.plane h = 255.
Proof.
  unfold interpret_tlu, plane_position. cbv zeta. state_simpl.
  repeat split. intros h [<-|[]]. reflexivity.
Qed.

Lemma py_index_6_plane n :
  0 <= n <= 6 ->
  exists p,
    py_index 6 (n - 1) = Some p /\ (p < 6)%nat /\
    (n <> 0 -> Z.of_nat p = n - 1) /\
    py_index 7 (n - 1 + 1) = Some (Z.to_nat n).
Proof.
  intros Hn. unfold py_index.
  replace (n - 1 + 1) with n by lia.
  destruct (Z.eq_dec n 0) as [->|Hne].
  - exists 5%nat. repeat split; try reflexivity; lia.
  - exists (Z.to_nat (n - 1)). cases_Zcmp; try lia.
    repeat split; try reflexivity; lia.
Qed.

Lemma interpret_word_loss fmt st lt w p :
  shaped st -> (p < 6)%nat ->
  m26_data_loss st !!! p = true ->
  (is_mimosa_data w = true ->
   get_plane_number w <= 6 /\
   (plane_slot w = Some p -> is_frame_header w = true ->
    is_data_loss w = true)) ->
  exists st' lt' hs,
    interpret_word fmt st lt w = Some (st', lt', hs) /\
    plane_position st' p = plane_position st p /\
    m26_data_loss st' !!! p = true /\
    (forall h, In h hs ->
       Hit.plane h <> Z.of_nat p + 1 /\ (p = 5%nat -> Hit.plane h <> 0)).
Proof.
  intros Hshape Hp Hl Hw. unfold interpret_word.
  destruct (is_mimosa_data w) eqn:Hm.
  - destruct (Hw eq_refl) as [Hn Hhdr].
    pose proof (get_plane_number_range w) as Hrange.
    destruct (py_index_6_plane (get_plane_number w) ltac:(lia))
      as (p' & Hp' & Hp6 & Hpn & Hq).
    rewrite Hp'. cbn [mbind option_bind]. rewrite Hq.
    cbn [mbind option_bind].
    destruct (interpret_m26 st lt w (get_plane_number w - 1) p'
                (Z.to_nat (get_plane_number w)))
      as [[st' lt'] hs] eqn:Hr.
    exists st', lt', hs. split; [reflexivity|].
    destruct (decide (p' = p)) as [->|Hne].
    + destruct (interpret_m26_discard st lt w (get_plane_number w - 1) p
                  (Z.to_nat (get_plane_number w)))
        as (Hhs & _ & Hpos & Hloss).
      * rewrite (shaped_m26_data_loss st Hshape). exact Hp.
      * exact Hl.
      * apply Hhdr. exact Hp'.
      * rewrite Hr in Hhs, Hpos, Hloss. cbn [fst snd] in Hhs, Hpos, Hloss.
        subst hs. split; [exact Hpos|]. split; [exact Hloss|].
        intros h [].
    + destruct (interpret_m26_other_slot st lt w (get_plane_number w - 1) p'
                  (Z.to_nat (get_plane_number w)) p) as (Hpos & Hloss).
      * intros Heq. apply Hne. symmetry. exact Heq.
      * rewrite Hr in Hpos, Hloss. cbn [fst snd] in Hpos, Hloss.
        split; [exact Hpos|]. split; [congruence|].
        intros h Hin.
        pose proof (interpret_m26_hit_plane st lt w (get_plane_number w - 1)
                      p' (Z.to_nat (get_plane_number w)) h) as Hplane.
        rewrite Hr in Hplane. specialize (Hplane Hin).
        rewrite u8_small in Hplane by lia.
        destruct (py_index_6 _ _ Hp') as (_ & _ & Hp'n).
        destruct (Z.ltb_spec (get_plane_number w - 1) 0); lia.
  - destruct (is_trigger_word w).
    + destruct (interpret_tlu fmt st lt w) as [[st' lt'] hs] eqn:Hr.
      destruct (interpret_tlu_slots fmt st lt w p) as (Hpos & Hloss & Hhits).
      rewrite Hr in Hpos, Hloss, Hhits. cbn [fst snd] in Hpos, Hloss, Hhits.
      exists st', lt', hs. split; [reflexivity|].
      split; [exact Hpos|]. split; [congruence|].
      intros h Hin. rewrite (Hhits h Hin). lia.
    + do 3 eexists. split; [reflexivity|].
      split; [reflexivity|]. split; [exact Hl|]. intros h [].
Qed.

Lemma interpret_words_loss fmt p ws : forall st lt,
  shaped st -> (p < 6)%nat ->
  m26_data_loss st !!! p = true ->
  (forall w, In w ws -> is_mimosa_data w = true ->
     get_plane_number w <= 6 /\
     (plane_slot w = Some p -> is_frame_header w = true ->
      is_data_loss w = true)) ->
  exists st' lt' hs,
    interpret_words fmt ws st lt = Some (st', lt', hs) /\
    shaped st' /\
    plane_position st' p = plane_position st p /\
    m26_data_loss st' !!! p = true /\
    (forall h, In h hs ->
       Hit.plane h <> Z.of_nat p + 1 /\ (p = 5%nat -> Hit.plane h <> 0)).
Proof.
  induction ws as [|w ws IH]; intros st lt Hshape Hp Hl Hws.
  - exists st, lt, [].
    repeat (split; [first [reflexivity | assumption]|]). intros h [].
  - destruct (interpret_word_loss fmt st lt w p Hshape Hp Hl)
      as (st1 & lt1 & hs1 & Hstep & Hpos1 & Hl1 & Hh1).
    { apply Hws. left. reflexivity. }
    pose proof (interpret_word_shaped _ _ _ _ _ _ _ Hstep Hshape) as Hshape1.
    destruct (IH st1 lt1 Hshape1 Hp Hl1)
      as (st2 & lt2 & hs2 & Hrest & Hshape2 & Hpos2 & Hl2 & Hh2).
    { intros w' Hin. apply Hws. right. exact Hin. }
    exists st2, lt2, (hs1 ++ hs2).
    rewrite interpret_words_cons, Hstep. cbn [mbind option_bind fst snd].
    rewrite Hrest. cbn [mbind option_bind fst snd].
    repeat (split; [first [reflexivity | assumption | congruence]|]).
    intros h Hin. apply in_app_iff in Hin as [Hin|Hin]; auto.
Qed.

(** C7, as stated, fails: plane 1 is put into loss mode within a frame, and
    its next word has the frame start flag (bit 16) together with the data
    loss flag (bit 17).  The data loss test comes first: the word is handled
    as a data loss word, the plane stays in loss mode and its word index is
    not put back to 0. *)
Lemma frame_start_with_loss_flag_does_not_recover :
  exists hits it,
    RawDataInterpreter.interpret_raw_data RawDataInterpreter.default
      [0x20115555; 0x20100000; 0x20100007; 0x20120000; 0x20130000]
      = Some (hits, it) /\
    is_mimosa_data 0x20130000 = true /\
    get_plane_number 0x20130000 = 1 /\
    is_frame_header 0x20130000 = true /\
    m26_data_loss (RawDataInterpreter.buffers it) !!! 0%nat = true /\
    word_index (RawDataInterpreter.buffers it) !!! 0%nat = 2.
Proof.
  do 2 eexists. split; [vm_compute; reflexivity|].
  repeat split; reflexivity.
Qed.

(** A word with the plane number 0 works on the last slot of the per plane
    buffers, the one of plane 6: its frame start flag ends the loss mode of
    plane 6. *)
Lemma plane_0_header_ends_loss_of_plane_6 :
  exists hits it hits' it',
    RawDataInterpreter.interpret_raw_data RawDataInterpreter.default
      [0x20620000] = Some (hits, it) /\
    m26_data_loss (RawDataInterpreter.buffers it) !!! 5%nat = true /\
    get_plane_number 0x20010000 = 0 /\
    RawDataInterpreter.interpret_raw_data it [0x20010000]
      = Some (hits', it') /\
    m26_data_loss (RawDataInterpreter.buffers it') !!! 5%nat = false.
Proof.
  do 4 eexists. split; [vm_compute; reflexivity|].
  split; [reflexivity|]. split; [reflexivity|].
  split; [vm_compute; reflexivity|]. reflexivity.
Qed.

(** C7, amended.  The words of a plane are the words that work on its slot of
    the per plane buffers: the Mimosa26 words with its plane number and, for
    plane 6, those with the plane number 0.  While the loss flag of a plane
    is set, [build_hits] drops them: over any chunk in which no word of the
    plane has the frame start flag without the data loss flag, the word
    index, frame length, word count and row of the plane stay as they are,
    the flag stays set and no hit of such a word is returned, whatever the
    words of the other planes and of the TLU do.  When a word of the plane
    with the frame start flag and without the data loss flag follows, the
    call returns the same hits, with the word index of the plane back at 0,
    its frame length and word count reset, and the loss flag cleared. *)
Theorem loss_mode_discards_until_header fmt max_hits st ws p :
  0 < max_hits ->
  shaped st -> (p < 6)%nat ->
  m26_data_loss st !!! p = true ->
  (forall w, In w ws -> is_mimosa_data w = true ->
     get_plane_number w <= 6 /\
     (plane_slot w = Some p -> is_frame_header w = true ->
      is_data_loss w = true)) ->
  exists hs st',
    build_hits ws st max_hits fmt = Some (hs, st') /\
    plane_position st' p = plane_position st p /\
    m26_data_loss st' !!! p = true /\
    (forall h, In h hs ->
       Hit.plane h <> Z.of_nat p + 1 /\ (p = 5%nat -> Hit.plane h <> 0)) /\
    (forall w,
       is_mimosa_data w = true -> plane_slot w = Some p ->
       is_frame_header w = true -> is_data_loss w = false ->
       exists st'',
         build_hits (ws ++ [w]) st max_hits fmt = Some (hs, st'') /\
         word_index st'' !!! p = 0 /\
         frame_length st'' !!! p = -1 /\
         n_words st'' !!! p = 0 /\
         m26_data_loss st'' !!! p = false).
Proof.
  intros Hmax Hshape Hp Hl Hws.
  destruct (interpret_words_loss fmt p ws st (initial_last_trigger_number st)
              Hshape Hp Hl Hws)
    as (st' & lt' & hs & Hrun & Hshape' & Hpos & Hl' & Hh).
  exists hs, st'. rewrite build_hits_pure by exact Hmax. rewrite Hrun.
  split; [reflexivity|]. repeat (split; [assumption|]).
  intros w Hm Hslot Hhdr Hloss. unfold plane_slot in Hslot.
  pose proof (get_plane_number_range w) as Hrange.
  destruct (py_index_6 _ _ Hslot) as (_ & Hpid & _).
  destruct (py_index_6_plane (get_plane_number w) ltac:(lia))
    as (p' & Hp' & _ & _ & Hq).
  assert (Hstep :
    interpret_word fmt st' lt' w
    = Some (interpret_m26 st' lt' w (get_plane_number w - 1) p
              (Z.to_nat (get_plane_number w)))).
  { unfold interpret_word. rewrite Hm, Hslot. cbn [mbind option_bind].
    rewrite Hq. reflexivity. }
  destruct (interpret_m26_header st' lt' w (get_plane_number w - 1) p
              (Z.to_nat (get_plane_number w)) Hshape' Hp Hloss Hhdr)
    as (Hhs & Hlt & Hpos' & Hl'').
  exists (interpret_m26 st' lt' w (get_plane_number w - 1) p
            (Z.to_nat (get_plane_number w))).1.1.
  split.
  - rewrite build_hits_pure by exact Hmax.
    rewrite interpret_words_app, Hrun. cbn [mbind option_bind fst snd].
    rewrite interpret_words_cons, Hstep.
    cbn [mbind option_bind fst snd interpret_words].
    rewrite Hhs, !app_nil_r. reflexivity.
  - unfold plane_position in Hpos'. inversion Hpos'.
    repeat split; assumption.
Qed.

Lemma loss_mode_discards_until_header_witness :
  exists hs st' st'',
    build_hits [0x20100321; 0x80000001; 0x20130000] plane_1_lost 500000 2
      = Some (hs, st') /\
    plane_position st' 0 = plane_position plane_1_lost 0 /\
    m26_data_loss st' !!! 0%nat = true /\
    (forall h, In h hs ->
       Hit.plane h <> Z.of_nat 0 + 1 /\ (0%nat = 5%nat -> Hit.plane h <> 0)) /\
    build_hits ([0x20100321; 0x80000001; 0x20130000] ++ [0x20115555])
      plane_1_lost 500000 2 = Some (hs, st'') /\
    word_index st'' !!! 0%nat = 0 /\
    m26_data_loss st'' !!! 0%nat = false.
Proof.
  destruct (loss_mode_discards_until_header 2 500000 plane_1_lost
              [0x20100321; 0x80000001; 0x20130000] 0)
    as (hs & st' & Hbuild & Hpos & Hloss & Hhits & Hrecover).
  - lia.
  - constructor; reflexivity.
  - lia.
  - reflexivity.
  - intros w [<-|[<-|[<-|[]]]] Hm.
    + split; [vm_compute; discriminate|]. intros _ Hhdr.
      vm_compute in Hhdr. discriminate.
    + vm_compute in Hm. discriminate.
    + split; [vm_compute; discriminate|]. intros _ _. reflexivity.
  - destruct (Hrecover 0x20115555)
      as (st'' & Hbuild' & Hwi & _ & _ & Hloss'); try reflexivity.
    exists hs, st', st''. repeat (split; [assumption|]). exact Hloss'.
Defined.

(** ** Status codes on hits *)

Lemma has_status_lor_r x c : has_status (Z.lor x c) c.
Proof.
  unfold has_status. apply Z.bits_inj'. intros n Hn.
  rewrite Z.land_spec, Z.lor_spec.
  destruct (Z.testbit x n), (Z.testbit c n); reflexivity.
Qed.

Lemma has_status_lor_l x c d : has_status x c -> has_status (Z.lor x d) c.
Proof.
  unfold has_status. intros Hx. apply Z.bits_inj'. intros n Hn.
  apply (f_equal (fun v => Z.testbit v n)) in Hx.
  rewrite Z.land_spec in Hx. rewrite Z.land_spec, Z.lor_spec.
  destruct (Z.testbit x n), (Z.testbit c n), (Z.testbit d n);
    simpl in *; congruence.
Qed.

Lemma has_status_u32 x c :
  0 <= c < 2 ^ 32 -> has_status x c -> has_status (u32 x) c.
Proof.
  unfold has_status. intros Hc Hx. apply Z.bits_inj'. intros n Hn.
  apply (f_equal (fun v => Z.testbit v n)) in Hx.
  rewrite Z.land_spec in Hx. rewrite Z.land_spec.
  destruct (Z.ltb_spec n 32).
  - rewrite testbit_u32_low by lia. exact Hx.
  - rewrite <- (Z.mod_small c (2 ^ 32)) by exact Hc.
    rewrite Z.mod_pow2_bits_high by lia. apply andb_false_r.
Qed.

(** A code stays in every slot it is in when a code is added to a slot. *)
Lemma has_status_add_event_status q es d i c :
  0 <= c < 2 ^ 32 ->
  has_status (es !!! i) c -> has_status (add_event_status q es d !!! i) c.
Proof.
  intros Hc Hi. unfold add_event_status.
  destruct (decide (q = i)) as [->|Hne].
  - destruct (decide (i < length es)%nat).
    + rewrite list_lookup_total_insert_eq by assumption.
      apply has_status_u32; [exact Hc|]. apply has_status_lor_l. exact Hi.
    + rewrite list_insert_ge by lia. exact Hi.
  - rewrite list_lookup_total_insert_ne by assumption. exact Hi.
Qed.

Lemma has_status_added q es c :
  0 <= c < 2 ^ 32 -> (q < length es)%nat ->
  has_status (add_event_status q es c !!! q) c.
Proof.
  intros Hc Hq. rewrite lookup_add_event_status by exact Hq.
  apply has_status_u32; [exact Hc|]. apply has_status_lor_r.
Qed.

(** The hits of a Mimosa26 word, if it has any, are the hits of a column
    word. *)
Lemma interpret_m26_hits st lt w pid p q h :
  In h (interpret_m26 st lt w pid p q).2 ->
  exists k : nat,
    Z.of_nat k <= get_n_hits w /\
    h = Hit.store (pid + 1) (frame_id st !!! q) (m26_timestamps st !!! p)
          (if trigger_number st <? 0 then 0 else trigger_number st)
          (get_column w + Z.of_nat k) (row st !!! p)
          ((if get_column w >=? 1152
            then add_event_status q (event_status st) COL_ERROR
            else event_status st) !!! q).
Proof.
  pose proof (get_n_hits_range w) as Hk.
  unfold interpret_m26. cbv zeta.
  split_ifs; intros Hin; cbn [snd In] in Hin; try contradiction;
    apply in_map_iff in Hin as (k & <- & Hk');
    apply in_seq in Hk'; exists k; (split; [lia|reflexivity]).
Qed.

Lemma interpret_word_m26_hit fmt st lt w st' lt' hs h :
  interpret_word fmt st lt w = Some (st', lt', hs) ->
  In h hs -> Hit.plane h <> 255 ->
  exists (p : nat) (k : nat),
    plane_slot w = Some p /\
    get_plane_number w <= 6 /\
    Z.of_nat k <= get_n_hits w /\
    h = Hit.store (get_plane_number w)
          (frame_id st !!! Z.to_nat (get_plane_number w))
          (m26_timestamps st !!! p)
          (if trigger_number st <? 0 then 0 else trigger_number st)
          (get_column w + Z.of_nat k) (row st !!! p)
          ((if get_column w >=? 1152
            then add_event_status (Z.to_nat (get_plane_number w))
                   (event_status st) COL_ERROR
            else event_status st) !!! Z.to_nat (get_plane_number w)).
Proof.
  intros Hstep Hin Hplane.
  destruct (interpret_word_cases _ _ _ _ _ Hstep)
    as [(_ & p & q & Hp & Hq & Hr) | [(_ & _ & Hr) | (_ & _ & Hr)]].
  - destruct (py_index_plane w p q Hp Hq) as (_ & _ & Hq' & Hn).
    pose proof (interpret_m26_hits st lt w (get_plane_number w - 1) p q h)
      as Hhits.
    rewrite <- Hr in Hhits. destruct (Hhits Hin) as (k & Hk & Hh).
    exists p, k. subst q.
    replace (get_plane_number w - 1 + 1) with (get_plane_number w) in Hh
      by lia.
    repeat (split; [assumption|]). exact Hh.
  - destruct (interpret_tlu_slots fmt st lt w 0) as (_ & _ & Hhits).
    rewrite <- Hr in Hhits. specialize (Hhits h Hin). contradiction.
  - inversion Hr; subst. destruct Hin.
Qed.

(** A row word: a pixel word slot other than the last one, reached with
    [n_words] of the plane at 0.  It latches the row, emits nothing and, for a
    row above 576, adds ROW_ERROR to the status slot of the plane. *)
Lemma interpret_m26_row_word st lt w pid p q :
  shaped st -> (p < 6)%nat -> (q < 7)%nat ->
  is_data_loss w = false ->
  is_frame_header w = false ->
  m26_data_loss st !!! p = false ->
  6 <= word_index st !!! p + 1 < 5 + frame_length st !!! p ->
  frame_length st !!! p <= 131070 ->
  n_words st !!! p = 0 ->
  (interpret_m26 st lt w pid p q).2 = [] /\
  (interpret_m26 st lt w pid p q).1.2 = lt /\
  row (interpret_m26 st lt w pid p q).1.1 !!! p = get_row w /\
  (576 < get_row w ->
   has_status (event_status (interpret_m26 st lt w pid p q).1.1 !!! q)
     ROW_ERROR).
Proof.
  intros Hshape Hp Hq Hloss Hhdr Hl Hpos Hfl Hnw. unfold interpret_m26.
  pose proof (get_row_range w) as Hrow.
  rewrite Hloss, Hhdr, Hl. cbv zeta.
  rewrite i32_small by lia.
  destruct (Z.eqb_spec (word_index st !!! p + 1) 1); [lia|].
  destruct (Z.eqb_spec (word_index st !!! p + 1) 2); [lia|].
  destruct (Z.eqb_spec (word_index st !!! p + 1) 3); [lia|].
  destruct (Z.eqb_spec (word_index st !!! p + 1) 4); [lia|].
  destruct (Z.eqb_spec (word_index st !!! p + 1) 5); [lia|].
  destruct (Z.eqb_spec (word_index st !!! p + 1)
              (5 + frame_length st !!! p + 1)); [lia|].
  destruct (Z.eqb_spec (word_index st !!! p + 1)
              (5 + frame_length st !!! p + 2)); [lia|].
  rewrite Z.gtb_ltb.
  destruct (Z.ltb_spec (5 + frame_length st !!! p + 2)
              (word_index st !!! p + 1)); [lia|].
  rewrite Hnw. change (0 =? 0) with true. cbv iota.
  destruct (Z.eqb_spec (word_index st !!! p + 1)
              (5 + frame_length st !!! p)); [lia|].
  rewrite list_lookup_total_insert_eq
    by (rewrite (shaped_row st Hshape); exact Hp).
  rewrite i32_small by lia.
  state_simpl.
  rewrite list_lookup_total_insert_eq
    by (rewrite (shaped_row st Hshape); exact Hp).
  repeat (split; [reflexivity|]).
  intros Hbig. rewrite Z.gtb_ltb.
  destruct (Z.ltb_spec 576 (get_row w)); [|lia].
  apply has_status_added; [vm_compute; split; [discriminate|reflexivity]|].
  destruct (has_overflow w);
    rewrite ?length_add_event_status, (shaped_event_status st Hshape);
    exact Hq.
Qed.

Lemma reset_m26_event_status_lookup es i :
  length es = 7%nat -> (1 <= i <= 6)%nat ->
  reset_m26_event_status es !!! i = 0.
Proof.
  intros Hlen Hi.
  do 8 (destruct es as [|? es]; try discriminate Hlen).
  do 7 (destruct i as [|i]; [try lia; reflexivity|]). lia.
Qed.

(** A Mimosa26 word that emits hits clears the status slots 1 to 6. *)
Lemma interpret_m26_hits_reset st lt w pid p q h (i : nat) :
  shaped st ->
  In h (interpret_m26 st lt w pid p q).2 ->
  (1 <= i <= 6)%nat ->
  event_status (interpret_m26 st lt w pid p q).1.1 !!! i = 0.
Proof.
  intros Hshape. pose proof (shaped_event_status st Hshape) as Hlen.
  unfold interpret_m26. cbv zeta.
  split_ifs; intros Hin; cbn [snd In] in Hin; try contradiction;
    intros Hi; state_simpl; apply reset_m26_event_status_lookup;
    rewrite ?length_add_event_status; assumption.
Qed.

(** ** Column and row errors *)

(** C4, as stated, fails: a row word with the row 600 and two column words.
    The hits of the first column word carry ROW_ERROR; the status slots are
    cleared after them, and the hit of the second column word has the row 600
    and neither ROW_ERROR nor COL_ERROR. *)
Lemma row_error_lost_after_first_column_word :
  exists hits it h,
    RawDataInterpreter.interpret_raw_data RawDataInterpreter.default
      [0x20115555; 0x20100000; 0x20100007; 0x20100000; 0x20100002;
       0x20100002; 0x20102582; 0x20100190; 0x20100320]
      = Some (hits, it) /\
    In h hits /\
    1 <= Hit.plane h <= 6 /\
    ~ (Hit.column h < 1152 /\ Hit.row h < 576) /\
    Z.land (Hit.event_status h) COL_ERROR = 0 /\
    Z.land (Hit.event_status h) ROW_ERROR = 0.
Proof.
  do 2 eexists. exists (Hit.mk 1 7 0x5555 0 200 600 0).
  split; [vm_compute; reflexivity|].
  split; [right; left; reflexivity|].
  cbn [Hit.plane Hit.column Hit.row Hit.event_status].
  repeat split; try lia; try reflexivity.
Qed.

(** C4, amended.  A hit of a plane 1 to 6 is emitted by a column word of that
    plane and has the raw values: the column of the word plus its number in
    the group, and the row latched for the plane.  It carries COL_ERROR when
    the column of the word is 1152 or more, and it carries ROW_ERROR when
    that code is in the status slot of the plane at that moment; after the
    hits of the word the status slots 1 to 6 are zero.  In particular, when
    the column word directly follows a row word of its plane that latched a
    row above 576, its hits have that row and carry ROW_ERROR. *)
Theorem m26_hit_error_bits fmt st lt w st' lt' hs h :
  shaped st ->
  interpret_word fmt st lt w = Some (st', lt', hs) ->
  In h hs ->
  1 <= Hit.plane h <= 6 ->
  exists (p : nat) (j : Z),
    plane_slot w = Some p /\
    get_plane_number w = Hit.plane h /\
    0 <= j <= get_n_hits w /\
    Hit.column h = get_column w + j /\
    Hit.row h = u16 (row st !!! p) /\
    (1152 <= get_column w -> has_status (Hit.event_status h) COL_ERROR) /\
    (has_status (event_status st !!! Z.to_nat (Hit.plane h)) ROW_ERROR ->
     has_status (Hit.event_status h) ROW_ERROR) /\
    (forall i : nat, (1 <= i <= 6)%nat -> event_status st' !!! i = 0) /\
    (forall st0 lt0 w0,
       shaped st0 ->
       is_mimosa_data w0 = true ->
       is_data_loss w0 = false ->
       is_frame_header w0 = false ->
       plane_slot w0 = Some p ->
       get_plane_number w0 = get_plane_number w ->
       m26_data_loss st0 !!! p = false ->
       6 <= word_index st0 !!! p + 1 < 5 + frame_length st0 !!! p ->
       frame_length st0 !!! p <= 131070 ->
       n_words st0 !!! p = 0 ->
       576 < get_row w0 ->
       interpret_word fmt st0 lt0 w0 = Some (st, lt, []) ->
       Hit.row h = get_row w0 /\
       has_status (Hit.event_status h) ROW_ERROR).
Proof.
  intros Hshape Hstep Hin Hplane.
  destruct (interpret_word_m26_hit _ _ _ _ _ _ _ _ Hstep Hin ltac:(lia))
    as (p & k & Hslot & Hn & Hk & Hh).
  pose proof (get_plane_number_range w) as Hrange.
  pose proof (get_column_range w) as Hcol.
  pose proof (get_n_hits_range w) as Hhits.
  pose proof (shaped_event_status st Hshape) as Hlen.
  assert (Hpl : Hit.plane h = get_plane_number w).
  { rewrite Hh. unfold Hit.store. cbn [Hit.plane]. apply u8_small. lia. }
  assert (Hrowerr :
    has_status (event_status st !!! Z.to_nat (Hit.plane h)) ROW_ERROR ->
    has_status (Hit.event_status h) ROW_ERROR).
  { rewrite Hpl. intros Hrow. rewrite Hh. unfold Hit.store.
    cbn [Hit.event_status].
    apply has_status_u32; [vm_compute; split; [discriminate|reflexivity]|].
    destruct (get_column w >=? 1152); [|exact Hrow].
    apply has_status_add_event_status;
      [vm_compute; split; [discriminate|reflexivity]|exact Hrow]. }
  exists p, (Z.of_nat k).
  split; [exact Hslot|]. split; [symmetry; exact Hpl|].
  split; [lia|].
  split; [rewrite Hh; unfold Hit.store; cbn [Hit.column];
          apply u16_small; lia|].
  split; [rewrite Hh; reflexivity|].
  split; [|split; [exact Hrowerr|split]].
  - intros Hbig. rewrite Hh. unfold Hit.store. cbn [Hit.event_status].
    apply has_status_u32; [vm_compute; split; [discriminate|reflexivity]|].
    destruct (Z.geb_spec (get_column w) 1152); [|lia].
    apply has_status_added;
      [vm_compute; split; [discriminate|reflexivity]|]. lia.
  - intros i Hi.
    destruct (interpret_word_cases _ _ _ _ _ Hstep)
      as [(_ & p' & q & _ & _ & Hr) | [(_ & _ & Hr) | (_ & _ & Hr)]].
    + pose proof (interpret_m26_hits_reset st lt w (get_plane_number w - 1)
                    p' q h i Hshape) as Hreset.
      rewrite <- Hr in Hreset. apply Hreset; assumption.
    + destruct (interpret_tlu_slots fmt st lt w 0) as (_ & _ & Htlu).
      rewrite <- Hr in Htlu. specialize (Htlu h Hin). lia.
    + inversion Hr; subst. destruct Hin.
  - intros st0 lt0 w0 Hshape0 Hm0 Hloss0 Hhdr0 Hslot0 Hn0 Hl0 Hpos0 Hfl0 Hnw0
      Hbig Hstep0.
    unfold plane_slot in Hslot0.
    destruct (py_index_6 _ _ Hslot0) as (Hp & _ & _).
    destruct (interpret_word_cases _ _ _ _ _ Hstep0)
      as [(_ & p0 & q0 & Hp0 & Hq0 & Hr) | [(Hm' & _) | (Hm' & _)]];
      [|congruence|congruence].
    destruct (py_index_plane w0 p0 q0 Hp0 Hq0) as (_ & Hq7 & Hq0' & _).
    assert (p0 = p) by congruence. subst p0.
    destruct (interpret_m26_row_word st0 lt0 w0 (get_plane_number w0 - 1) p q0
                Hshape0 Hp Hq7 Hloss0 Hhdr0 Hl0 Hpos0 Hfl0 Hnw0)
      as (_ & _ & Hrow & Herr).
    rewrite <- Hr in Hrow, Herr. cbn [fst snd] in Hrow, Herr.
    pose proof (get_row_range w0) as Hrr.
    split.
    + rewrite Hh. unfold Hit.store. cbn [Hit.row]. rewrite Hrow.
      apply u16_small. lia.
    + apply Hrowerr. rewrite Hpl, <- Hn0, <- Hq0'. apply Herr. exact Hbig.
Qed.

Lemma m26_hit_error_bits_witness :
  exists (p : nat) (j : Z),
    plane_slot 0x201012C1 = Some p /\
    get_plane_number 0x201012C1 = 1 /\
    0 <= j <= get_n_hits 0x201012C1 /\
    1201 = get_column 0x201012C1 + j /\
    (1152 <= get_column 0x201012C1 -> has_status COL_ERROR COL_ERROR).
Proof.
  destruct (m26_hit_error_bits 2
              (with_n_words [1; 0; 0; 0; 0; 0]
                 (with_row [50; -1; -1; -1; -1; -1]
                    (with_frame_length [2; -1; -1; -1; -1; -1]
                       (with_word_index [6; 0; 0; 0; 0; 0]
                          RawDataInterpreter.reset_state))))
              (-1) 0x201012C1
              (with_n_words [0; 0; 0; 0; 0; 0]
                 (with_row [50; -1; -1; -1; -1; -1]
                    (with_frame_length [2; -1; -1; -1; -1; -1]
                       (with_word_index [7; 0; 0; 0; 0; 0]
                          RawDataInterpreter.reset_state))))
              (-1)
              [Hit.mk 1 0 0 0 1200 50 COL_ERROR;
               Hit.mk 1 0 0 0 1201 50 COL_ERROR]
              (Hit.mk 1 0 0 0 1201 50 COL_ERROR))
    as (p & j & Hslot & Hn & Hj & Hcol & _ & Hcerr & _).
  - constructor; reflexivity.
  - vm_compute. reflexivity.
  - right. left. reflexivity.
  - cbn [Hit.plane]. lia.
  - exists p, j. repeat (split; [assumption|]). exact Hcerr.
Defined.

(** ** Trailer errors *)

(** The word after the last pixel word slot is checked against the trailer
    magic; a mismatch adds TRAILER_H_ERROR to the status slot of the plane and
    emits nothing. *)
Lemma interpret_m26_trailer0_mismatch st lt w pid p q :
  is_data_loss w = false ->
  is_frame_header w = false ->
  m26_data_loss st !!! p = false ->
  0 <= frame_length st !!! p <= 131070 ->
  word_index st !!! p + 1 = 5 + frame_length st !!! p + 1 ->
  is_frame_trailer0 w = false ->
  interpret_m26 st lt w pid p q
    = (with_event_status
         (add_event_status q (event_status st) TRAILER_H_ERROR)
         (with_word_index (<[p := word_index st !!! p + 1]> (word_index st))
            st),
       lt, []).
Proof.
  intros Hloss Hhdr Hl Hfl Hpos Htr. unfold interpret_m26.
  rewrite Hloss, Hhdr, Hl, Htr. cbv zeta.
  rewrite i32_small by lia.
  destruct (Z.eqb_spec (word_index st !!! p + 1) 1); [lia|].
  destruct (Z.eqb_spec (word_index st !!! p + 1) 2); [lia|].
  destruct (Z.eqb_spec (word_index st !!! p + 1) 3); [lia|].
  destruct (Z.eqb_spec (word_index st !!! p + 1) 4); [lia|].
  destruct (Z.eqb_spec (word_index st !!! p + 1) 5); [lia|].
  destruct (Z.eqb_spec (word_index st !!! p + 1)
              (5 + frame_length st !!! p + 1)); [|lia].
  reflexivity.
Qed.

(** A Mimosa26 word that emits no hit only adds codes to the status slots. *)
Lemma interpret_m26_status_kept st lt w pid p q c (i : nat) :
  0 <= c < 2 ^ 32 ->
  0 <= pid + 1 < 16 ->
  (forall h, In h (interpret_m26 st lt w pid p q).2 -> Hit.plane h = 255) ->
  has_status (event_status st !!! i) c ->
  has_status (event_status (interpret_m26 st lt w pid p q).1.1 !!! i) c.
Proof.
  intros Hc Hpid. pose proof (get_n_hits_range w) as Hk.
  unfold interpret_m26. cbv zeta.
  split_ifs; intros Hall Hi; state_simpl;
    try (repeat apply has_status_add_event_status; assumption);
    exfalso; cbn [snd] in Hall;
    match type of Hall with
    | context [seq 0 ?n] =>
        assert (Hin0 : In 0%nat (seq 0 n)) by (apply in_seq; lia);
        pose proof (Hall _ (in_map _ _ _ Hin0)) as H255;
        unfold Hit.store in H255; cbn [Hit.plane] in H255;
        rewrite u8_small in H255 by lia; lia
    end.
Qed.

Lemma interpret_word_status_kept fmt st lt w st' lt' hs c (i : nat) :
  interpret_word fmt st lt w = Some (st', lt', hs) ->
  0 <= c < 2 ^ 32 -> (1 <= i)%nat ->
  (forall h, In h hs -> Hit.plane h = 255) ->
  has_status (event_status st !!! i) c ->
  has_status (event_status st' !!! i) c.
Proof.
  intros Hstep Hc Hi Hall Hst.
  destruct (interpret_word_cases _ _ _ _ _ Hstep)
    as [(_ & p & q & Hp & Hq & Hr) | [(_ & _ & Hr) | (_ & _ & Hr)]].
  - pose proof (get_plane_number_range w) as Hrange.
    pose proof (interpret_m26_status_kept st lt w (get_plane_number w - 1) p q
                  c i Hc ltac:(lia)) as Hkept.
    rewrite <- Hr in Hkept. apply Hkept; assumption.
  - assert (Hr' : st' = (interpret_tlu fmt st lt w).1.1)
      by (rewrite <- Hr; reflexivity).
    rewrite Hr'. unfold interpret_tlu. cbv zeta. state_simpl.
    split_ifs; repeat apply has_status_add_event_status; try assumption;
      rewrite list_lookup_total_insert_ne by lia; exact Hst.
  - inversion Hr; subst. state_simpl.
    apply has_status_add_event_status; assumption.
Qed.

Lemma interpret_words_status_kept fmt c (i : nat) ws :
  forall st lt st' lt' hs,
  interpret_words fmt ws st lt = Some (st', lt', hs) ->
  0 <= c < 2 ^ 32 -> (1 <= i)%nat ->
  (forall h, In h hs -> Hit.plane h = 255) ->
  has_status (event_status st !!! i) c ->
  has_status (event_status st' !!! i) c.
Proof.
  induction ws as [|w ws IH]; intros st lt st' lt' hs Hrun Hc Hi Hall Hst.
  - simpl in Hrun. inversion Hrun; subst. exact Hst.
  - rewrite interpret_words_cons in Hrun.
    destruct (interpret_word fmt st lt w) as [[[st1 lt1] hs1]|] eqn:Hstep;
      [|discriminate].
    cbn [mbind option_bind fst snd] in Hrun.
    destruct (interpret_words fmt ws st1 lt1) as [[[st2 lt2] hs2]|] eqn:Hrest;
      [|discriminate].
    cbn [mbind option_bind fst snd] in Hrun. inversion Hrun; subst.
    eapply IH; [exact Hrest|exact Hc|exact Hi| |].
    + intros h Hin. apply Hall, in_app_iff. right. exact Hin.
    + eapply interpret_word_status_kept; [exact Hstep|exact Hc|exact Hi| |].
      * intros h Hin. apply Hall, in_app_iff. left. exact Hin.
      * exact Hst.
Qed.

(** A hit of a Mimosa26 plane carries every code that is in the status slot of
    its plane when its column word is processed. *)
Lemma hit_carries_slot_status fmt st lt w st' lt' hs h c :
  interpret_word fmt st lt w = Some (st', lt', hs) ->
  In h hs -> Hit.plane h <> 255 ->
  0 <= c < 2 ^ 32 ->
  has_status (event_status st !!! Z.to_nat (Hit.plane h)) c ->
  has_status (Hit.event_status h) c.
Proof.
  intros Hstep Hin Hplane Hc.
  destruct (interpret_word_m26_hit _ _ _ _ _ _ _ _ Hstep Hin Hplane)
    as (p & k & Hslot & Hn & Hk & Hh).
  pose proof (get_plane_number_range w) as Hrange.
  rewrite Hh. unfold Hit.store. cbn [Hit.plane Hit.event_status].
  rewrite u8_small by lia. intros Hst.
  apply has_status_u32; [exact Hc|].
  destruct (get_column w >=? 1152); [|exact Hst].
  apply has_status_add_event_status; assumption.
Qed.

(** C5, as stated, fails: a plane 1 frame of length 2 with one hit whose
    trailer word at position 5 + L + 1 is 0xAA00.  The hit of the frame was
    emitted before the trailer was read and has the status 0; the code is in
    the status slot of the plane afterwards. *)
Lemma hit_before_bad_trailer_unmarked :
  exists hits it h,
    RawDataInterpreter.interpret_raw_data RawDataInterpreter.default
      [0x20115555; 0x20100000; 0x20100007; 0x20100000; 0x20100001;
       0x20100001; 0x20100321; 0x20100190; 0x2010AA00; 0x2010AA51]
      = Some (hits, it) /\
    hits = [h] /\
    Hit.plane h = 1 /\
    Z.land (Hit.event_status h) TRAILER_H_ERROR = 0 /\
    event_status (RawDataInterpreter.buffers it) !!! 1%nat = TRAILER_H_ERROR.
Proof.
  do 3 eexists. split; [vm_compute; reflexivity|].
  repeat split; reflexivity.
Qed.

(** C5, amended.  In a frame of length L of a plane 1 to 6, a word at position
    5 + L + 1 without the trailer magic emits nothing and adds
    TRAILER_H_ERROR to the status slot of the plane; the hits emitted so far,
    those of the frame among them, are returned as they were.  The code stays
    in the slot while no Mimosa26 hit is emitted, and the hits of the next
    column word carry it if that word is of the same plane. *)
Theorem trailer_high_mismatch_marks_later_hits
    fmt max_hits st0 ws st lt hs w p :
  0 < max_hits ->
  shaped st0 ->
  interpret_words fmt ws st0 (initial_last_trigger_number st0)
    = Some (st, lt, hs) ->
  is_mimosa_data w = true ->
  is_data_loss w = false ->
  is_frame_header w = false ->
  plane_slot w = Some p ->
  1 <= get_plane_number w ->
  m26_data_loss st !!! p = false ->
  0 <= frame_length st !!! p <= 131070 ->
  word_index st !!! p + 1 = 5 + frame_length st !!! p + 1 ->
  is_frame_trailer0 w = false ->
  exists st',
    interpret_word fmt st lt w = Some (st', lt, []) /\
    build_hits (ws ++ [w]) st0 max_hits fmt = Some (hs, st') /\
    has_status (event_status st' !!! Z.to_nat (get_plane_number w))
      TRAILER_H_ERROR /\
    (forall ws2 st2 lt2 hs2 w2 st3 lt3 group h,
       interpret_words fmt ws2 st' lt = Some (st2, lt2, hs2) ->
       (forall h', In h' hs2 -> Hit.plane h' = 255) ->
       interpret_word fmt st2 lt2 w2 = Some (st3, lt3, group) ->
       In h group ->
       Hit.plane h = get_plane_number w ->
       has_status (Hit.event_status h) TRAILER_H_ERROR).
Proof.
  intros Hmax Hshape0 Hrun Hm Hloss Hhdr Hslot Hn1 Hl Hfl Hpos Htr.
  pose proof (interpret_words_shaped _ _ _ _ _ _ _ Hrun Hshape0) as Hshape.
  pose proof (get_plane_number_range w) as Hrange.
  unfold plane_slot in Hslot.
  destruct (py_index_6 _ _ Hslot) as (Hp & Hpid & _).
  destruct (py_index_6_plane (get_plane_number w) ltac:(lia))
    as (p' & Hp' & _ & _ & Hq).
  assert (Hcode : 0 <= TRAILER_H_ERROR < 2 ^ 32)
    by (vm_compute; split; [discriminate|reflexivity]).
  assert (Hstep :
    interpret_word fmt st lt w
      = Some (with_event_status
                (add_event_status (Z.to_nat (get_plane_number w))
                   (event_status st) TRAILER_H_ERROR)
                (with_word_index
                   (<[p := word_index st !!! p + 1]> (word_index st)) st),
              lt, [])).
  { unfold interpret_word. rewrite Hm, Hslot. cbn [mbind option_bind].
    rewrite Hq. cbn [mbind option_bind].
    rewrite (interpret_m26_trailer0_mismatch st lt w _ p _ Hloss Hhdr Hl Hfl
               Hpos Htr).
    reflexivity. }
  eexists. split; [exact Hstep|].
  assert (Hset :
    has_status
      (add_event_status (Z.to_nat (get_plane_number w)) (event_status st)
         TRAILER_H_ERROR !!! Z.to_nat (get_plane_number w))
      TRAILER_H_ERROR).
  { apply has_status_added; [exact Hcode|].
    rewrite (shaped_event_status st Hshape). lia. }
  split; [|split].
  - rewrite build_hits_pure by exact Hmax.
    rewrite interpret_words_app, Hrun. cbn [mbind option_bind fst snd].
    rewrite interpret_words_cons, Hstep. cbn [mbind option_bind fst snd].
    cbn [interpret_words mbind option_bind fst snd].
    rewrite !app_nil_r. reflexivity.
  - state_simpl. exact Hset.
  - intros ws2 st2 lt2 hs2 w2 st3 lt3 group h Hrun2 Hall Hstep2 Hin Hplane.
    eapply hit_carries_slot_status;
      [exact Hstep2|exact Hin|lia|exact Hcode|].
    rewrite Hplane.
    eapply interpret_words_status_kept;
      [exact Hrun2|exact Hcode|lia|exact Hall|].
    state_simpl. exact Hset.
Qed.

Lemma trailer_high_mismatch_marks_later_hits_witness :
  exists st',
    build_hits
      ([0x20115555; 0x20100000; 0x20100007; 0x20100000; 0x20100001;
        0x20100001; 0x20100321; 0x20100190] ++ [0x2010AA00])
      RawDataInterpreter.reset_state 500000 2
      = Some ([Hit.mk 1 7 0x5555 0 100 50 0], st') /\
    has_status (event_status st' !!! Z.to_nat (get_plane_number 0x2010AA00))
      TRAILER_H_ERROR.
Proof.
  edestruct (trailer_high_mismatch_marks_later_hits 2 500000
               RawDataInterpreter.reset_state
               [0x20115555; 0x20100000; 0x20100007; 0x20100000; 0x20100001;
                0x20100001; 0x20100321; 0x20100190])
    as (st' & _ & Hbuild & Hset & _).
  - lia.
  - exact shaped_reset_state.
  - vm_compute. reflexivity.
  - instantiate (1 := 0x2010AA00). reflexivity.
  - reflexivity.
  - reflexivity.
  - vm_compute. reflexivity.
  - vm_compute. discriminate.
  - vm_compute. reflexivity.
  - vm_compute. split; discriminate.
  - vm_compute. reflexivity.
  - reflexivity.
  - exists st'. split; [exact Hbuild|exact Hset].
Defined.

(** ** The trigger number check *)

(** The TLU hit carries TRG_ERROR exactly when [last_trigger_number] and
    [trigger_number] are both set, the new trigger number is positive and it
    differs from [last_trigger_number + 1]; afterwards [last_trigger_number]
    is the trigger number that was current before the word, so that the next
    trigger word is compared with the trigger number of two words before. *)
Lemma trg_error_condition fmt st lt w :
  shaped st ->
  exists h,
    (interpret_tlu fmt st lt w).2 = [h] /\
    (interpret_tlu fmt st lt w).1.2 = trigger_number st /\
    trigger_number (interpret_tlu fmt st lt w).1.1
      = get_trigger_number w fmt /\
    (has_status (Hit.event_status h) TRG_ERROR <->
     0 <= lt /\ 0 <= trigger_number st /\
     lt + 1 <> get_trigger_number w fmt /\ 0 < get_trigger_number w fmt).
Proof.
  intros Hshape. pose proof (shaped_event_status st Hshape) as Hlen.
  unfold interpret_tlu. cbv zeta. eexists. split; [reflexivity|].
  split; [reflexivity|]. split; [reflexivity|].
  assert (Hes1 :
    add_event_status 0 (<[0%nat:=0]> (event_status st)) TRG_WORD !!! 0%nat
      = TRG_WORD).
  { unfold add_event_status.
    rewrite list_lookup_total_insert_eq by (rewrite length_insert; lia).
    rewrite list_lookup_total_insert_eq by lia. reflexivity. }
  unfold Hit.store. cbn [Hit.event_status].
  rewrite !Z.geb_leb, Z.gtb_ltb.
  destruct (Z.leb_spec 0 lt), (Z.leb_spec 0 (trigger_number st)),
    (Z.eqb_spec (lt + 1) (get_trigger_number w fmt)),
    (Z.ltb_spec 0 (get_trigger_number w fmt));
    cbn [andb negb];
    rewrite ?lookup_add_event_status
      by (rewrite length_add_event_status, length_insert; lia);
    rewrite Hes1;
    (split; [intros Hst; try (vm_compute in Hst; discriminate); lia
            | intros Hc; try lia; reflexivity]).
Qed.

(** ** Word classes *)

Lemma land_upper_bits k x :
  0 <= k <= 32 -> 0 <= x < 2 ^ 32 ->
  Z.land x (Z.shiftl (Z.ones (32 - k)) k) = x - x mod 2 ^ k.
Proof.
  intros Hk Hx.
  assert (Hsplit :
    x = Z.land x (Z.shiftl (Z.ones (32 - k)) k) + Z.land x (Z.ones k)).
  { rewrite Z.add_nocarry_lor.
    - rewrite <- Z.land_lor_distr_r.
      replace (Z.lor (Z.shiftl (Z.ones (32 - k)) k) (Z.ones k))
        with (Z.ones 32).
      + rewrite Z.land_ones by lia. rewrite Z.mod_small by lia. reflexivity.
      + apply Z.bits_inj'. intros n Hn.
        rewrite Z.lor_spec, Z.shiftl_spec by lia.
        destruct (Z.ltb_spec n k).
        * rewrite (Z.testbit_neg_r _ (n - k)) by lia.
          rewrite !Z.ones_spec_low by lia. reflexivity.
        * rewrite (Z.ones_spec_high k n) by lia. rewrite orb_false_r.
          destruct (Z.ltb_spec n 32).
          -- rewrite !Z.ones_spec_low by lia. reflexivity.
          -- rewrite !Z.ones_spec_high by lia. reflexivity.
    - apply Z.bits_inj'. intros n Hn. rewrite !Z.land_spec, Z.bits_0.
      rewrite Z.shiftl_spec by lia.
      destruct (Z.ltb_spec n k).
      + rewrite (Z.testbit_neg_r _ (n - k)) by lia.
        rewrite andb_false_r. reflexivity.
      + rewrite (Z.ones_spec_high k n) by lia.
        rewrite !andb_false_r. reflexivity. }
  rewrite Z.land_ones in Hsplit by lia. lia.
Qed.

Lemma is_mimosa_data_range w :
  0 <= w < 2 ^ 32 ->
  (is_mimosa_data w = true <-> 0x20000000 <= w < 0x21000000).
Proof.
  intros Hw. unfold is_mimosa_data. rewrite Z.land_comm.
  change 0xff000000 with (Z.shiftl (Z.ones (32 - 24)) 24).
  rewrite land_upper_bits by lia.
  pose proof (Z.mod_pos_bound w (2 ^ 24) ltac:(lia)) as Hr.
  rewrite Z.eqb_eq. split; intros H.
  - lia.
  - assert (w mod 2 ^ 24 = w - 0x20000000); [|lia].
    symmetry. apply Z.mod_unique with (q := 32); lia.
Qed.

Lemma is_trigger_word_range w :
  0 <= w < 2 ^ 32 -> (is_trigger_word w = true <-> 2 ^ 31 <= w).
Proof.
  intros Hw. unfold is_trigger_word. rewrite Z.land_comm.
  change 0x80000000 with (Z.shiftl (Z.ones (32 - 31)) 31).
  rewrite land_upper_bits by lia.
  pose proof (Z.mod_pos_bound w (2 ^ 31) ltac:(lia)) as Hr.
  rewrite Z.eqb_eq. change (Z.shiftl (Z.ones (32 - 31)) 31) with (2 ^ 31).
  split; intros H.
  - lia.
  - assert (w mod 2 ^ 31 = w - 2 ^ 31); [|lia].
    symmetry. apply Z.mod_unique with (q := 1); lia.
Qed.

(** X1. The two tests of the word classifier read off disjoint ranges of the
    32 bit words: a word is a Mimosa26 word exactly when it lies in
    0x20000000 .. 0x20FFFFFF and a trigger word exactly when it is 2^31 or
    more, so that no word is both and the order of the two tests in
    [build_hits] does not matter. *)
Theorem word_classes_are_ranges w :
  0 <= w < 2 ^ 32 ->
  (is_mimosa_data w = true <-> 0x20000000 <= w < 0x21000000) /\
  (is_trigger_word w = true <-> 2 ^ 31 <= w) /\
  is_mimosa_data w && is_trigger_word w = false.
Proof.
  intros Hw.
  pose proof (is_mimosa_data_range w Hw) as Hm.
  pose proof (is_trigger_word_range w Hw) as Ht.
  repeat (split; [assumption|]).
  destruct (is_mimosa_data w); [|reflexivity].
  destruct (is_trigger_word w); [|reflexivity].
  destruct Hm as [Hm _], Ht as [Ht _].
  specialize (Hm eq_refl). specialize (Ht eq_refl). lia.
Qed.

Lemma word_classes_are_ranges_witness :
  is_mimosa_data 0x20115555 = true /\ is_trigger_word 0x20115555 = false.
Proof.
  destruct (word_classes_are_ranges 0x20115555) as (Hm & Ht & _); [lia|].
  split.
  - apply Hm. lia.
  - destruct (is_trigger_word 0x20115555) eqn:E; [|reflexivity].
    destruct Ht as [Ht _]. specialize (Ht eq_refl). lia.
Defined.

(** ** Failure of a chunk *)

Lemma interpret_word_None fmt st lt w :
  interpret_word fmt st lt w = None <-> out_of_planes w = true.
Proof.
  unfold interpret_word, out_of_planes.
  pose proof (get_plane_number_range w) as Hr.
  destruct (is_mimosa_data w); cbn [andb].
  - destruct (Z.ltb_spec 6 (get_plane_number w)).
    + split; [reflexivity|intros _].
      assert (Hnone : py_index 6 (get_plane_number w - 1) = None)
        by (unfold py_index; cases_Zcmp; try lia; reflexivity).
      rewrite Hnone. reflexivity.
    + destruct (py_index_6_plane (get_plane_number w) ltac:(lia))
        as (p & Hp & _ & _ & Hq).
      rewrite Hp. cbn [mbind option_bind]. rewrite Hq.
      cbn [mbind option_bind]. split; discriminate.
  - destruct (is_trigger_word w); split; discriminate.
Qed.

Lemma interpret_words_None fmt ws : forall st lt,
  interpret_words fmt ws st lt = None <-> existsb out_of_planes ws = true.
Proof.
  induction ws as [|w ws IH]; intros st lt.
  - simpl. split; discriminate.
  - rewrite interpret_words_cons. cbn [existsb].
    destruct (interpret_word fmt st lt w) as [[[st1 lt1] hs1]|] eqn:Hstep.
    + cbn [mbind option_bind fst snd].
      assert (Hw : out_of_planes w = false).
      { destruct (out_of_planes w) eqn:E; [|reflexivity].
        apply interpret_word_None with (fmt := fmt) (st := st) (lt := lt) in E.
        congruence. }
      rewrite Hw. cbn [orb]. rewrite <- (IH st1 lt1).
      destruct (interpret_words fmt ws st1 lt1) as [[[st2 lt2] hs2]|];
        cbn [mbind option_bind]; split; congruence.
    + apply interpret_word_None in Hstep. rewrite Hstep.
      cbn [mbind option_bind orb]. split; reflexivity.
Qed.

Lemma build_hits_None ws st max_hits fmt :
  0 < max_hits ->
  (build_hits ws st max_hits fmt = None <->
   existsb out_of_planes ws = true).
Proof.
  intros Hmax. rewrite build_hits_pure by exact Hmax.
  rewrite <- (interpret_words_None fmt ws st (initial_last_trigger_number st)).
  destruct (interpret_words fmt ws st (initial_last_trigger_number st))
    as [[[st' lt'] hs]|]; cbn [mbind option_bind]; split; congruence.
Qed.

Lemma build_hits_Some ws st max_hits fmt :
  0 < max_hits ->
  existsb out_of_planes ws = false ->
  exists hs st', build_hits ws st max_hits fmt = Some (hs, st').
Proof.
  intros Hmax Hws.
  destruct (build_hits ws st max_hits fmt) as [[hs st']|] eqn:Hbuild.
  - exists hs, st'. reflexivity.
  - apply (build_hits_None ws st max_hits fmt Hmax) in Hbuild. congruence.
Qed.



(** ** The size of the hit buffer *)

(** X3. The buffer size only matters for the allocation: two calls of
    [build_hits] that differ in a positive [max_hits_per_chunk] return the
    same hits and the same buffered variables (or fail both). *)
Theorem max_hits_per_chunk_is_irrelevant ws st fmt max_hits max_hits' :
  0 < max_hits -> 0 < max_hits' ->
  build_hits ws st max_hits fmt = build_hits ws st max_hits' fmt.
Proof.
  intros H H'. rewrite !build_hits_pure by assumption. reflexivity.
Qed.

Lemma max_hits_per_chunk_is_irrelevant_witness :
  build_hits [0x80000001; 0x80020002; 0x80050003]
    RawDataInterpreter.reset_state 1 2
  = build_hits [0x80000001; 0x80020002; 0x80050003]
      RawDataInterpreter.reset_state 500000 2.
Proof.
  apply (max_hits_per_chunk_is_irrelevant
           [0x80000001; 0x80020002; 0x80050003]
           RawDataInterpreter.reset_state 2 1 500000); lia.
Defined.

Lemma build_hits_loop_no_room fmt ws : forall st lt,
  build_hits_loop 0 fmt ws st lt {| capacity := 0; stored := [] |}
    = match interpret_words fmt ws st lt with
      | Some (st', lt', []) =>
          Some (st', lt', {| capacity := 0; stored := [] |})
      | _ => None
      end.
Proof.
  induction ws as [|w ws IH]; intros st lt.
  - reflexivity.
  - rewrite interpret_words_cons. cbn [build_hits_loop].
    destruct (interpret_word fmt st lt w) as [[[st1 lt1] hs1]|];
      cbn [mbind option_bind fst snd]; [|reflexivity].
    destruct hs1 as [|h hs1].
    + cbn [append_hits mbind option_bind]. rewrite IH.
      destruct (interpret_words fmt ws st1 lt1) as [[[st2 lt2] hs2]|];
        reflexivity.
    + cbn [append_hits]. unfold append_hit, hit_index.
      cbn [stored capacity length mbind option_bind].
      destruct (interpret_words fmt ws st1 lt1) as [[[st2 lt2] hs2]|];
        reflexivity.
Qed.

Lemma build_hits_no_room ws st fmt hs st' :
  build_hits ws st 0 fmt = Some (hs, st') <->
  hs = [] /\ build_hits ws st 1 fmt = Some ([], st').
Proof.
  rewrite (build_hits_pure ws st 1 fmt) by lia.
  unfold build_hits. change (0 <? 0) with false. cbv iota.
  fold (initial_last_trigger_number st). rewrite build_hits_loop_no_room.
  destruct (interpret_words fmt ws st (initial_last_trigger_number st))
    as [[[st1 lt1] [|h hs1]]|]; cbn [mbind option_bind fst snd stored].
  - split.
    + intros [= <- <-]. split; reflexivity.
    + intros [-> [= <-]]. reflexivity.
  - split; [discriminate|]. intros [_ Hb]. discriminate.
  - split; [discriminate|]. intros [_ Hb]. discriminate.
Qed.

(** X4. With [max_hits_per_chunk = 0] the growth of the hit array adds no
    room, so that every hit is stored beyond the end of the array: a run of
    [build_hits] is in bounds exactly when the chunk has no hit to store, and
    then it leaves the buffered variables that a run with room leaves. *)
Theorem build_hits_without_room_in_bounds ws st fmt :
  (in_bounds (build_hits ws st 0 fmt) <->
   exists st', build_hits ws st 1 fmt = Some ([], st')) /\
  (in_bounds (build_hits ws st 0 fmt) ->
   build_hits ws st 0 fmt = build_hits ws st 1 fmt).
Proof.
  unfold in_bounds. split; [split|].
  - intros [[hs st'] Hr]. apply build_hits_no_room in Hr as [_ Hr].
    exists st'. exact Hr.
  - intros [st' Hr]. exists ([], st'). apply build_hits_no_room.
    split; [reflexivity|exact Hr].
  - intros [[hs st'] Hr]. rewrite Hr.
    apply build_hits_no_room in Hr as [-> Hr]. rewrite Hr. reflexivity.
Qed.

(** ** The ranges of the buffered variables *)

Lemma lookup_total_insert_pred {A} `{Inhabited A} (P : A -> Prop)
    (l : list A) (j : nat) (v : A) :
  (forall i : nat, P (l !!! i)) -> P v ->
  forall i : nat, P (<[j := v]> l !!! i).
Proof.
  intros Hl Hv i. destruct (decide (j = i)) as [->|Hne].
  - destruct (decide (i < length l)%nat).
    + rewrite list_lookup_total_insert_eq by assumption. exact Hv.
    + rewrite list_insert_ge by lia. apply Hl.
  - rewrite list_lookup_total_insert_ne by assumption. apply Hl.
Qed.

Lemma u32_range_add_event_status q es code :
  (forall i : nat, 0 <= es !!! i < 2 ^ 32) ->
  forall i : nat, 0 <= add_event_status q es code !!! i < 2 ^ 32.
Proof.
  intros Hes. unfold add_event_status.
  apply (lookup_total_insert_pred (fun x => 0 <= x < 2 ^ 32));
    [exact Hes|apply u32_range].
Qed.

Lemma u32_range_reset es :
  (forall i : nat, 0 <= es !!! i < 2 ^ 32) ->
  forall i : nat, 0 <= reset_m26_event_status es !!! i < 2 ^ 32.
Proof.
  intros Hes. unfold reset_m26_event_status. cbn [foldl seq].
  repeat (apply (lookup_total_insert_pred (fun x => 0 <= x < 2 ^ 32));
          [|lia]).
  exact Hes.
Qed.

Ltac bool_hyps :=
  repeat match goal with
    | H : (_ >? _) = _ |- _ => rewrite Z.gtb_ltb in H
    | H : (_ >=? _) = _ |- _ => rewrite Z.geb_leb in H
    | H : (_ =? _) = true |- _ => apply Z.eqb_eq in H
    | H : (_ =? _) = false |- _ => apply Z.eqb_neq in H
    | H : (_ <? _) = true |- _ => apply Z.ltb_lt in H
    | H : (_ <? _) = false |- _ => apply Z.ltb_ge in H
    | H : (_ <=? _) = true |- _ => apply Z.leb_le in H
    | H : (_ <=? _) = false |- _ => apply Z.leb_gt in H
    end.

Ltac range_step :=
  match goal with
  | |- forall i : nat, ?lo <= add_event_status _ _ _ !!! i < ?hi =>
      apply u32_range_add_event_status
  | |- forall i : nat, ?lo <= reset_m26_event_status _ !!! i < ?hi =>
      apply u32_range_reset
  | |- forall i : nat, ?lo <= (<[_ := _]> _) !!! i < ?hi =>
      apply (lookup_total_insert_pred (fun x => lo <= x < hi)); cbv beta
  | |- forall i : nat, ?lo <= (<[_ := _]> _) !!! i <= ?hi =>
      apply (lookup_total_insert_pred (fun x => lo <= x <= hi)); cbv beta
  | |- _ <= u32 _ < _ => apply u32_range
  end.

Ltac solve_range := repeat first [assumption | range_step | lia].

(** The stores of the frame decoder that cannot leave the int32 range. *)
Lemma small_stores st w p :
  (forall i : nat, 0 <= word_index st !!! i <= 131078) ->
  i32 (word_index st !!! p + 1) = word_index st !!! p + 1 /\
  i32 (get_frame_length w) = get_frame_length w /\
  i32 (get_row w) = get_row w /\
  u32 (get_n_words w) = get_n_words w /\
  i32 (-1) = -1.
Proof.
  intros Hwi. specialize (Hwi p).
  pose proof (get_frame_length_range w). pose proof (get_row_range w).
  pose proof (get_n_words_range w).
  rewrite !i32_small, u32_small by lia. repeat split.
Qed.

Lemma interpret_m26_in_range st lt w pid p q :
  in_range st -> (p < 6)%nat ->
  in_range (interpret_m26 st lt w pid p q).1.1.
Proof.
  intros [Hshape Hfid Hlfid Hts Hlts Hes Hfl Hwi Hwif Hnw Hrow Hlatch Htn] Hp.
  pose proof (get_frame_length_range w) as Hgfl.
  pose proof (get_row_range w) as Hgrow.
  pose proof (get_n_words_range w) as Hgnw.
  destruct (small_stores st w p Hwi) as (Ewi & Efl & Erow & Enw & Eneg).
  pose proof (Hwi p) as Hwip. pose proof (Hfl p) as Hflp.
  pose proof (Hnw p) as Hnwp. pose proof (Hrow p) as Hrowp.
  pose proof (Hwif p) as Hwifp. pose proof (Hlatch p) as Hlatchp.
  pose proof (Hfid 1%nat) as Hfid1. pose proof (Hts 0%nat) as Hts0.
  pose proof (shaped_frame_length st Hshape) as Lfl.
  pose proof (shaped_m26_data_loss st Hshape) as Lloss.
  pose proof (shaped_word_index st Hshape) as Lwi.
  pose proof (shaped_n_words st Hshape) as Lnw.
  pose proof (shaped_row st Hshape) as Lrow.
  constructor.
  - apply interpret_m26_shaped. exact Hshape.
  - unfold interpret_m26. cbv zeta. split_ifs; state_simpl; solve_range.
  - unfold interpret_m26. cbv zeta. split_ifs; state_simpl; solve_range.
  - unfold interpret_m26. cbv zeta. split_ifs; state_simpl; solve_range.
  - unfold interpret_m26. cbv zeta. split_ifs; state_simpl; solve_range.
  - unfold interpret_m26. cbv zeta. split_ifs; state_simpl; solve_range.
  - unfold interpret_m26. cbv zeta. rewrite ?Efl, ?Eneg.
    split_ifs; state_simpl; solve_range.
  - unfold interpret_m26. cbv zeta. rewrite ?Ewi.
    split_ifs; bool_hyps; state_simpl; solve_range.
  - unfold interpret_m26. cbv zeta. rewrite ?Ewi, ?Efl, ?Eneg.
    split_ifs; bool_hyps; state_simpl; intros i;
      (destruct (decide (i = p)) as [->|Hne];
       [rewrite ?list_lookup_total_insert_eq by lia
       |rewrite ?list_lookup_total_insert_ne by congruence;
        exact (Hwif i)]);
      intros Hl; try discriminate; try congruence; lia.
  - unfold interpret_m26. cbv zeta. rewrite ?Enw.
    split_ifs; bool_hyps; state_simpl; solve_range.
    all: rewrite u32_small by lia; lia.
  - unfold interpret_m26. cbv zeta. rewrite ?Erow.
    split_ifs; state_simpl; solve_range.
  - unfold interpret_m26. cbv zeta. rewrite ?Enw, ?Erow.
    split_ifs; bool_hyps; state_simpl; intros i;
      (destruct (decide (i = p)) as [->|Hne];
       [rewrite ?list_lookup_total_insert_eq by (rewrite ?length_insert; lia)
       |rewrite ?list_lookup_total_insert_ne by congruence;
        exact (Hlatch i)]);
      intros Hn; try (exfalso; apply Hn; reflexivity); try lia.
  - unfold interpret_m26. cbv zeta. split_ifs; state_simpl; exact Htn.
Qed.

Lemma get_trigger_number_range w fmt :
  0 <= get_trigger_number w fmt < 2 ^ 31.
Proof.
  unfold get_trigger_number. destruct (fmt =? 2).
  - pose proof (land_ones_range w 16 ltac:(lia)) as H.
    change (Z.ones 16) with 0xffff in H. lia.
  - apply (land_ones_range w 31). lia.
Qed.

Lemma interpret_tlu_in_range fmt st lt w :
  in_range st -> in_range (interpret_tlu fmt st lt w).1.1.
Proof.
  intros [Hshape Hfid Hlfid Hts Hlts Hes Hfl Hwi Hwif Hnw Hrow Hlatch Htn].
  pose proof (get_trigger_number_range w fmt) as Hgtn.
  constructor; try (apply interpret_tlu_shaped; exact Hshape);
    unfold interpret_tlu; cbv zeta; state_simpl; try assumption.
  - solve_range.
  - split_ifs; solve_range.
  - lia.
Qed.

Lemma interpret_word_in_range fmt st lt w st' lt' hs :
  interpret_word fmt st lt w = Some (st', lt', hs) ->
  in_range st -> in_range st'.
Proof.
  intros Hstep Hrange.
  destruct (interpret_word_cases _ _ _ _ _ Hstep)
    as [(_ & p & q & Hp & Hq & Hr) | [(_ & _ & Hr) | (_ & _ & Hr)]].
  - destruct (py_index_plane w p q Hp Hq) as (Hp6 & _).
    pose proof (interpret_m26_in_range st lt w (get_plane_number w - 1) p q
                  Hrange Hp6) as Hs.
    rewrite <- Hr in Hs. exact Hs.
  - pose proof (interpret_tlu_in_range fmt st lt w Hrange) as Hs.
    rewrite <- Hr in Hs. exact Hs.
  - inversion Hr; subst.
    destruct Hrange
      as [Hshape Hfid Hlfid Hts Hlts Hes Hfl Hwi Hwif Hnw Hrow Hlatch Htn].
    constructor; state_simpl; try assumption.
    + solve_shaped Hshape.
    + solve_range.
Qed.

(** Hits are stored by column words only, and a column word is reached with
    a word count other than 0. *)
Lemma interpret_m26_hits_n_words st lt w pid p q h :
  In h (interpret_m26 st lt w pid p q).2 -> n_words st !!! p <> 0.
Proof.
  unfold interpret_m26. cbv zeta.
  split_ifs; bool_hyps; intros Hin; cbn [snd In] in Hin;
    try contradiction; assumption.
Qed.

Lemma interpret_tlu_hit fmt st lt w h :
  In h (interpret_tlu fmt st lt w).2 ->
  Hit.plane h = 255 /\ Hit.column h = 0 /\ 0 <= Hit.row h < 4608 /\
  Hit.trigger_number h = u16 (get_trigger_number w fmt).
Proof.
  unfold interpret_tlu. cbv zeta. cbn [snd In]. intros [<-|[]].
  unfold Hit.store, FRAME_UNIT_CYCLE.
  cbn [Hit.plane Hit.column Hit.row Hit.trigger_number].
  match goal with
  | |- context [u16 (?d mod 4608)] =>
      pose proof (Z.mod_pos_bound d 4608 ltac:(lia)) as Hrow
  end.
  rewrite (u16_small (_ mod 4608)) by lia.
  repeat split; lia.
Qed.

Lemma interpret_word_hit_in_range fmt st lt w st' lt' hs h :
  interpret_word fmt st lt w = Some (st', lt', hs) ->
  in_range st -> In h hs -> hit_in_range h.
Proof.
  intros Hstep Hrange Hin.
  destruct (interpret_word_cases _ _ _ _ _ Hstep)
    as [(_ & p & q & Hp & Hq & Hr) | [(_ & _ & Hr) | (_ & _ & Hr)]].
  - destruct (py_index_plane w p q Hp Hq) as (Hp6 & _ & _ & Hn).
    pose proof (get_plane_number_range w) as Hpl.
    pose proof (get_column_range w) as Hcol.
    pose proof (get_n_hits_range w) as Hnh.
    pose proof (interpret_m26_hits st lt w (get_plane_number w - 1) p q h)
      as Hform.
    pose proof (interpret_m26_hits_n_words st lt w (get_plane_number w - 1)
                  p q h) as Hnw.
    rewrite <- Hr in Hform, Hnw. cbn [snd] in Hform, Hnw.
    destruct (Hform Hin) as (k & Hk & ->). specialize (Hnw Hin).
    pose proof (range_row st Hrange p) as Hrow.
    pose proof (range_row_latched st Hrange p Hnw) as Hrow0.
    right. unfold Hit.store. cbn [Hit.plane Hit.column Hit.row].
    rewrite u8_small, !u16_small by lia. lia.
  - left. destruct (interpret_tlu_hit fmt st lt w h) as (H1 & H2 & H3 & _).
    + rewrite <- Hr. exact Hin.
    + repeat split; assumption || lia.
  - inversion Hr; subst. destruct Hin.
Qed.

Lemma interpret_words_in_range fmt ws : forall st lt st' lt' hs,
  interpret_words fmt ws st lt = Some (st', lt', hs) ->
  in_range st ->
  in_range st' /\ forall h, In h hs -> hit_in_range h.
Proof.
  induction ws as [|w ws IH]; intros st lt st' lt' hs Hrun Hrange.
  - simpl in Hrun. inversion Hrun; subst. split; [exact Hrange|].
    intros h [].
  - rewrite interpret_words_cons in Hrun.
    destruct (interpret_word fmt st lt w) as [[[st1 lt1] hs1]|] eqn:Hstep;
      [|discriminate].
    cbn [mbind option_bind fst snd] in Hrun.
    destruct (interpret_words fmt ws st1 lt1) as [[[st2 lt2] hs2]|] eqn:Hrest;
      [|discriminate].
    cbn [mbind option_bind fst snd] in Hrun. inversion Hrun; subst.
    pose proof (interpret_word_in_range _ _ _ _ _ _ _ Hstep Hrange) as Hr1.
    destruct (IH _ _ _ _ _ Hrest Hr1) as [Hr2 Hh2].
    split; [exact Hr2|].
    intros h Hin. apply in_app_iff in Hin as [Hin|Hin].
    + eapply interpret_word_hit_in_range; eassumption.
    + apply Hh2. exact Hin.
Qed.

Lemma replicate_lookup_total (n : nat) (x : Z) (i : nat) :
  ((i < n)%nat /\ replicate n x !!! i = x) \/
  ((n <= i)%nat /\ replicate n x !!! i = 1).
Proof.
  rewrite list_lookup_total_alt.
  destruct (replicate n x !! i) as [y|] eqn:E.
  - apply lookup_replicate in E as [-> Hi]. left. split; [lia|reflexivity].
  - right. split; [|reflexivity].
    apply lookup_ge_None in E. rewrite length_replicate in E. lia.
Qed.

Lemma in_range_reset_state : in_range RawDataInterpreter.reset_state.
Proof.
  constructor; try exact shaped_reset_state;
    unfold RawDataInterpreter.reset_state;
    cbn [frame_id last_frame_id frame_length m26_data_loss word_index
         n_words row event_status trigger_number m26_timestamps
         last_m26_timestamps];
    try (intros i);
    repeat match goal with
      | |- context [replicate ?n ?x !!! ?j] =>
          let E := fresh "E" in
          destruct (replicate_lookup_total n x j) as [[? E]|[? E]];
          rewrite E; clear E
      end;
    try lia.
Qed.

Lemma interpret_chunks_in_range chunks : forall it hits it',
  RawDataInterpreter.interpret_chunks it chunks = Some (hits, it') ->
  in_range (RawDataInterpreter.buffers it) ->
  in_range (RawDataInterpreter.buffers it') /\
  forall h, In h hits -> hit_in_range h.
Proof.
  induction chunks as [|c cs IH]; intros it hits it' Hrun Hrange.
  - simpl in Hrun. inversion Hrun; subst. split; [exact Hrange|].
    intros h [].
  - simpl in Hrun. unfold RawDataInterpreter.interpret_raw_data in Hrun.
    destruct (build_hits c (RawDataInterpreter.buffers it)
                (RawDataInterpreter.max_hits_per_chunk it)
                (RawDataInterpreter.trigger_data_format it))
      as [[hs1 st1]|] eqn:Hbuild; [|discriminate].
    simpl in Hrun.
    match type of Hrun with
    | context [RawDataInterpreter.interpret_chunks ?x cs] =>
        destruct (RawDataInterpreter.interpret_chunks x cs)
          as [[hs2 it2]|] eqn:Hrest; [|discriminate]
    end.
    simpl in Hrun. inversion Hrun; subst.
    apply build_hits_sound in Hbuild as (lt1 & Hwords).
    destruct (interpret_words_in_range _ _ _ _ _ _ _ Hwords Hrange)
      as [Hrange1 Hhits1].
    destruct (IH _ _ _ Hrest Hrange1) as [Hrange2 Hhits2].
    split; [exact Hrange2|].
    intros h Hin. apply in_app_iff in Hin as [Hin|Hin]; auto.
Qed.

(** X5. Whatever chunks a freshly constructed interpreter is given, its
    buffered variables stay within the bounds of [in_range]: the unsigned
    32 bit buffers hold 32 bit values, a frame length is -1 or at most
    2 * 0xFFFF, a word index is never negative and never above 131078 (a plane
    goes to loss mode before its index can run further), a word count is at
    most 15, and a row is latched (not -1) whenever the word count of its
    plane is not 0.  No store of the frame decoder ever wraps. *)
Theorem buffers_stay_in_range max_hits fmt chunks hits it :
  RawDataInterpreter.interpret_chunks (RawDataInterpreter.init max_hits fmt)
    chunks = Some (hits, it) ->
  in_range (RawDataInterpreter.buffers it).
Proof.
  intros Hrun.
  apply (interpret_chunks_in_range chunks _ hits it Hrun).
  exact in_range_reset_state.
Qed.

Lemma buffers_stay_in_range_witness :
  exists it,
    RawDataInterpreter.interpret_chunks RawDataInterpreter.default
      [[0x20115555; 0x20100000; 0x20100007]; [0x20100000; 0x2010FFFF]]
      = Some ([], it) /\
    in_range (RawDataInterpreter.buffers it).
Proof.
  eexists. split.
  - vm_compute. reflexivity.
  - eapply (buffers_stay_in_range 500000 2
              [[0x20115555; 0x20100000; 0x20100007];
               [0x20100000; 0x2010FFFF]]).
    vm_compute. reflexivity.
Defined.

Lemma interpret_chunks_Some chunks : forall it,
  0 < RawDataInterpreter.max_hits_per_chunk it ->
  Forall (fun c => existsb out_of_planes c = false) chunks ->
  exists hits it', RawDataInterpreter.interpret_chunks it chunks
                   = Some (hits, it').
Proof.
  induction chunks as [|c cs IH]; intros it Hmax Hall.
  - do 2 eexists. reflexivity.
  - inversion Hall as [|? ? Hc Hcs]; subst.
    cbn [RawDataInterpreter.interpret_chunks].
    unfold RawDataInterpreter.interpret_raw_data.
    destruct (build_hits_Some c (RawDataInterpreter.buffers it)
                (RawDataInterpreter.max_hits_per_chunk it)
                (RawDataInterpreter.trigger_data_format it) Hmax Hc)
      as (hs1 & st1 & Hbuild).
    rewrite Hbuild. cbn [mbind option_bind fst snd].
    match goal with
    | |- context [RawDataInterpreter.interpret_chunks ?x cs] =>
        destruct (IH x Hmax Hcs) as (hs2 & it2 & Hrest)
    end.
    rewrite Hrest. cbn [mbind option_bind fst snd].
    do 2 eexists. reflexivity.
Qed.

(** X6. A freshly constructed interpreter with a positive buffer size, given
    chunks without a Mimosa26 word of a plane number above 6, returns for
    every chunk, and every hit it returns is either a TLU hit (plane 255,
    column 0, row below 4608) or a hit with a plane number 0 to 6, a column
    of at most 2050 and a row of at most 2047: the value -1 that the row
    buffer starts with never reaches a hit. *)
Theorem hits_stay_in_range max_hits fmt chunks :
  0 < max_hits ->
  Forall (fun c => existsb out_of_planes c = false) chunks ->
  exists hits it,
    RawDataInterpreter.interpret_chunks (RawDataInterpreter.init max_hits fmt)
      chunks = Some (hits, it) /\
    Forall hit_in_range hits.
Proof.
  intros Hmax Hall.
  destruct (interpret_chunks_Some chunks (RawDataInterpreter.init max_hits fmt)
              Hmax Hall) as (hits & it & Hrun).
  exists hits, it. split; [exact Hrun|].
  destruct (interpret_chunks_in_range chunks _ hits it Hrun
              in_range_reset_state) as [_ Hhits].
  apply List.Forall_forall. exact Hhits.
Qed.

Lemma hits_stay_in_range_witness :
  exists hits it,
    RawDataInterpreter.interpret_chunks (RawDataInterpreter.init 500000 2)
      [[0x20115555; 0x20100000; 0x20100007; 0x20100000; 0x20100001];
       [0x20100001; 0x20107FF1; 0x20101FFF]] = Some (hits, it) /\
    Forall hit_in_range hits.
Proof.
  apply (hits_stay_in_range 500000 2
           [[0x20115555; 0x20100000; 0x20100007; 0x20100000; 0x20100001];
            [0x20100001; 0x20107FF1; 0x20101FFF]]).
  - lia.
  - repeat (constructor; [reflexivity|]). constructor.
Defined.

(** ** Trigger words and TLU hits *)

Lemma mimosa_not_trigger w :
  is_mimosa_data w = true -> is_trigger_word w = false.
Proof.
  intros Hm. destruct (is_trigger_word w) eqn:Ht; [|reflexivity].
  assert (Hbit : Z.testbit w 31 = true).
  { unfold is_trigger_word in Ht. apply Z.eqb_eq in Ht.
    apply (f_equal (fun x => Z.testbit x 31)) in Ht.
    rewrite Z.land_spec in Ht. exact Ht. }
  destruct (trigger_word_classified w Hbit) as [Hm' _]. congruence.
Qed.

Lemma u16_get_trigger_number w fmt :
  u16 (get_trigger_number w fmt) = Z.land w 0xffff.
Proof.
  unfold get_trigger_number, u16. rewrite <- Z.land_ones by lia.
  destruct (fmt =? 2); rewrite <- Z.land_assoc; reflexivity.
Qed.






(** ** The number of hits *)

Lemma interpret_m26_hits_length st lt w pid p q :
  (length (interpret_m26 st lt w pid p q).2 <= 4)%nat.
Proof.
  pose proof (get_n_hits_range w) as Hk.
  unfold interpret_m26. cbv zeta.
  split_ifs; cbn [snd length]; rewrite ?length_map, ?length_seq; lia.
Qed.

Lemma interpret_word_hits_length fmt st lt w st' lt' hs :
  interpret_word fmt st lt w = Some (st', lt', hs) ->
  (length hs <= 4)%nat.
Proof.
  intros Hstep.
  destruct (interpret_word_cases _ _ _ _ _ Hstep)
    as [(_ & p & q & _ & _ & Hr) | [(_ & _ & Hr) | (_ & _ & Hr)]].
  - pose proof (interpret_m26_hits_length st lt w (get_plane_number w - 1)
                  p q) as Hlen.
    rewrite <- Hr in Hlen. exact Hlen.
  - assert (Hhs : hs = (interpret_tlu fmt st lt w).2)
      by (rewrite <- Hr; reflexivity).
    rewrite Hhs. unfold interpret_tlu. cbv zeta. cbn [snd length]. lia.
  - inversion Hr; subst. cbn [length]. lia.
Qed.

(** X8. A chunk of n words gives at most 4 n hits: no word stores more than
    the four hits of a full pixel group. *)
Theorem at_most_four_hits_per_word ws st max_hits fmt hs st' :
  build_hits ws st max_hits fmt = Some (hs, st') ->
  (length hs <= 4 * length ws)%nat.
Proof.
  intros Hbuild. apply build_hits_sound in Hbuild as (lt' & Hrun).
  revert Hrun. generalize (initial_last_trigger_number st).
  revert st hs st' lt'.
  induction ws as [|w ws IH]; intros st hs st' lt' lt Hrun.
  - simpl in Hrun. inversion Hrun; subst. cbn [length]. lia.
  - rewrite interpret_words_cons in Hrun.
    destruct (interpret_word fmt st lt w) as [[[st1 lt1] hs1]|] eqn:Hstep;
      [|discriminate].
    cbn [mbind option_bind fst snd] in Hrun.
    destruct (interpret_words fmt ws st1 lt1) as [[[st2 lt2] hs2]|] eqn:Hrest;
      [|discriminate].
    cbn [mbind option_bind fst snd] in Hrun. inversion Hrun; subst.
    pose proof (interpret_word_hits_length _ _ _ _ _ _ _ Hstep) as H1.
    pose proof (IH _ _ _ _ _ Hrest) as H2.
    rewrite length_app. cbn [length]. lia.
Qed.

Lemma at_most_four_hits_per_word_witness :
  (length [Hit.mk 255 0 0 5 0 0 0x4000] <= 4 * length [0x80000005%Z])%nat.
Proof.
  eapply (at_most_four_hits_per_word [0x80000005]
            RawDataInterpreter.reset_state 500000 2).
  vm_compute. reflexivity.
Defined.

(** ** The trigger number on Mimosa26 hits *)

Lemma interpret_m26_trigger_number st lt w pid p q :
  trigger_number (interpret_m26 st lt w pid p q).1.1 = trigger_number st.
Proof.
  unfold interpret_m26. cbv zeta. split_ifs; reflexivity.
Qed.

Lemma interpret_word_no_trigger fmt st lt w st' lt' hs :
  interpret_word fmt st lt w = Some (st', lt', hs) ->
  is_trigger_word w = false ->
  trigger_number st' = trigger_number st /\
  forall h, In h hs ->
    Hit.trigger_number h
      = u16 (if trigger_number st <? 0 then 0 else trigger_number st).
Proof.
  intros Hstep Ht.
  destruct (interpret_word_cases _ _ _ _ _ Hstep)
    as [(_ & p & q & _ & _ & Hr) | [(_ & Ht' & _) | (_ & _ & Hr)]].
  - pose proof (interpret_m26_trigger_number st lt w (get_plane_number w - 1)
                  p q) as Htn.
    pose proof (interpret_m26_hits st lt w (get_plane_number w - 1) p q)
      as Hhits.
    rewrite <- Hr in Htn, Hhits. cbn [fst snd] in Htn, Hhits.
    split; [exact Htn|].
    intros h Hin. destruct (Hhits h Hin) as (k & _ & ->). reflexivity.
  - congruence.
  - inversion Hr; subst. split; [reflexivity|]. intros h [].
Qed.

Lemma interpret_words_no_trigger fmt ws : forall st lt st' lt' hs,
  interpret_words fmt ws st lt = Some (st', lt', hs) ->
  (forall w, In w ws -> is_trigger_word w = false) ->
  trigger_number st' = trigger_number st /\
  forall h, In h hs ->
    Hit.trigger_number h
      = u16 (if trigger_number st <? 0 then 0 else trigger_number st).
Proof.
  induction ws as [|w ws IH]; intros st lt st' lt' hs Hrun Hws.
  - simpl in Hrun. inversion Hrun; subst. split; [reflexivity|].
    intros h [].
  - rewrite interpret_words_cons in Hrun.
    destruct (interpret_word fmt st lt w) as [[[st1 lt1] hs1]|] eqn:Hstep;
      [|discriminate].
    cbn [mbind option_bind fst snd] in Hrun.
    destruct (interpret_words fmt ws st1 lt1) as [[[st2 lt2] hs2]|] eqn:Hrest;
      [|discriminate].
    cbn [mbind option_bind fst snd] in Hrun. inversion Hrun; subst.
    destruct (interpret_word_no_trigger _ _ _ _ _ _ _ Hstep)
      as [Htn1 Hh1]; [apply Hws; left; reflexivity|].
    destruct (IH _ _ _ _ _ Hrest) as [Htn2 Hh2];
      [intros w' Hin; apply Hws; right; exact Hin|].
    rewrite Htn1 in Htn2, Hh2. split; [exact Htn2|].
    intros h Hin. apply in_app_iff in Hin as [Hin|Hin]; auto.
Qed.

(** X9. Hits carry the number of the latest trigger: in a chunk, the hit of a
    trigger word and every hit stored after it, up to the next trigger word,
    have the low 16 bits of that trigger word as trigger number; the hits of
    the words before it are not touched. *)
Theorem hits_carry_latest_trigger_number
    ws1 wt ws2 st max_hits fmt hs st' :
  0 < max_hits ->
  is_trigger_word wt = true ->
  (forall w, In w ws2 -> is_trigger_word w = false) ->
  build_hits (ws1 ++ wt :: ws2) st max_hits fmt = Some (hs, st') ->
  exists hs1 st1 hs2,
    build_hits ws1 st max_hits fmt = Some (hs1, st1) /\
    hs = hs1 ++ hs2 /\
    hs2 <> [] /\
    forall h, In h hs2 -> Hit.trigger_number h = Z.land wt 0xffff.
Proof.
  intros Hmax Ht Hws2. rewrite !build_hits_pure by exact Hmax.
  rewrite interpret_words_app.
  destruct (interpret_words fmt ws1 st (initial_last_trigger_number st))
    as [[[st1 lt1] hs1]|]; cbn [mbind option_bind fst snd]; [|discriminate].
  rewrite interpret_words_cons.
  assert (Hm : is_mimosa_data wt = false).
  { destruct (is_mimosa_data wt) eqn:E; [|reflexivity].
    apply mimosa_not_trigger in E. congruence. }
  assert (Hstep : interpret_word fmt st1 lt1 wt
                  = Some (interpret_tlu fmt st1 lt1 wt))
    by (unfold interpret_word; rewrite Hm, Ht; reflexivity).
  rewrite Hstep. cbn [mbind option_bind].
  pose proof (interpret_tlu_hit fmt st1 lt1 wt) as Hhit.
  assert (Htn : trigger_number (interpret_tlu fmt st1 lt1 wt).1.1
                = get_trigger_number wt fmt) by reflexivity.
  assert (Hne : (interpret_tlu fmt st1 lt1 wt).2 <> [])
    by (unfold interpret_tlu; cbv zeta; cbn [snd]; discriminate).
  destruct (interpret_tlu fmt st1 lt1 wt) as [[st2 lt2] hs2].
  cbn [fst snd] in *.
  destruct (interpret_words fmt ws2 st2 lt2) as [[[st3 lt3] hs3]|] eqn:Hrest;
    cbn [mbind option_bind fst snd]; [|discriminate].
  intros [= <- <-]. exists hs1, st1, (hs2 ++ hs3).
  split; [reflexivity|]. split; [reflexivity|].
  split; [destruct hs2; [contradiction|discriminate]|].
  intros h Hin. apply in_app_iff in Hin as [Hin|Hin].
  - destruct (Hhit h Hin) as (_ & _ & _ & ->).
    apply u16_get_trigger_number.
  - destruct (interpret_words_no_trigger _ _ _ _ _ _ _ Hrest Hws2)
      as [_ Hh].
    rewrite (Hh h Hin), Htn.
    pose proof (get_trigger_number_range wt fmt) as Hr.
    destruct (Z.ltb_spec (get_trigger_number wt fmt) 0); [lia|].
    apply u16_get_trigger_number.
Qed.

Lemma hits_carry_latest_trigger_number_witness :
  exists hs1 st1 hs2,
    build_hits [0x80000003] RawDataInterpreter.reset_state 500000 2
      = Some (hs1, st1) /\
    [Hit.mk 255 0 0 3 0 0 0x4000; Hit.mk 255 0 0 9 0 0 0x4000;
     Hit.mk 1 0 0 9 100 50 0] = hs1 ++ hs2 /\
    hs2 <> [] /\
    forall h, In h hs2 -> Hit.trigger_number h = Z.land 0x80000009 0xffff.
Proof.
  eapply (hits_carry_latest_trigger_number [0x80000003] 0x80000009
            [0x20100000; 0x20100000; 0x20100000; 0x20100001; 0x20100001;
             0x20100321; 0x20100190]
            RawDataInterpreter.reset_state 500000 2).
  - lia.
  - reflexivity.
  - intros w Hin.
    repeat (destruct Hin as [<-|Hin]; [reflexivity|]). destruct Hin.
  - vm_compute. reflexivity.
Defined.

(** ** The time stamp of a TLU hit *)

(** X10. The 15 bit time stamp of a trigger word can be read back from its
    hit: the low 15 bits of the time stamp of the hit are the time stamp field
    of the word, and the time stamp lies, modulo 2^32, less than 2^15 clock
    cycles after [last_m26_timestamps]. *)
Theorem tlu_time_stamp_low_bits fmt st lt w :
  Z.testbit w 31 = true ->
  0 <= last_m26_timestamps st < 2 ^ 32 ->
  exists st' lt' h,
    interpret_word fmt st lt w = Some (st', lt', [h]) /\
    Hit.time_stamp h mod 2 ^ 15 = Z.land (Z.shiftr w 16) 0x7FFF /\
    (Hit.time_stamp h - last_m26_timestamps st) mod 2 ^ 32 < 2 ^ 15.
Proof.
  intros Hbit Hlast.
  destruct (trigger_word_classified w Hbit) as [Hm Ht].
  unfold interpret_word. rewrite Hm, Ht. unfold interpret_tlu. cbv zeta.
  do 3 eexists. split; [reflexivity|].
  unfold Hit.store. cbn [Hit.time_stamp].
  rewrite get_trigger_timestamp_field.
  set (last := last_m26_timestamps st) in *.
  set (tt0 := Z.lor (Z.land (Z.shiftr w 16) 0x7FFF)
                (Z.land last 0xffff8000)).
  assert (Htt0 : tt0 = Z.shiftr w 16 mod 2 ^ 15 + (last - last mod 2 ^ 15))
    by (apply lor_trigger_timestamp; exact Hlast).
  assert (Hfield : Z.land (Z.shiftr w 16) 0x7FFF = Z.shiftr w 16 mod 2 ^ 15)
    by (change 0x7FFF with (Z.ones 15); apply Z.land_ones; lia).
  rewrite Hfield.
  pose proof (Z.mod_pos_bound (Z.shiftr w 16) (2 ^ 15) ltac:(lia)) as Hts.
  pose proof (Z.mod_pos_bound last (2 ^ 15) ltac:(lia)) as Hlo.
  pose proof (Z.div_mod last (2 ^ 15) ltac:(lia)) as Hdm.
  set (tt := if tt0 <? last then tt0 + 2 ^ 15 else tt0).
  assert (Htt : last <= tt < last + 2 ^ 15)
    by (subst tt; destruct (Z.ltb_spec tt0 last); lia).
  assert (Hq : exists q, tt = Z.shiftr w 16 mod 2 ^ 15 + q * 2 ^ 15).
  { subst tt. destruct (Z.ltb_spec tt0 last).
    - exists (last / 2 ^ 15 + 1). lia.
    - exists (last / 2 ^ 15). lia. }
  destruct Hq as [q Hq]. split.
  - unfold u32.
    rewrite Z.mod_mod_divide by (exists (2 ^ 17); reflexivity).
    rewrite Hq, Z.mod_add by lia. apply Z.mod_small. exact Hts.
  - unfold u32. rewrite Zminus_mod_idemp_l.
    rewrite Z.mod_small by lia. lia.
Qed.

Lemma tlu_time_stamp_low_bits_witness :
  exists st' lt' h,
    interpret_word 2 (anchored_state 0xFFFFFFFF 0) (-1) 0xA0000001
      = Some (st', lt', [h]) /\
    Hit.time_stamp h mod 2 ^ 15 = Z.land (Z.shiftr 0xA0000001 16) 0x7FFF /\
    (Hit.time_stamp h - 0xFFFFFFFF) mod 2 ^ 32 < 2 ^ 15.
Proof.
  apply (tlu_time_stamp_low_bits 2 (anchored_state 0xFFFFFFFF 0) (-1)
           0xA0000001).
  - reflexivity.
  - vm_compute. split; [discriminate|reflexivity].
Defined.

(** ** The header words of a frame *)

Lemma interpret_word_valid_plane fmt st lt w :
  is_mimosa_data w = true ->
  1 <= get_plane_number w <= 6 ->
  interpret_word fmt st lt w
    = Some (interpret_m26 st lt w (get_plane_number w - 1)
              (Z.to_nat (get_plane_number w - 1))
              (Z.to_nat (get_plane_number w))).
Proof.
  intros Hm Hn. unfold interpret_word. rewrite Hm.
  destruct (py_index_valid_plane w Hn) as [Hp Hq].
  rewrite Hp. cbn [mbind option_bind]. rewrite Hq. reflexivity.
Qed.

Lemma header_word_step st lt w pid p q :
  shaped st -> (p < 6)%nat ->
  is_data_loss w = false ->
  is_frame_header w = true ->
  (interpret_m26 st lt w pid p q).2 = [] /\
  (interpret_m26 st lt w pid p q).1.2 = lt /\
  word_index (interpret_m26 st lt w pid p q).1.1 !!! p = 0 /\
  m26_data_loss (interpret_m26 st lt w pid p q).1.1 !!! p = false /\
  m26_timestamps (interpret_m26 st lt w pid p q).1.1 !!! p
    = u32 (Z.lor (get_m26_timestamp_low w)
             (Z.land (m26_timestamps st !!! p) 0xffff0000)) /\
  frame_id (interpret_m26 st lt w pid p q).1.1 = frame_id st.
Proof.
  intros Hshape Hp Hloss Hhdr. unfold interpret_m26.
  rewrite Hloss, Hhdr. cbv zeta. destruct Hshape.
  destruct (pid =? 0); state_simpl;
    rewrite !list_lookup_total_insert_eq by lia; repeat split.
Qed.

Lemma header1_word_step st lt w pid p q :
  shaped st -> (p < 6)%nat ->
  is_data_loss w = false ->
  is_frame_header w = false ->
  m26_data_loss st !!! p = false ->
  word_index st !!! p = 0 ->
  (interpret_m26 st lt w pid p q).2 = [] /\
  (interpret_m26 st lt w pid p q).1.2 = lt /\
  word_index (interpret_m26 st lt w pid p q).1.1 !!! p = 1 /\
  m26_data_loss (interpret_m26 st lt w pid p q).1.1 !!! p = false /\
  m26_timestamps (interpret_m26 st lt w pid p q).1.1 !!! p
    = u32 (Z.lor (get_m26_timestamp_high w)
             (Z.land (m26_timestamps st !!! p) 0x0000ffff)) /\
  frame_id (interpret_m26 st lt w pid p q).1.1 = frame_id st.
Proof.
  intros Hshape Hp Hloss Hhdr Hl Hwi. unfold interpret_m26.
  rewrite Hloss, Hhdr, Hl, Hwi. cbv zeta.
  change (i32 (0 + 1)) with 1. change (1 =? 1) with true. cbv iota.
  destruct Hshape. state_simpl.
  rewrite !list_lookup_total_insert_eq by lia. repeat split. exact Hl.
Qed.

Lemma frame_id_low_word_step st lt w pid p q :
  shaped st -> (p < 6)%nat -> (q < 7)%nat ->
  is_data_loss w = false ->
  is_frame_header w = false ->
  m26_data_loss st !!! p = false ->
  word_index st !!! p = 1 ->
  (interpret_m26 st lt w pid p q).2 = [] /\
  (interpret_m26 st lt w pid p q).1.2 = lt /\
  word_index (interpret_m26 st lt w pid p q).1.1 !!! p = 2 /\
  m26_data_loss (interpret_m26 st lt w pid p q).1.1 !!! p = false /\
  m26_timestamps (interpret_m26 st lt w pid p q).1.1 = m26_timestamps st /\
  frame_id (interpret_m26 st lt w pid p q).1.1 !!! q
    = u32 (Z.lor (get_frame_id_low w)
             (Z.land (frame_id st !!! q) 0xffff0000)).
Proof.
  intros Hshape Hp Hq Hloss Hhdr Hl Hwi. unfold interpret_m26.
  rewrite Hloss, Hhdr, Hl, Hwi. cbv zeta.
  change (i32 (1 + 1)) with 2. change (2 =? 1) with false.
  change (2 =? 2) with true. cbv iota.
  destruct Hshape. state_simpl.
  rewrite !list_lookup_total_insert_eq by lia. repeat split. exact Hl.
Qed.

Lemma frame_id_high_word_step st lt w pid p q :
  shaped st -> (p < 6)%nat -> (q < 7)%nat ->
  is_data_loss w = false ->
  is_frame_header w = false ->
  m26_data_loss st !!! p = false ->
  word_index st !!! p = 2 ->
  (interpret_m26 st lt w pid p q).2 = [] /\
  (interpret_m26 st lt w pid p q).1.2 = lt /\
  word_index (interpret_m26 st lt w pid p q).1.1 !!! p = 3 /\
  m26_timestamps (interpret_m26 st lt w pid p q).1.1 = m26_timestamps st /\
  frame_id (interpret_m26 st lt w pid p q).1.1 !!! q
    = u32 (Z.lor (get_frame_id_high w)
             (Z.land (frame_id st !!! q) 0x0000ffff)).
Proof.
  intros Hshape Hp Hq Hloss Hhdr Hl Hwi. unfold interpret_m26.
  rewrite Hloss, Hhdr, Hl, Hwi. cbv zeta.
  change (i32 (2 + 1)) with 3. change (3 =? 1) with false.
  change (3 =? 2) with false. change (3 =? 3) with true. cbv iota.
  destruct Hshape. state_simpl.
  rewrite !list_lookup_total_insert_eq by lia. repeat split.
Qed.

Lemma testbit_small a k n :
  0 <= a < 2 ^ k -> 0 <= k <= n -> Z.testbit a n = false.
Proof.
  intros Ha Hn. rewrite <- (Z.mod_small a (2 ^ k)) by exact Ha.
  apply Z.mod_pow2_bits_high. lia.
Qed.

(** The low half of a 32 bit value that was given a new low half. *)
Lemma low_half_of_mix a old :
  0 <= a < 2 ^ 16 ->
  Z.land (u32 (Z.lor a (Z.land old 0xffff0000))) 0x0000ffff = a.
Proof.
  intros Ha. apply Z.bits_inj'. intros n Hn.
  rewrite Z.land_spec. change 0x0000ffff with (Z.ones 16).
  change 0xffff0000 with (Z.shiftl (Z.ones 16) 16).
  destruct (Z.ltb_spec n 16).
  - rewrite Z.ones_spec_low, andb_true_r by lia.
    rewrite testbit_u32_low by lia.
    rewrite Z.lor_spec, Z.land_spec, Z.shiftl_spec by lia.
    rewrite (Z.testbit_neg_r _ (n - 16)) by lia.
    rewrite andb_false_r, orb_false_r. reflexivity.
  - rewrite Z.ones_spec_high, andb_false_r by lia.
    symmetry. apply (testbit_small a 16); lia.
Qed.

(** Two 16 bit halves put together. *)
Lemma join_halves T a :
  0 <= T < 2 ^ 32 -> a = T mod 2 ^ 16 ->
  u32 (Z.lor (Z.shiftl (T / 2 ^ 16) 16) a) = T.
Proof.
  intros HT ->.
  pose proof (Z.mod_pos_bound T (2 ^ 16) ltac:(lia)) as Hlo.
  pose proof (Z.div_mod T (2 ^ 16) ltac:(lia)) as Hdm.
  rewrite <- Z.add_nocarry_lor.
  - rewrite Z.shiftl_mul_pow2 by lia.
    replace (T / 2 ^ 16 * 2 ^ 16 + T mod 2 ^ 16) with T by lia.
    apply u32_small. exact HT.
  - apply Z.bits_inj'. intros n Hn. rewrite Z.land_spec, Z.bits_0.
    destruct (Z.ltb_spec n 16).
    + rewrite Z.shiftl_spec_low by lia. reflexivity.
    + rewrite (testbit_small (T mod 2 ^ 16) 16) by lia.
      apply andb_false_r.
Qed.

(** X11. The four header words of a frame rebuild a 32 bit time stamp and a
    32 bit frame number from their 16 bit halves: for a plane 1 to 6, a frame
    start word with the low half of T, a word with its high half, a word with
    the low half of F and a word with its high half leave T as the time stamp
    of the plane and F as its frame number, whatever state the plane was in
    before (also in loss mode), and emit nothing. *)
Theorem header_words_rebuild_time_stamp_and_frame_id
    fmt max_hits st w0 w1 w2 w3 n T F :
  0 < max_hits ->
  shaped st ->
  1 <= n <= 6 ->
  0 <= T < 2 ^ 32 ->
  0 <= F < 2 ^ 32 ->
  (forall w, In w [w0; w1; w2; w3] ->
     is_mimosa_data w = true /\ get_plane_number w = n /\
     is_data_loss w = false) ->
  is_frame_header w0 = true ->
  is_frame_header w1 = false ->
  is_frame_header w2 = false ->
  is_frame_header w3 = false ->
  Z.land 0xffff w0 = T mod 2 ^ 16 ->
  Z.land 0xffff w1 = T / 2 ^ 16 ->
  Z.land 0xffff w2 = F mod 2 ^ 16 ->
  Z.land 0xffff w3 = F / 2 ^ 16 ->
  exists st',
    build_hits [w0; w1; w2; w3] st max_hits fmt = Some ([], st') /\
    m26_timestamps st' !!! Z.to_nat (n - 1) = T /\
    frame_id st' !!! Z.to_nat n = F /\
    word_index st' !!! Z.to_nat (n - 1) = 3.
Proof.
  intros Hmax Hshape Hn HT HF Hws Hh0 Hh1 Hh2 Hh3 E0 E1 E2 E3.
  destruct (Hws w0) as (Hm0 & Hn0 & Hl0); [cbn; tauto|].
  destruct (Hws w1) as (Hm1 & Hn1 & Hl1); [cbn; tauto|].
  destruct (Hws w2) as (Hm2 & Hn2 & Hl2); [cbn; tauto|].
  destruct (Hws w3) as (Hm3 & Hn3 & Hl3); [cbn; tauto|].
  set (p := Z.to_nat (n - 1)). set (q := Z.to_nat n).
  assert (Hp : (p < 6)%nat) by lia. assert (Hq : (q < 7)%nat) by lia.
  rewrite build_hits_pure by exact Hmax.
  generalize (initial_last_trigger_number st). intros lt.
  (* frame start word *)
  rewrite interpret_words_cons.
  rewrite (interpret_word_valid_plane fmt st lt w0 Hm0) by lia.
  rewrite Hn0. fold p q. cbn [mbind option_bind].
  pose proof (interpret_m26_shaped st lt w0 (n - 1) p q Hshape) as Hs0.
  destruct (header_word_step st lt w0 (n - 1) p q Hshape Hp Hl0 Hh0)
    as (Hhs0 & Hlt0 & Hwi0 & Hloss0 & Hts0 & _).
  destruct (interpret_m26 st lt w0 (n - 1) p q) as [[s0 l0] hs0].
  cbn [fst snd] in *. subst hs0 l0.
  (* second header word *)
  rewrite interpret_words_cons.
  rewrite (interpret_word_valid_plane fmt s0 lt w1 Hm1) by lia.
  rewrite Hn1. fold p q. cbn [mbind option_bind].
  pose proof (interpret_m26_shaped s0 lt w1 (n - 1) p q Hs0) as Hs1.
  destruct (header1_word_step s0 lt w1 (n - 1) p q Hs0 Hp Hl1 Hh1 Hloss0 Hwi0)
    as (Hhs1 & Hlt1 & Hwi1 & Hloss1 & Hts1 & Hfid1).
  destruct (interpret_m26 s0 lt w1 (n - 1) p q) as [[s1 l1] hs1].
  cbn [fst snd] in *. subst hs1 l1.
  (* frame number, low half *)
  rewrite interpret_words_cons.
  rewrite (interpret_word_valid_plane fmt s1 lt w2 Hm2) by lia.
  rewrite Hn2. fold p q. cbn [mbind option_bind].
  pose proof (interpret_m26_shaped s1 lt w2 (n - 1) p q Hs1) as Hs2.
  destruct (frame_id_low_word_step s1 lt w2 (n - 1) p q Hs1 Hp Hq Hl2 Hh2
              Hloss1 Hwi1)
    as (Hhs2 & Hlt2 & Hwi2 & Hloss2 & Hts2 & Hfid2).
  destruct (interpret_m26 s1 lt w2 (n - 1) p q) as [[s2 l2] hs2].
  cbn [fst snd] in *. subst hs2 l2.
  (* frame number, high half *)
  rewrite interpret_words_cons.
  rewrite (interpret_word_valid_plane fmt s2 lt w3 Hm3) by lia.
  rewrite Hn3. fold p q. cbn [mbind option_bind].
  destruct (frame_id_high_word_step s2 lt w3 (n - 1) p q Hs2 Hp Hq Hl3 Hh3
              Hloss2 Hwi2)
    as (Hhs3 & Hlt3 & Hwi3 & Hts3 & Hfid3).
  destruct (interpret_m26 s2 lt w3 (n - 1) p q) as [[s3 l3] hs3].
  cbn [fst snd] in *. subst hs3 l3.
  cbn [interpret_words mbind option_bind fst snd app].
  exists s3. split; [reflexivity|].
  pose proof (Z.mod_pos_bound T (2 ^ 16) ltac:(lia)) as HTlo.
  pose proof (Z.mod_pos_bound F (2 ^ 16) ltac:(lia)) as HFlo.
  split; [|split; [|exact Hwi3]].
  - rewrite Hts3, Hts2, Hts1, Hts0.
    unfold get_m26_timestamp_high, get_m26_timestamp_low.
    rewrite E0, E1, low_half_of_mix by exact HTlo.
    apply join_halves; [exact HT|reflexivity].
  - rewrite Hfid3, Hfid2.
    unfold get_frame_id_high, get_frame_id_low.
    rewrite E2, E3, low_half_of_mix by exact HFlo.
    apply join_halves; [exact HF|reflexivity].
Qed.

Lemma header_words_rebuild_time_stamp_and_frame_id_witness :
  exists st',
    build_hits [0x20115678; 0x20101234; 0x20100007; 0x20100001] plane_1_lost
      500000 2 = Some ([], st') /\
    m26_timestamps st' !!! Z.to_nat (1 - 1) = 0x12345678 /\
    frame_id st' !!! Z.to_nat 1 = 0x00010007 /\
    word_index st' !!! Z.to_nat (1 - 1) = 3.
Proof.
  apply (header_words_rebuild_time_stamp_and_frame_id 2 500000 plane_1_lost
           0x20115678 0x20101234 0x20100007 0x20100001 1
           0x12345678 0x00010007); try lia; try reflexivity.
  - constructor; reflexivity.
  - intros w Hin.
    repeat (destruct Hin as [<-|Hin]; [repeat split; reflexivity|]).
    destruct Hin.
Defined.

(** ** Chunks and the whole stream *)

Lemma same_but_trg_error_refl x : same_but_trg_error x x.
Proof. reflexivity. Qed.

Lemma same_but_trg_error_lor x y c :
  same_but_trg_error x y -> same_but_trg_error (Z.lor x c) (Z.lor y c).
Proof.
  unfold same_but_trg_error. intros H.
  rewrite <- !Z.lor_assoc, (Z.lor_comm c TRG_ERROR), !Z.lor_assoc, H.
  reflexivity.
Qed.

Lemma lor_u32_trg_error x : Z.lor (u32 x) TRG_ERROR = u32 (Z.lor x TRG_ERROR).
Proof.
  unfold u32. rewrite <- !Z.land_ones by lia.
  rewrite Z.land_lor_distr_l. reflexivity.
Qed.

Lemma same_but_trg_error_u32 x y :
  same_but_trg_error x y -> same_but_trg_error (u32 x) (u32 y).
Proof.
  unfold same_but_trg_error. intros H.
  rewrite !lor_u32_trg_error, H. reflexivity.
Qed.

Lemma same_slots_insert (es es' : list Z) (j : nat) (v v' : Z) :
  length es = length es' ->
  same_but_trg_error v v' ->
  (forall i : nat, same_but_trg_error (es !!! i) (es' !!! i)) ->
  forall i : nat,
    same_but_trg_error (<[j := v]> es !!! i) (<[j := v']> es' !!! i).
Proof.
  intros Hlen Hv Hes i. destruct (decide (j = i)) as [->|Hne].
  - destruct (decide (i < length es)%nat).
    + rewrite !list_lookup_total_insert_eq by lia. exact Hv.
    + rewrite !list_insert_ge by lia. apply Hes.
  - rewrite !list_lookup_total_insert_ne by assumption. apply Hes.
Qed.

Lemma same_slots_add_event_status (es es' : list Z) (q : nat) (c : Z) :
  length es = length es' ->
  (forall i : nat, same_but_trg_error (es !!! i) (es' !!! i)) ->
  forall i : nat,
    same_but_trg_error (add_event_status q es c !!! i)
      (add_event_status q es' c !!! i).
Proof.
  intros Hlen Hes. unfold add_event_status.
  apply same_slots_insert; [exact Hlen| |exact Hes].
  apply same_but_trg_error_u32, same_but_trg_error_lor, Hes.
Qed.

Lemma same_slots_reset (es es' : list Z) :
  length es = length es' ->
  (forall i : nat, same_but_trg_error (es !!! i) (es' !!! i)) ->
  forall i : nat,
    same_but_trg_error (reset_m26_event_status es !!! i)
      (reset_m26_event_status es' !!! i).
Proof.
  intros Hlen Hes. unfold reset_m26_event_status. cbn [foldl seq].
  repeat (apply same_slots_insert;
          [rewrite ?length_insert; exact Hlen
          |apply same_but_trg_error_refl|]).
  exact Hes.
Qed.

Ltac solve_same_slots Hlen Hes :=
  repeat first
    [ exact Hes
    | apply Hes
    | apply same_slots_reset;
        [rewrite ?length_add_event_status; exact Hlen|]
    | apply same_slots_add_event_status;
        [rewrite ?length_add_event_status; exact Hlen|] ].

Lemma Forall2_map_seq {A B} (R : A -> B -> Prop) (f : nat -> A)
    (g : nat -> B) (l : list nat) :
  (forall k, R (f k) (g k)) -> Forall2 R (map f l) (map g l).
Proof.
  intros H. induction l as [|k l IH]; constructor; [apply H|exact IH].
Qed.

Lemma interpret_m26_same st es' lt lt' w pid p q :
  length (event_status st) = length es' ->
  (forall i : nat, same_but_trg_error (event_status st !!! i) (es' !!! i)) ->
  state_same_but_trg_error
    (interpret_m26 st lt w pid p q).1.1
    (interpret_m26 (with_event_status es' st) lt' w pid p q).1.1 /\
  Forall2 hit_same_but_trg_error
    (interpret_m26 st lt w pid p q).2
    (interpret_m26 (with_event_status es' st) lt' w pid p q).2.
Proof.
  intros Hlen Hes. unfold interpret_m26. cbv zeta. state_simpl.
  split_ifs; state_simpl;
    (split;
     [constructor; state_simpl;
      [reflexivity
      |rewrite ?length_reset_m26_event_status, ?length_add_event_status;
       exact Hlen
      |solve_same_slots Hlen Hes]
     |first
        [ apply Forall2_nil
        | apply Forall2_map_seq; intros k; constructor;
          unfold Hit.store;
          cbn [Hit.plane Hit.frame Hit.time_stamp Hit.trigger_number
               Hit.column Hit.row Hit.event_status];
          try reflexivity;
          apply same_but_trg_error_u32;
          solve_same_slots Hlen Hes ]]).
Qed.

Lemma same_slots_maybe_trg_error (es es' : list Z) (b b' : bool) :
  length es = length es' ->
  es !!! 0%nat = TRG_WORD -> es' !!! 0%nat = TRG_WORD ->
  (forall i : nat, same_but_trg_error (es !!! i) (es' !!! i)) ->
  forall i : nat,
    same_but_trg_error
      ((if b then add_event_status 0 es TRG_ERROR else es) !!! i)
      ((if b' then add_event_status 0 es' TRG_ERROR else es') !!! i).
Proof.
  intros Hlen H0 H0' Hes i. unfold add_event_status.
  destruct i as [|i].
  - destruct (decide (0 < length es)%nat).
    + destruct b, b';
        rewrite ?list_lookup_total_insert_eq by lia; rewrite ?H0, ?H0';
        reflexivity.
    + destruct b, b'; rewrite ?list_insert_ge by lia; apply Hes.
  - destruct b, b'; rewrite ?list_lookup_total_insert_ne by lia; apply Hes.
Qed.

Lemma interpret_tlu_same fmt st es' lt lt' w :
  shaped st ->
  length (event_status st) = length es' ->
  (forall i : nat, same_but_trg_error (event_status st !!! i) (es' !!! i)) ->
  state_same_but_trg_error
    (interpret_tlu fmt st lt w).1.1
    (interpret_tlu fmt (with_event_status es' st) lt' w).1.1 /\
  Forall2 hit_same_but_trg_error
    (interpret_tlu fmt st lt w).2
    (interpret_tlu fmt (with_event_status es' st) lt' w).2.
Proof.
  intros Hshape Hlen Hes.
  pose proof (shaped_event_status st Hshape) as Hlen7.
  set (E := add_event_status 0 (<[0%nat:=0]> (event_status st)) TRG_WORD).
  set (E' := add_event_status 0 (<[0%nat:=0]> es') TRG_WORD).
  assert (HE : E !!! 0%nat = TRG_WORD).
  { subst E. unfold add_event_status.
    rewrite list_lookup_total_insert_eq by (rewrite length_insert; lia).
    rewrite list_lookup_total_insert_eq by lia. reflexivity. }
  assert (HE' : E' !!! 0%nat = TRG_WORD).
  { subst E'. unfold add_event_status.
    rewrite list_lookup_total_insert_eq by (rewrite length_insert; lia).
    rewrite list_lookup_total_insert_eq by lia. reflexivity. }
  assert (HlenE : length E = length E').
  { subst E E'. rewrite !length_add_event_status, !length_insert.
    exact Hlen. }
  assert (HEE' : forall i : nat, same_but_trg_error (E !!! i) (E' !!! i)).
  { subst E E'. apply same_slots_add_event_status;
      [rewrite !length_insert; exact Hlen|].
    apply same_slots_insert;
      [exact Hlen|apply same_but_trg_error_refl|exact Hes]. }
  pose proof (same_slots_maybe_trg_error E E') as Hmaybe.
  unfold interpret_tlu. cbv zeta. state_simpl. fold E E'.
  split_ifs;
    (split;
     [constructor; state_simpl;
      [reflexivity
      |rewrite ?length_add_event_status; exact HlenE
      |first [ apply (Hmaybe true true); assumption
             | apply (Hmaybe true false); assumption
             | apply (Hmaybe false true); assumption
             | apply (Hmaybe false false); assumption ]]
     |constructor; [|apply Forall2_nil];
      constructor; unfold Hit.store;
      cbn [Hit.plane Hit.frame Hit.time_stamp Hit.trigger_number
           Hit.column Hit.row Hit.event_status];
      try reflexivity;
      apply same_but_trg_error_u32;
      first [ apply (Hmaybe true true); assumption
            | apply (Hmaybe true false); assumption
            | apply (Hmaybe false true); assumption
            | apply (Hmaybe false false); assumption ]]).
Qed.

(** The relation of two outcomes of the loop that differ at most in
    TRG_ERROR. *)
Lemma interpret_word_same fmt st st' lt lt' w :
  shaped st ->
  state_same_but_trg_error st st' ->
  match interpret_word fmt st lt w, interpret_word fmt st' lt' w with
  | Some r, Some r' =>
      state_same_but_trg_error r.1.1 r'.1.1 /\
      Forall2 hit_same_but_trg_error r.2 r'.2
  | None, None => True
  | _, _ => False
  end.
Proof.
  intros Hshape [Hst' Hlen Hes]. rewrite Hst'.
  set (es' := event_status st') in *. clearbody es'.
  unfold interpret_word.
  destruct (is_mimosa_data w).
  - destruct (py_index 6 (get_plane_number w - 1)) as [p|];
      cbn [mbind option_bind]; [|exact I].
    destruct (py_index 7 (get_plane_number w - 1 + 1)) as [q|];
      cbn [mbind option_bind]; [|exact I].
    apply interpret_m26_same; assumption.
  - destruct (is_trigger_word w).
    + apply interpret_tlu_same; assumption.
    + cbn [fst snd]. split; [|apply Forall2_nil].
      constructor; state_simpl;
        [reflexivity
        |rewrite !length_add_event_status; exact Hlen
        |apply same_slots_add_event_status; assumption].
Qed.

Lemma interpret_words_same fmt ws : forall st st' lt lt',
  shaped st ->
  state_same_but_trg_error st st' ->
  match interpret_words fmt ws st lt, interpret_words fmt ws st' lt' with
  | Some r, Some r' =>
      state_same_but_trg_error r.1.1 r'.1.1 /\
      Forall2 hit_same_but_trg_error r.2 r'.2
  | None, None => True
  | _, _ => False
  end.
Proof.
  induction ws as [|w ws IH]; intros st st' lt lt' Hshape Hsame.
  - cbn [interpret_words fst snd]. split; [exact Hsame|apply Forall2_nil].
  - rewrite !interpret_words_cons.
    pose proof (interpret_word_same fmt st st' lt lt' w Hshape Hsame) as Hw.
    destruct (interpret_word fmt st lt w) as [[[st1 lt1] hs1]|] eqn:Hstep;
      destruct (interpret_word fmt st' lt' w) as [[[st1' lt1'] hs1']|];
      cbn [mbind option_bind fst snd] in *; try contradiction; [|exact I].
    destruct Hw as [Hsame1 Hhits1].
    pose proof (interpret_word_shaped _ _ _ _ _ _ _ Hstep Hshape) as Hshape1.
    specialize (IH st1 st1' lt1 lt1' Hshape1 Hsame1).
    destruct (interpret_words fmt ws st1 lt1) as [[[st2 lt2] hs2]|];
      destruct (interpret_words fmt ws st1' lt1') as [[[st2' lt2'] hs2']|];
      cbn [mbind option_bind fst snd] in *; try contradiction; [|exact I].
    destruct IH as [Hsame2 Hhits2].
    split; [exact Hsame2|]. apply Forall2_app; assumption.
Qed.

Lemma state_same_but_trg_error_refl st : state_same_but_trg_error st st.
Proof.
  constructor; [destruct st; reflexivity|reflexivity|].
  intros i. apply same_but_trg_error_refl.
Qed.

Lemma interpret_chunks_same chunks : forall it st' lt',
  0 < RawDataInterpreter.max_hits_per_chunk it ->
  shaped (RawDataInterpreter.buffers it) ->
  state_same_but_trg_error (RawDataInterpreter.buffers it) st' ->
  match RawDataInterpreter.interpret_chunks it chunks,
        interpret_words (RawDataInterpreter.trigger_data_format it)
          (concat chunks) st' lt' with
  | Some r, Some r' =>
      Forall2 hit_same_but_trg_error r.1 r'.2 /\
      state_same_but_trg_error (RawDataInterpreter.buffers r.2) r'.1.1
  | None, None => True
  | _, _ => False
  end.
Proof.
  induction chunks as [|c cs IH]; intros it st' lt' Hmax Hshape Hsame.
  - cbn [RawDataInterpreter.interpret_chunks concat interpret_words fst snd].
    split; [apply Forall2_nil|exact Hsame].
  - cbn [RawDataInterpreter.interpret_chunks concat].
    unfold RawDataInterpreter.interpret_raw_data.
    rewrite build_hits_pure by exact Hmax. rewrite interpret_words_app.
    pose proof (interpret_words_same
                  (RawDataInterpreter.trigger_data_format it) c
                  (RawDataInterpreter.buffers it) st'
                  (initial_last_trigger_number
                     (RawDataInterpreter.buffers it)) lt' Hshape Hsame) as Hc.
    destruct (interpret_words (RawDataInterpreter.trigger_data_format it) c
                (RawDataInterpreter.buffers it)
                (initial_last_trigger_number (RawDataInterpreter.buffers it)))
      as [[[st1 lt1] hs1]|] eqn:Hrun;
      destruct (interpret_words (RawDataInterpreter.trigger_data_format it) c
                  st' lt') as [[[st1' lt1'] hs1']|];
      cbn [mbind option_bind fst snd] in *; try contradiction; [|exact I].
    destruct Hc as [Hsame1 Hhits1].
    pose proof (interpret_words_shaped _ _ _ _ _ _ _ Hrun Hshape) as Hshape1.
    match goal with
    | |- context [RawDataInterpreter.interpret_chunks ?x cs] =>
        specialize (IH x st1' lt1' Hmax Hshape1 Hsame1);
        cbn [RawDataInterpreter.trigger_data_format] in IH;
        destruct (RawDataInterpreter.interpret_chunks x cs)
          as [[hs2 it2]|]
    end;
      destruct (interpret_words (RawDataInterpreter.trigger_data_format it)
                  (concat cs) st1' lt1') as [[[st2' lt2'] hs2']|];
      cbn [mbind option_bind fst snd] in *; try contradiction; [|exact I].
    destruct IH as [Hhits2 Hsame2].
    split; [apply Forall2_app; assumption|exact Hsame2].
Qed.

(** X12. Cutting a stream into chunks changes nothing but TRG_ERROR: the
    calls of [interpret_raw_data] on the chunks of any partition, one after
    the other on one interpreter, fail exactly when the call on the whole
    stream fails, and otherwise return the same number of hits, equal hit for
    hit in every field except possibly the TRG_ERROR bit of the event status,
    and leave the same buffered variables up to that bit in the status
    slots. *)
Theorem chunking_only_changes_trg_error it chunks :
  0 < RawDataInterpreter.max_hits_per_chunk it ->
  shaped (RawDataInterpreter.buffers it) ->
  match RawDataInterpreter.interpret_chunks it chunks,
        RawDataInterpreter.interpret_raw_data it (concat chunks) with
  | Some r, Some r' =>
      Forall2 hit_same_but_trg_error r.1 r'.1 /\
      state_same_but_trg_error (RawDataInterpreter.buffers r.2)
        (RawDataInterpreter.buffers r'.2)
  | None, None => True
  | _, _ => False
  end.
Proof.
  intros Hmax Hshape.
  pose proof (interpret_chunks_same chunks it (RawDataInterpreter.buffers it)
                (initial_last_trigger_number (RawDataInterpreter.buffers it))
                Hmax Hshape (state_same_but_trg_error_refl _)) as H.
  unfold RawDataInterpreter.interpret_raw_data.
  rewrite build_hits_pure by exact Hmax.
  destruct (RawDataInterpreter.interpret_chunks it chunks) as [[hs it1]|];
    destruct (interpret_words (RawDataInterpreter.trigger_data_format it)
                (concat chunks) (RawDataInterpreter.buffers it)
                (initial_last_trigger_number (RawDataInterpreter.buffers it)))
      as [[[st2 lt2] hs']|];
    cbn [mbind option_bind fst snd RawDataInterpreter.buffers] in *;
    exact H.
Qed.

Lemma chunking_only_changes_trg_error_witness :
  Forall2 hit_same_but_trg_error
    [Hit.mk 255 0 0 1 0 0 0x4000; Hit.mk 255 0 0 2 0 0 0x4040]
    [Hit.mk 255 0 0 1 0 0 0x4000; Hit.mk 255 0 0 2 0 0 0x4000].
Proof.
  pose proof (chunking_only_changes_trg_error RawDataInterpreter.default
                [[0x80000001]; [0x80000002]]) as H.
  assert (Hmax : 0 < RawDataInterpreter.max_hits_per_chunk
                       RawDataInterpreter.default) by reflexivity.
  specialize (H Hmax shaped_reset_state).
  vm_compute in H. exact (proj1 H).
Defined.

(** ** The histograms *)

Lemma py_index_lt (n : nat) i a :
  py_index (Z.of_nat n) i = Some a -> (a < n)%nat.
Proof.
  unfold py_index. intros H.
  destruct ((0 <=? i) && (i <? Z.of_nat n)) eqn:H1.
  - inversion H; subst. bool_hyps. lia.
  - destruct ((- Z.of_nat n <=? i) && (i <? 0)) eqn:H2; [|discriminate].
    inversion H; subst. bool_hyps. lia.
Qed.

Lemma py_index_nonneg (n : nat) i :
  0 <= i < Z.of_nat n -> py_index (Z.of_nat n) i = Some (Z.to_nat i).
Proof.
  intros H. unfold py_index.
  destruct (Z.leb_spec 0 i); [|lia].
  destruct (Z.ltb_spec i (Z.of_nat n)); [|lia]. reflexivity.
Qed.

Lemma py_index_is_Some (n : nat) i :
  is_Some (py_index (Z.of_nat n) i) <-> - Z.of_nat n <= i < Z.of_nat n.
Proof.
  unfold py_index.
  destruct (Z.leb_spec 0 i); destruct (Z.ltb_spec i (Z.of_nat n));
    destruct (Z.leb_spec (- Z.of_nat n) i); destruct (Z.ltb_spec i 0);
    cbn [andb]; split; intros Hs; try lia; try (eexists; reflexivity);
    destruct Hs as [x Hs]; discriminate.
Qed.

Lemma i32_mod x : i32 x mod 2 ^ 32 = x mod 2 ^ 32.
Proof.
  unfold i32.
  rewrite <- (Z.mod_add ((x + 2 ^ 31) mod 2 ^ 32 - 2 ^ 31) 1 (2 ^ 32))
    by lia.
  replace ((x + 2 ^ 31) mod 2 ^ 32 - 2 ^ 31 + 1 * 2 ^ 32)
    with ((x + 2 ^ 31) mod 2 ^ 32 + 2 ^ 31) by lia.
  rewrite Z.add_mod_idemp_l by lia.
  replace (x + 2 ^ 31 + 2 ^ 31) with (x + 1 * 2 ^ 32) by lia.
  apply Z.mod_add. lia.
Qed.

Lemma mod_add_congr x y c :
  x mod 2 ^ 32 = y mod 2 ^ 32 -> (x + c) mod 2 ^ 32 = (y + c) mod 2 ^ 32.
Proof.
  intros H. rewrite <- (Z.add_mod_idemp_l x), <- (Z.add_mod_idemp_l y) by lia.
  rewrite H. reflexivity.
Qed.

Lemma increment_2d_Some n m hist i j a b :
  hist_shape n m hist ->
  py_index (Z.of_nat n) i = Some a ->
  py_index (Z.of_nat m) j = Some b ->
  exists hist',
    increment_2d hist i j = Some hist' /\
    hist_shape n m hist' /\
    forall a' b',
      cell hist' a' b' =
        if decide (a' = a /\ b' = b) then i32 (cell hist a b + 1)
        else cell hist a' b'.
Proof.
  intros [Hlen Hall] Hi Hj.
  pose proof (py_index_lt _ _ _ Hi) as Ha.
  pose proof (py_index_lt _ _ _ Hj) as Hb.
  destruct (lookup_lt_is_Some_2 hist a) as [line Hline]; [lia|].
  pose proof (Forall_lookup_1 _ _ _ _ Hall Hline) as Hm. cbv beta in Hm.
  destruct (lookup_lt_is_Some_2 line b) as [x Hx]; [lia|].
  unfold increment_2d. rewrite Hlen, Hi. cbn [mbind option_bind].
  rewrite Hline. cbn [mbind option_bind]. rewrite Hm, Hj.
  cbn [mbind option_bind]. rewrite Hx. cbn [mbind option_bind].
  eexists. split; [reflexivity|]. split.
  - split; [rewrite length_insert; exact Hlen|].
    apply Forall_insert; [exact Hall|]. rewrite length_insert. exact Hm.
  - intros a' b'. unfold cell.
    rewrite (list_lookup_total_correct _ _ _ Hline).
    rewrite (list_lookup_total_correct _ _ _ Hx).
    destruct (decide (a' = a /\ b' = b)) as [[-> ->]|Hne].
    + rewrite list_lookup_total_insert_eq by lia.
      rewrite list_lookup_total_insert_eq by lia. reflexivity.
    + destruct (decide (a' = a)) as [->|Ha'].
      * rewrite list_lookup_total_insert_eq by lia.
        rewrite list_lookup_total_insert_ne by (intros ->; apply Hne; auto).
        rewrite (list_lookup_total_correct _ _ _ Hline). reflexivity.
      * rewrite list_lookup_total_insert_ne by auto. reflexivity.
Qed.

Lemma increment_2d_is_Some n m hist i j :
  hist_shape n m hist ->
  is_Some (increment_2d hist i j) <->
  - Z.of_nat n <= i < Z.of_nat n /\ - Z.of_nat m <= j < Z.of_nat m.
Proof.
  intros Hshape. rewrite <- !py_index_is_Some. split.
  - intros [hist' H]. unfold increment_2d in H.
    destruct Hshape as [Hlen Hall]. rewrite Hlen in H.
    destruct (py_index (Z.of_nat n) i) as [a|] eqn:Hi; [|discriminate].
    cbn [mbind option_bind] in H.
    destruct (hist !! a) as [line|] eqn:Hline; [|discriminate].
    cbn [mbind option_bind] in H.
    pose proof (Forall_lookup_1 _ _ _ _ Hall Hline) as Hm. cbv beta in Hm.
    rewrite Hm in H.
    destruct (py_index (Z.of_nat m) j) as [b|]; [|discriminate].
    split; eexists; reflexivity.
  - intros [[a Hi] [b Hj]].
    destruct (increment_2d_Some n m hist i j a b Hshape Hi Hj)
      as (hist' & H & _).
    exists hist'. exact H.
Qed.

Lemma increment_3d_Some n m k hist i j l a b c :
  hist_shape_3d n m k hist ->
  py_index (Z.of_nat n) i = Some a ->
  py_index (Z.of_nat m) j = Some b ->
  py_index (Z.of_nat k) l = Some c ->
  exists hist',
    increment_3d hist i j l = Some hist' /\
    hist_shape_3d n m k hist' /\
    forall a' b' c',
      cell_3d hist' a' b' c' =
        if decide (a' = a /\ b' = b /\ c' = c)
        then i32 (cell_3d hist a b c + 1)
        else cell_3d hist a' b' c'.
Proof.
  intros [Hlen Hall] Hi Hj Hl.
  pose proof (py_index_lt _ _ _ Hi) as Ha.
  destruct (lookup_lt_is_Some_2 hist a) as [plane Hplane]; [lia|].
  pose proof (Forall_lookup_1 _ _ _ _ Hall Hplane) as Hshape.
  destruct (increment_2d_Some m k plane j l b c Hshape Hj Hl)
    as (plane' & Hinc & Hshape' & Hcell).
  unfold increment_3d. rewrite Hlen, Hi. cbn [mbind option_bind].
  rewrite Hplane. cbn [mbind option_bind]. rewrite Hinc.
  cbn [mbind option_bind].
  eexists. split; [reflexivity|]. split.
  - split; [rewrite length_insert; exact Hlen|].
    apply Forall_insert; assumption.
  - intros a' b' c'. unfold cell_3d.
    rewrite (list_lookup_total_correct _ _ _ Hplane).
    destruct (decide (a' = a)) as [->|Ha'].
    + rewrite list_lookup_total_insert_eq by lia. rewrite Hcell.
      destruct (decide (b' = b /\ c' = c)) as [[-> ->]|Hne].
      * rewrite decide_True by auto. reflexivity.
      * rewrite decide_False by (intros (_ & ? & ?); apply Hne; auto).
        rewrite (list_lookup_total_correct _ _ _ Hplane). reflexivity.
    + rewrite list_lookup_total_insert_ne by auto.
      rewrite decide_False by (intros (? & _); auto). reflexivity.
Qed.

Lemma increment_3d_is_Some n m k hist i j l :
  hist_shape_3d n m k hist ->
  is_Some (increment_3d hist i j l) <->
  - Z.of_nat n <= i < Z.of_nat n /\ - Z.of_nat m <= j < Z.of_nat m /\
  - Z.of_nat k <= l < Z.of_nat k.
Proof.
  intros Hshape. rewrite <- !py_index_is_Some. split.
  - intros [hist' H]. unfold increment_3d in H.
    destruct Hshape as [Hlen Hall]. rewrite Hlen in H.
    destruct (py_index (Z.of_nat n) i) as [a|] eqn:Hi; [|discriminate].
    cbn [mbind option_bind] in H.
    destruct (hist !! a) as [plane|] eqn:Hplane; [|discriminate].
    cbn [mbind option_bind] in H.
    pose proof (Forall_lookup_1 _ _ _ _ Hall Hplane) as Hshape.
    destruct (increment_2d plane j l) as [plane'|] eqn:Hinc; [|discriminate].
    assert (Hsome : is_Some (increment_2d plane j l))
      by (eexists; exact Hinc).
    apply (increment_2d_is_Some m k) in Hsome; [|exact Hshape].
    rewrite <- !py_index_is_Some in Hsome.
    split; [eexists; reflexivity|exact Hsome].
  - intros ([a Hi] & [b Hj] & [c Hl]).
    destruct (increment_3d_Some n m k hist i j l a b c Hshape Hi Hj Hl)
      as (hist' & H & _).
    exists hist'. exact H.
Qed.

Lemma count_bit_seq (f : nat -> bool) b n :
  length (List.filter (fun i => (i =? b)%nat && f i) (seq 0 n)) =
    if (b <? n)%nat && f b then 1%nat else 0%nat.
Proof.
  induction n as [|n IH]; [reflexivity|].
  rewrite seq_S, List.filter_app, length_app, IH.
  cbn [List.filter Nat.add].
  destruct (Nat.ltb_spec b n); destruct (Nat.ltb_spec b (S n));
    destruct (Nat.eqb_spec n b) as [Heq|Hne];
    try lia; try rewrite Heq; cbn [andb]; destruct (f b);
    cbn [length]; lia.
Qed.

Lemma status_count_cons h hits line i :
  status_count (h :: hits) line i =
    (if (event_status_line h =? line)
        && status_bit_set (Hit.event_status h) i then 1 else 0)
    + status_count hits line i.
Proof.
  unfold status_count. cbn [List.filter].
  destruct ((event_status_line h =? line)
            && status_bit_set (Hit.event_status h) i);
    cbn [length]; lia.
Qed.

Lemma fill_event_status_bits_spec n line es a : forall bits hist,
  hist_shape n 32 hist ->
  py_index (Z.of_nat n) line = Some a ->
  Forall (fun i => (i < 32)%nat) bits ->
  exists hist',
    fill_event_status_bits hist line es bits = Some hist' /\
    hist_shape n 32 hist' /\
    forall a' b',
      cell hist' a' b' mod 2 ^ 32 =
      (cell hist a' b' +
       if decide (a' = a) then
         Z.of_nat
           (length (List.filter
                      (fun i => (i =? b')%nat && status_bit_set es i) bits))
       else 0) mod 2 ^ 32.
Proof.
  induction bits as [|i rest IH]; intros hist Hshape Hline Hbits.
  - exists hist. split; [reflexivity|]. split; [exact Hshape|].
    intros a' b'. destruct (decide (a' = a)); cbn [List.filter length];
      rewrite Z.add_0_r; reflexivity.
  - inversion Hbits as [|? ? Hi Hrest]; subst.
    cbn [fill_event_status_bits List.filter].
    destruct (status_bit_set es i) eqn:Hbit.
    + assert (Hpi : py_index (Z.of_nat 32) (Z.of_nat i) = Some i).
      { rewrite py_index_nonneg by lia. rewrite Nat2Z.id. reflexivity. }
      destruct (increment_2d_Some n 32 hist line (Z.of_nat i) a i
                  Hshape Hline Hpi) as (h1 & Hinc & Hs1 & Hc1).
      rewrite Hinc. cbn [mbind option_bind].
      destruct (IH h1 Hs1 Hline Hrest) as (h' & Hrun & Hs' & Hc').
      exists h'. split; [exact Hrun|]. split; [exact Hs'|].
      intros a' b'. rewrite Hc', Hc1.
      destruct (decide (a' = a)) as [->|Ha'].
      * destruct (Nat.eqb_spec i b') as [->|Hib]; cbn [andb].
        -- rewrite decide_True by auto. cbn [length].
           rewrite Nat2Z.inj_succ.
           match goal with
           | |- (_ + ?r) mod _ = (?x + Z.succ ?r) mod _ =>
               replace (x + Z.succ r) with (x + 1 + r) by lia
           end.
           apply mod_add_congr. apply i32_mod.
        -- rewrite decide_False by (intros [_ ->]; auto). reflexivity.
      * rewrite decide_False by (intros [? _]; auto). reflexivity.
    + destruct (IH hist Hshape Hline Hrest) as (h' & Hrun & Hs' & Hc').
      exists h'. split; [exact Hrun|]. split; [exact Hs'|].
      intros a' b'. rewrite Hc'. rewrite andb_false_r. reflexivity.
Qed.

Lemma event_status_line_range h :
  hit_in_range h -> 0 <= event_status_line h <= 6.
Proof.
  unfold hit_in_range, event_status_line.
  destruct (Z.eqb_spec (Hit.plane h) 255); lia.
Qed.

Lemma fill_event_status_hist_spec : forall hits hist,
  hist_shape 7 32 hist ->
  Forall hit_in_range hits ->
  exists hist',
    fill_event_status_hist hist hits = Some hist' /\
    hist_shape 7 32 hist' /\
    forall a b : nat,
      (b < 32)%nat ->
      cell hist' a b mod 2 ^ 32 =
      (cell hist a b + status_count hits (Z.of_nat a) b) mod 2 ^ 32.
Proof.
  unfold fill_event_status_hist.
  assert (Hbits : Forall (fun i => (i < 32)%nat) (seq 0 32)).
  { apply List.Forall_forall. intros x Hx. apply in_seq in Hx. lia. }
  assert (Hcount : forall (f : nat -> bool) b, (b < 32)%nat ->
            Z.of_nat (length (List.filter (fun i => (i =? b)%nat && f i)
                                (seq 0 32)))
            = if f b then 1 else 0).
  { intros f b Hb. rewrite count_bit_seq.
    destruct (Nat.ltb_spec b 32); [|lia]. cbn [andb].
    destruct (f b); reflexivity. }
  revert Hbits Hcount. generalize (seq 0 32). intros bits Hbits Hcount.
  induction hits as [|h rest IH]; intros hist Hshape Hhits.
  - exists hist. split; [reflexivity|]. split; [exact Hshape|].
    intros a b _. unfold status_count. cbn [List.filter length].
    rewrite Z.add_0_r. reflexivity.
  - inversion Hhits as [|? ? Hh Hrest]; subst.
    pose proof (event_status_line_range h Hh) as Hline.
    assert (Hpi : py_index (Z.of_nat 7) (event_status_line h)
                  = Some (Z.to_nat (event_status_line h)))
      by (apply py_index_nonneg; lia).
    destruct (fill_event_status_bits_spec 7 (event_status_line h)
                (Hit.event_status h) _ bits hist Hshape Hpi Hbits)
      as (h1 & Hrun1 & Hs1 & Hc1).
    cbn [fill_event_status_hits]. rewrite Hrun1. cbn [mbind option_bind].
    destruct (IH h1 Hs1 Hrest) as (h' & Hrun & Hs' & Hc').
    exists h'. split; [exact Hrun|]. split; [exact Hs'|].
    intros a b Hb. rewrite (Hc' a b Hb).
    rewrite (mod_add_congr _ _ _ (Hc1 a b)).
    rewrite status_count_cons. f_equal. rewrite <- Z.add_assoc. f_equal.
    f_equal.
    destruct (decide (a = Z.to_nat (event_status_line h))) as [->|Hne].
    + rewrite Z2Nat.id by lia. rewrite Z.eqb_refl. cbn [andb].
      apply Hcount. exact Hb.
    + destruct (Z.eqb_spec (event_status_line h) (Z.of_nat a)) as [He|];
        [|reflexivity].
      exfalso. apply Hne. rewrite He. rewrite Nat2Z.id. reflexivity.
Qed.

(** X13. On a histogram of the shape (7, 32) [fill_event_status_hist] never
    indexes outside the array for hits as the raw data interpreter builds
    them (TLU hits and hits of the plane numbers 0 to 6): it returns, and the
    histogram keeps its shape. *)
Theorem event_status_hist_never_fails hist hits :
  hist_shape 7 32 hist ->
  Forall hit_in_range hits ->
  exists hist',
    fill_event_status_hist hist hits = Some hist' /\ hist_shape 7 32 hist'.
Proof.
  intros Hshape Hhits.
  destruct (fill_event_status_hist_spec hits hist Hshape Hhits)
    as (hist' & Hrun & Hshape' & _).
  exists hist'. split; assumption.
Qed.

Lemma event_status_hist_never_fails_witness :
  exists hist',
    fill_event_status_hist (replicate 7 (replicate 32 0))
      [Hit.mk 255 0 0 1 0 0 0x4000; Hit.mk 0 0 0 1 3 4 0x10000]
      = Some hist' /\
    hist_shape 7 32 hist'.
Proof.
  apply event_status_hist_never_fails.
  - split; [reflexivity|]. repeat constructor.
  - constructor; [left; cbn; lia|].
    constructor; [right; cbn; lia|constructor].
Defined.

(** X14. After [fill_event_status_hist] the counter of the line [a] and the
    bit [b] has grown, in 32 bit arithmetic, by the number of the hits of
    that line which have the bit [b] set in their event status.  The line 0
    counts the TLU hits and, with them, the hits of the plane number 0. *)
Theorem event_status_hist_counts hist hits hist' (a b : nat) :
  hist_shape 7 32 hist ->
  Forall hit_in_range hits ->
  fill_event_status_hist hist hits = Some hist' ->
  (b < 32)%nat ->
  cell hist' a b mod 2 ^ 32 =
    (cell hist a b + status_count hits (Z.of_nat a) b) mod 2 ^ 32.
Proof.
  intros Hshape Hhits Hrun Hb.
  destruct (fill_event_status_hist_spec hits hist Hshape Hhits)
    as (hist'' & Hrun' & _ & Hcells).
  rewrite Hrun in Hrun'. inversion Hrun'; subst. apply Hcells. exact Hb.
Qed.

Lemma event_status_hist_counts_witness :
  cell (<[0%nat := <[16%nat := 1]> (<[14%nat := 1]> (replicate 32 0))]>
          (replicate 7 (replicate 32 0))) 0 16 mod 2 ^ 32 =
    (cell (replicate 7 (replicate 32 0)) 0 16 +
     status_count [Hit.mk 255 0 0 1 0 0 0x4000; Hit.mk 0 0 0 1 3 4 0x10000]
       (Z.of_nat 0) 16) mod 2 ^ 32.
Proof.
  apply event_status_hist_counts.
  - split; [reflexivity|]. repeat constructor.
  - constructor; [left; cbn; lia|].
    constructor; [right; cbn; lia|constructor].
  - vm_compute. reflexivity.
  - lia.
Defined.

Lemma increment_3d_shape n m k hist i j l hist' :
  hist_shape_3d n m k hist ->
  increment_3d hist i j l = Some hist' ->
  hist_shape_3d n m k hist'.
Proof.
  intros Hshape Hinc.
  assert (Hsome : is_Some (increment_3d hist i j l))
    by (eexists; exact Hinc).
  apply (increment_3d_is_Some n m k) in Hsome; [|exact Hshape].
  rewrite <- !py_index_is_Some in Hsome.
  destruct Hsome as ([a Hi] & [b Hj] & [c Hl]).
  destruct (increment_3d_Some n m k hist i j l a b c Hshape Hi Hj Hl)
    as (hist'' & Hinc' & Hshape' & _).
  rewrite Hinc in Hinc'. inversion Hinc'; subst. exact Hshape'.
Qed.

Lemma fill_occupanc_hist_is_Some n m k : forall hits hist,
  hist_shape_3d n m k hist ->
  is_Some (fill_occupanc_hist hist hits) <->
  Forall (occupancy_indexable n m k) hits.
Proof.
  induction hits as [|h rest IH]; intros hist Hshape.
  - split; intros _; [constructor|eexists; reflexivity].
  - cbn [fill_occupanc_hist].
    destruct (Z.eqb_spec (Hit.plane h) 255) as [H255|H255].
    + rewrite (IH hist Hshape). split.
      * intros Hrest. constructor; [left; exact H255|exact Hrest].
      * intros Hall. inversion Hall; subst. assumption.
    + destruct (increment_3d hist (Hit.plane h - 1) (Hit.column h)
                  (Hit.row h)) as [h1|] eqn:Hinc; cbn [mbind option_bind].
      * pose proof (increment_3d_shape _ _ _ _ _ _ _ _ Hshape Hinc)
          as Hshape1.
        assert (Hsome : is_Some (increment_3d hist (Hit.plane h - 1)
                                   (Hit.column h) (Hit.row h)))
          by (eexists; exact Hinc).
        apply (increment_3d_is_Some n m k) in Hsome; [|exact Hshape].
        rewrite (IH h1 Hshape1). split.
        -- intros Hrest. constructor; [right; exact Hsome|exact Hrest].
        -- intros Hall. inversion Hall; subst. assumption.
      * split.
        -- intros [x Hx]. discriminate.
        -- intros Hall. inversion Hall as [|? ? Hh Hrest]; subst.
           destruct Hh as [Hh|Hh]; [contradiction|].
           apply (proj2 (increment_3d_is_Some n m k _ _ _ _ Hshape)) in Hh.
           rewrite Hinc in Hh. destruct Hh as [x Hx]. discriminate.
Qed.

Lemma occupancy_count_cons h hits a b c :
  occupancy_count (h :: hits) a b c =
    (if negb (Hit.plane h =? 255) && counted_in_plane h a
        && (Hit.column h =? Z.of_nat b) && (Hit.row h =? Z.of_nat c)
     then 1 else 0)
    + occupancy_count hits a b c.
Proof.
  unfold occupancy_count. cbn [List.filter].
  destruct (negb (Hit.plane h =? 255) && counted_in_plane h a
            && (Hit.column h =? Z.of_nat b) && (Hit.row h =? Z.of_nat c));
    cbn [length]; lia.
Qed.

Lemma fill_occupanc_hist_spec m k : forall hits hist hist',
  hist_shape_3d 6 m k hist ->
  Forall hit_in_range hits ->
  fill_occupanc_hist hist hits = Some hist' ->
  hist_shape_3d 6 m k hist' /\
  forall a b c : nat,
    cell_3d hist' a b c mod 2 ^ 32 =
    (cell_3d hist a b c + occupancy_count hits a b c) mod 2 ^ 32.
Proof.
  induction hits as [|h rest IH]; intros hist hist' Hshape Hhits Hrun.
  - cbn [fill_occupanc_hist] in Hrun. inversion Hrun; subst.
    split; [exact Hshape|]. intros a b c. unfold occupancy_count.
    cbn [List.filter length]. rewrite Z.add_0_r. reflexivity.
  - inversion Hhits as [|? ? Hh Hrest]; subst.
    cbn [fill_occupanc_hist] in Hrun.
    destruct (Z.eqb_spec (Hit.plane h) 255) as [H255|H255].
    + destruct (IH hist hist' Hshape Hrest Hrun) as [Hshape' Hcells].
      split; [exact Hshape'|]. intros a b c.
      rewrite Hcells, occupancy_count_cons.
      destruct (Z.eqb_spec (Hit.plane h) 255); [|contradiction].
      cbn [negb andb]. reflexivity.
    + destruct (increment_3d hist (Hit.plane h - 1) (Hit.column h)
                  (Hit.row h)) as [h1|] eqn:Hinc;
        cbn [mbind option_bind] in Hrun; [|discriminate].
      assert (Hsome : is_Some (increment_3d hist (Hit.plane h - 1)
                                 (Hit.column h) (Hit.row h)))
        by (eexists; exact Hinc).
      apply (increment_3d_is_Some 6 m k) in Hsome; [|exact Hshape].
      destruct Hsome as (Hp & Hcol & Hrow).
      destruct Hh as [Hh|(Hplane & Hc0 & Hr0)]; [lia|].
      assert (Hi : py_index (Z.of_nat 6) (Hit.plane h - 1)
                   = Some (if Hit.plane h =? 0 then 5%nat
                           else Z.to_nat (Hit.plane h - 1))).
      { destruct (Z.eqb_spec (Hit.plane h) 0) as [H0|H0].
        - rewrite H0. reflexivity.
        - apply py_index_nonneg. lia. }
      assert (Hj : py_index (Z.of_nat m) (Hit.column h)
                   = Some (Z.to_nat (Hit.column h)))
        by (apply py_index_nonneg; lia).
      assert (Hl : py_index (Z.of_nat k) (Hit.row h)
                   = Some (Z.to_nat (Hit.row h)))
        by (apply py_index_nonneg; lia).
      destruct (increment_3d_Some 6 m k hist _ _ _ _ _ _ Hshape Hi Hj Hl)
        as (h1' & Hinc' & Hshape1 & Hc1).
      rewrite Hinc in Hinc'. inversion Hinc'; subst h1'.
      destruct (IH h1 hist' Hshape1 Hrest Hrun) as [Hshape' Hcells].
      split; [exact Hshape'|]. intros a b c.
      rewrite Hcells, occupancy_count_cons, Hc1.
      unfold counted_in_plane.
      destruct (Z.eqb_spec (Hit.plane h) 255); [contradiction|].
      cbn [negb andb].
      destruct (decide (a = (if Hit.plane h =? 0 then 5%nat
                             else Z.to_nat (Hit.plane h - 1)) /\
                        b = Z.to_nat (Hit.column h) /\
                        c = Z.to_nat (Hit.row h))) as [(Ha & Hb & Hc)|Hne].
      * assert (Hcond :
          ((Hit.plane h =? Z.of_nat a + 1)
           || (Hit.plane h =? 0) && (a =? 5)%nat)
          && (Hit.column h =? Z.of_nat b) && (Hit.row h =? Z.of_nat c)
          = true).
        { rewrite Hb, Hc, !Z2Nat.id, !Z.eqb_refl by lia.
          rewrite !andb_true_r. rewrite Ha.
          destruct (Z.eqb_spec (Hit.plane h) 0) as [H0|H0].
          - rewrite orb_true_r. reflexivity.
          - rewrite Z2Nat.id by lia.
            replace (Hit.plane h - 1 + 1) with (Hit.plane h) by lia.
            rewrite Z.eqb_refl. reflexivity. }
        rewrite Hcond. rewrite <- Ha, <- Hb, <- Hc.
        match goal with
        | |- (_ + ?r) mod _ = (?x + (1 + ?r)) mod _ =>
            replace (x + (1 + r)) with (x + 1 + r) by lia
        end.
        apply mod_add_congr. apply i32_mod.
      * assert (Hcond :
          ((Hit.plane h =? Z.of_nat a + 1)
           || (Hit.plane h =? 0) && (a =? 5)%nat)
          && (Hit.column h =? Z.of_nat b) && (Hit.row h =? Z.of_nat c)
          = false).
        { destruct (Z.eqb_spec (Hit.column h) (Z.of_nat b)) as [Hb|Hb];
            [|rewrite andb_false_r; reflexivity].
          destruct (Z.eqb_spec (Hit.row h) (Z.of_nat c)) as [Hc|Hc];
            [|rewrite andb_false_r; reflexivity].
          rewrite !andb_true_r.
          destruct (Z.eqb_spec (Hit.plane h) 0) as [H0|H0].
          - destruct (Nat.eqb_spec a 5) as [Ha|Ha].
            + exfalso. apply Hne. rewrite Hb, Hc, !Nat2Z.id. auto.
            + destruct (Z.eqb_spec (Hit.plane h) (Z.of_nat a + 1));
                [lia|reflexivity].
          - cbn [andb]. rewrite orb_false_r.
            destruct (Z.eqb_spec (Hit.plane h) (Z.of_nat a + 1)) as [Ha|Ha];
              [|reflexivity].
            exfalso. apply Hne. rewrite Hb, Hc, !Nat2Z.id.
            repeat split. lia. }
        rewrite Hcond. reflexivity.
Qed.

(** X15. On an occupancy array of the shape (n, m, k) a run of
    [fill_occupanc_hist] is in bounds exactly when every hit that is no TLU
    hit has its three indices [plane - 1], [column] and [row] in range for
    their axes, counted from the front or from the end.  A hit of a column or
    a row beyond the shape, which the 11 bit fields of the pixel words allow,
    is counted by the compiled code in a foreign cell or outside the
    array. *)
Theorem occupancy_hist_in_bounds n m k hist hits :
  hist_shape_3d n m k hist ->
  in_bounds (fill_occupanc_hist hist hits) <->
  Forall (occupancy_indexable n m k) hits.
Proof.
  intros Hshape. unfold in_bounds.
  apply fill_occupanc_hist_is_Some. exact Hshape.
Qed.

Lemma occupancy_hist_in_bounds_witness :
  ~ in_bounds (fill_occupanc_hist (replicate 6 (replicate 4 (replicate 2 0)))
                 [Hit.mk 1 0 0 0 4 1 0]).
Proof.
  intros Hin.
  apply (occupancy_hist_in_bounds 6 4 2) in Hin;
    [|split; [reflexivity|repeat constructor]].
  inversion Hin as [|? ? Hh _]; subst.
  destruct Hh as [Hh|(_ & Hcol & _)]; [discriminate|].
  cbn in Hcol. lia.
Defined.

(** X16. On an occupancy array of six planes, for hits as [build_hits] makes
    them whose columns and rows lie within the shape of a plane,
    [fill_occupanc_hist] returns, and the counter of the pixel (b, c) in the
    entry [a] has grown, in 32 bit arithmetic, by the number of the hits of
    that pixel with the plane number [a + 1]; the last entry, the one of the
    plane 6, counts the hits of the plane number 0 as well. *)
Theorem occupancy_hist_counts m k hist hits (a b c : nat) :
  hist_shape_3d 6 m k hist ->
  Forall hit_in_range hits ->
  Forall (fun h => Hit.plane h <> 255 ->
                   Hit.column h < Z.of_nat m /\ Hit.row h < Z.of_nat k)
    hits ->
  exists hist',
    fill_occupanc_hist hist hits = Some hist' /\
    cell_3d hist' a b c mod 2 ^ 32 =
      (cell_3d hist a b c + occupancy_count hits a b c) mod 2 ^ 32.
Proof.
  intros Hshape Hhits Hfit.
  assert (Hsome : is_Some (fill_occupanc_hist hist hits)).
  { apply (fill_occupanc_hist_is_Some 6 m k hits hist Hshape).
    apply List.Forall_forall. intros h Hin.
    pose proof (proj1 (List.Forall_forall _ _) Hhits h Hin) as Hh.
    pose proof (proj1 (List.Forall_forall _ _) Hfit h Hin) as Hf.
    destruct Hh as [(H255 & _)|(Hplane & Hcol & Hrow)];
      [left; exact H255|].
    right. specialize (Hf ltac:(lia)). lia. }
  destruct Hsome as [hist' Hrun]. exists hist'. split; [exact Hrun|].
  destruct (fill_occupanc_hist_spec m k hits hist hist' Hshape Hhits Hrun)
    as [_ Hcells].
  apply Hcells.
Qed.

Lemma occupancy_hist_counts_witness :
  exists hist',
    fill_occupanc_hist (replicate 6 (replicate 2 (replicate 2 0)))
      [Hit.mk 0 0 0 0 1 1 0; Hit.mk 255 0 0 1 0 0 0x4000;
       Hit.mk 6 0 0 0 1 1 0] = Some hist' /\
    cell_3d hist' 5 1 1 mod 2 ^ 32 =
      (cell_3d (replicate 6 (replicate 2 (replicate 2 0))) 5 1 1 +
       occupancy_count
         [Hit.mk 0 0 0 0 1 1 0; Hit.mk 255 0 0 1 0 0 0x4000;
          Hit.mk 6 0 0 0 1 1 0] 5 1 1) mod 2 ^ 32.
Proof.
  apply (occupancy_hist_counts 2 2).
  - split; [reflexivity|]. repeat constructor.
  - constructor; [right; cbn; lia|].
    constructor; [left; cbn; lia|].
    constructor; [right; cbn; lia|constructor].
  - constructor; [intros _; cbn; lia|].
    constructor; [intros Hne; cbn in Hne; congruence|].
    constructor; [intros _; cbn; lia|constructor].
Defined.

(** ** The chunk loop of the word table *)

Lemma concat_chunks_take {A} (chunk_size : nat) (raw_data : list A) n :
  concat (map (fun k : nat =>
                 take chunk_size (drop (k * chunk_size) raw_data))
            (seq 0 n))
  = take (n * chunk_size) raw_data.
Proof.
  induction n as [|n IH]; [reflexivity|].
  rewrite seq_S, map_app, concat_app, IH.
  cbn [map concat Nat.add]. rewrite app_nil_r.
  rewrite take_take_drop. f_equal. lia.
Qed.

Lemma chunk_count_covers (len chunk_size : nat) :
  (0 < chunk_size)%nat ->
  (len <= (len + chunk_size - 1) / chunk_size * chunk_size)%nat /\
  (forall k, (k < (len + chunk_size - 1) / chunk_size)%nat ->
             (k * chunk_size < len)%nat) /\
  (forall k, (S k < (len + chunk_size - 1) / chunk_size)%nat ->
             (k * chunk_size + chunk_size <= len)%nat).
Proof.
  intros Hcs.
  pose proof (Nat.div_mod_eq (len + chunk_size - 1) chunk_size) as Hdm.
  pose proof (Nat.mod_upper_bound (len + chunk_size - 1) chunk_size) as Hr.
  set (q := ((len + chunk_size - 1) / chunk_size)%nat) in *.
  set (r := ((len + chunk_size - 1) mod chunk_size)%nat) in *.
  clearbody q r.
  assert (Hr' : (r < chunk_size)%nat) by (apply Hr; lia).
  repeat split.
  - nia.
  - intros k Hk. nia.
  - intros k Hk. nia.
Qed.

Lemma word_table_chunks_partition_aux (chunk_size : nat) (raw_data : list Z) :
  (0 < chunk_size)%nat ->
  concat (word_table_chunks chunk_size raw_data) = raw_data /\
  Forall (fun c => (0 < length c <= chunk_size)%nat)
    (word_table_chunks chunk_size raw_data) /\
  forall (k : nat) c,
    word_table_chunks chunk_size raw_data !! k = Some c ->
    (S k < length (word_table_chunks chunk_size raw_data))%nat ->
    length c = chunk_size.
Proof.
  intros Hcs.
  destruct (chunk_count_covers (length raw_data) chunk_size Hcs)
    as (Hcover & Hstart & Hfull).
  unfold word_table_chunks. split; [|split].
  - rewrite concat_chunks_take. apply take_ge. exact Hcover.
  - apply List.Forall_forall. intros c Hin.
    apply in_map_iff in Hin as (k & <- & Hk). apply in_seq in Hk.
    rewrite length_take, length_drop.
    specialize (Hstart k ltac:(lia)). lia.
  - intros k c Hc Hk. rewrite length_map, length_seq in Hk.
    change (map ?f ?l) with (f <$> l) in Hc.
    rewrite list_lookup_fmap in Hc.
    rewrite lookup_seq_lt in Hc by lia.
    cbn [fmap option_fmap option_map Nat.add] in Hc.
    inversion Hc; subst.
    rewrite length_take, length_drop.
    specialize (Hfull k Hk). lia.
Qed.

(** X17. The slices that the chunk loop of [interpret_word_table] reads cut
    the raw data into pieces without loss, overlap or reordering: put
    together they are the raw data, no slice is empty or longer than the
    chunk size, and every slice but the last has exactly the chunk size. *)
Theorem word_table_chunks_partition (chunk_size : nat) (raw_data : list Z) :
  (0 < chunk_size)%nat ->
  concat (word_table_chunks chunk_size raw_data) = raw_data /\
  Forall (fun c => (0 < length c <= chunk_size)%nat)
    (word_table_chunks chunk_size raw_data) /\
  forall (k : nat) c,
    word_table_chunks chunk_size raw_data !! k = Some c ->
    (S k < length (word_table_chunks chunk_size raw_data))%nat ->
    length c = chunk_size.
Proof. apply word_table_chunks_partition_aux. Qed.

Lemma word_table_chunks_partition_witness :
  concat (word_table_chunks 2 [0x80000001; 0x20100000; 0x80000002])
    = [0x80000001; 0x20100000; 0x80000002] /\
  Forall (fun c => (0 < length c <= 2)%nat)
    (word_table_chunks 2 [0x80000001; 0x20100000; 0x80000002]) /\
  forall (k : nat) c,
    word_table_chunks 2 [0x80000001; 0x20100000; 0x80000002] !! k = Some c ->
    (S k < length (word_table_chunks 2
                     [0x80000001%Z; 0x20100000%Z; 0x80000002%Z]))%nat ->
    length c = 2%nat.
Proof.
  apply word_table_chunks_partition. lia.
Defined.

Lemma fill_occupanc_hist_app hits1 : forall hits2 hist,
  fill_occupanc_hist hist (hits1 ++ hits2) =
    hist' ← fill_occupanc_hist hist hits1; fill_occupanc_hist hist' hits2.
Proof.
  induction hits1 as [|h rest IH]; intros hits2 hist; [reflexivity|].
  cbn [app fill_occupanc_hist].
  destruct (Hit.plane h =? 255); [apply IH|].
  destruct (increment_3d hist (Hit.plane h - 1) (Hit.column h) (Hit.row h));
    cbn [mbind option_bind]; [apply IH|reflexivity].
Qed.

Lemma fill_event_status_hits_app bits hits1 : forall hits2 hist,
  fill_event_status_hits bits hist (hits1 ++ hits2) =
    hist' ← fill_event_status_hits bits hist hits1;
    fill_event_status_hits bits hist' hits2.
Proof.
  induction hits1 as [|h rest IH]; intros hits2 hist; [reflexivity|].
  cbn [app fill_event_status_hits].
  destruct (fill_event_status_bits hist (event_status_line h)
              (Hit.event_status h) bits);
    cbn [mbind option_bind]; [apply IH|reflexivity].
Qed.

Lemma fill_event_status_hist_app hits1 hits2 hist :
  fill_event_status_hist hist (hits1 ++ hits2) =
    hist' ← fill_event_status_hist hist hits1;
    fill_event_status_hist hist' hits2.
Proof. apply fill_event_status_hits_app. Qed.

(** X18. The chunk loop of [interpret_word_table] fills the histograms as if
    all the hits had come in one piece: it returns exactly when the calls of
    [interpret_raw_data] on the chunks return and the two histogram functions
    (where switched on) return on the hits of all chunks put together, and
    then with just the histograms these give; the hit table, where switched
    on, has grown by those hits in their order. *)
Theorem word_table_loop_fills_once s chunks :
  forall it hit_table occupancy_arrays event_status_hist,
  word_table_loop s chunks it hit_table occupancy_arrays event_status_hist =
    r ← RawDataInterpreter.interpret_chunks it chunks;
    occupancy_arrays' ←
      (if create_occupancy_hist s
       then fill_occupanc_hist occupancy_arrays r.1
       else Some occupancy_arrays);
    event_status_hist' ←
      (if create_error_hist s
       then fill_event_status_hist event_status_hist r.1
       else Some event_status_hist);
    Some (r.2,
          (if create_hit_table s then hit_table ++ r.1 else hit_table),
          occupancy_arrays', event_status_hist').
Proof.
  induction chunks as [|c cs IH]; intros it ht occ esh.
  - cbn [word_table_loop RawDataInterpreter.interpret_chunks mbind
         option_bind fst snd fill_occupanc_hist].
    unfold fill_event_status_hist. cbn [fill_event_status_hits].
    destruct (create_occupancy_hist s), (create_error_hist s),
      (create_hit_table s); cbn [mbind option_bind];
      rewrite ?app_nil_r; reflexivity.
  - cbn [word_table_loop RawDataInterpreter.interpret_chunks].
    destruct (RawDataInterpreter.interpret_raw_data it c) as [[hs1 it1]|];
      cbn [mbind option_bind fst snd]; [|reflexivity].
    assert (Hocc :
      forall hs2,
        (if create_occupancy_hist s
         then fill_occupanc_hist occ (hs1 ++ hs2) else Some occ) =
        occ1 ← (if create_occupancy_hist s
                then fill_occupanc_hist occ hs1 else Some occ);
        (if create_occupancy_hist s
         then fill_occupanc_hist occ1 hs2 else Some occ1)).
    { intros hs2. destruct (create_occupancy_hist s);
        [apply fill_occupanc_hist_app|reflexivity]. }
    assert (Hesh :
      forall hs2,
        (if create_error_hist s
         then fill_event_status_hist esh (hs1 ++ hs2) else Some esh) =
        esh1 ← (if create_error_hist s
                then fill_event_status_hist esh hs1 else Some esh);
        (if create_error_hist s
         then fill_event_status_hist esh1 hs2 else Some esh1)).
    { intros hs2. destruct (create_error_hist s);
        [apply fill_event_status_hist_app|reflexivity]. }
    destruct (if create_occupancy_hist s
              then fill_occupanc_hist occ hs1 else Some occ)
      as [occ1|] eqn:Hocc1; cbn [mbind option_bind] in *.
    + destruct (if create_error_hist s
                then fill_event_status_hist esh hs1 else Some esh)
        as [esh1|] eqn:Hesh1; cbn [mbind option_bind] in *.
      * rewrite IH.
        destruct (RawDataInterpreter.interpret_chunks it1 cs)
          as [[hs2 it2]|]; cbn [mbind option_bind fst snd]; [|reflexivity].
        rewrite Hocc, Hesh.
        destruct (if create_occupancy_hist s
                  then fill_occupanc_hist occ1 hs2 else Some occ1);
          cbn [mbind option_bind]; [|reflexivity].
        destruct (if create_error_hist s
                  then fill_event_status_hist esh1 hs2 else Some esh1);
          cbn [mbind option_bind]; [|reflexivity].
        destruct (create_hit_table s); rewrite ?app_assoc; reflexivity.
      * destruct (RawDataInterpreter.interpret_chunks it1 cs)
          as [[hs2 it2]|]; cbn [mbind option_bind fst snd]; [|reflexivity].
        rewrite Hocc, Hesh.
        destruct (if create_occupancy_hist s
                  then fill_occupanc_hist occ1 hs2 else Some occ1);
          reflexivity.
    + destruct (RawDataInterpreter.interpret_chunks it1 cs)
        as [[hs2 it2]|]; cbn [mbind option_bind fst snd]; [|reflexivity].
      rewrite Hocc. reflexivity.
Qed.

Lemma same_but_trg_error_join x y z :
  same_but_trg_error x z -> same_but_trg_error y z -> same_but_trg_error x y.
Proof. unfold same_but_trg_error. congruence. Qed.

Lemma hit_same_but_trg_error_join h1 h2 h :
  hit_same_but_trg_error h1 h -> hit_same_but_trg_error h2 h ->
  hit_same_but_trg_error h1 h2.
Proof.
  intros [] [].
  constructor;
    first [congruence|eapply same_but_trg_error_join; eassumption].
Qed.

Lemma state_same_but_trg_error_join st1 st2 st :
  state_same_but_trg_error st1 st -> state_same_but_trg_error st2 st ->
  state_same_but_trg_error st1 st2.
Proof.
  intros [H1 Hl1 Hs1] [H2 Hl2 Hs2]. constructor.
  - assert (E : with_event_status (event_status st) st1
               = with_event_status (event_status st) st2)
      by (rewrite <- H1; exact H2).
    change (with_event_status (event_status st2) st1)
      with (with_event_status (event_status st2)
              (with_event_status (event_status st) st1)).
    rewrite E. destruct st2. reflexivity.
  - congruence.
  - intros i. eapply same_but_trg_error_join; [apply Hs1|apply Hs2].
Qed.

Lemma Forall2_join {A} (R : A -> A -> Prop) :
  (forall x y z, R x z -> R y z -> R x y) ->
  forall l1 l2 l, Forall2 R l1 l -> Forall2 R l2 l -> Forall2 R l1 l2.
Proof.
  intros HR l1 l2 l H1. revert l2.
  induction H1 as [|x z l1 l Hxz H1 IH]; intros l2 H2;
    inversion H2; subst; constructor; eauto.
Qed.

(** X19. The chunk size only changes TRG_ERROR: for two positive chunk
    sizes the chunk loop over the same raw data fails for both or for
    neither, and otherwise the two runs give the same number of hits, equal
    hit for hit in every field except possibly the TRG_ERROR bit of the
    event status, and end with the same buffered variables up to that bit in
    the status slots. *)
Theorem chunk_size_only_changes_trg_error it raw_data (n1 n2 : nat) :
  (0 < n1)%nat -> (0 < n2)%nat ->
  0 < RawDataInterpreter.max_hits_per_chunk it ->
  shaped (RawDataInterpreter.buffers it) ->
  match RawDataInterpreter.interpret_chunks it
          (word_table_chunks n1 raw_data),
        RawDataInterpreter.interpret_chunks it
          (word_table_chunks n2 raw_data) with
  | Some r, Some r' =>
      Forall2 hit_same_but_trg_error r.1 r'.1 /\
      state_same_but_trg_error (RawDataInterpreter.buffers r.2)
        (RawDataInterpreter.buffers r'.2)
  | None, None => True
  | _, _ => False
  end.
Proof.
  intros Hn1 Hn2 Hmax Hshape.
  pose proof (interpret_chunks_same (word_table_chunks n1 raw_data) it
                (RawDataInterpreter.buffers it)
                (initial_last_trigger_number (RawDataInterpreter.buffers it))
                Hmax Hshape (state_same_but_trg_error_refl _)) as H1.
  pose proof (interpret_chunks_same (word_table_chunks n2 raw_data) it
                (RawDataInterpreter.buffers it)
                (initial_last_trigger_number (RawDataInterpreter.buffers it))
                Hmax Hshape (state_same_but_trg_error_refl _)) as H2.
  destruct (word_table_chunks_partition_aux n1 raw_data Hn1) as [Hc1 _].
  destruct (word_table_chunks_partition_aux n2 raw_data Hn2) as [Hc2 _].
  rewrite Hc1 in H1. rewrite Hc2 in H2.
  destruct (RawDataInterpreter.interpret_chunks it
              (word_table_chunks n1 raw_data)) as [[hs1 it1]|];
    destruct (RawDataInterpreter.interpret_chunks it
                (word_table_chunks n2 raw_data)) as [[hs2 it2]|];
    destruct (interpret_words (RawDataInterpreter.trigger_data_format it)
                raw_data (RawDataInterpreter.buffers it)
                (initial_last_trigger_number (RawDataInterpreter.buffers it)))
      as [[[st lt] hs]|];
    cbn [fst snd] in *; try contradiction; try exact I.
  destruct H1 as [Hh1 Hs1], H2 as [Hh2 Hs2]. split.
  - eapply Forall2_join; [|exact Hh1|exact Hh2].
    intros x y z. apply hit_same_but_trg_error_join.
  - eapply state_same_but_trg_error_join; eassumption.
Qed.

Lemma chunk_size_only_changes_trg_error_witness :
  Forall2 hit_same_but_trg_error
    [Hit.mk 255 0 0 1 0 0 0x4000; Hit.mk 255 0 0 2 0 0 0x4040;
     Hit.mk 255 0 0 3 0 0 0x4040]
    [Hit.mk 255 0 0 1 0 0 0x4000; Hit.mk 255 0 0 2 0 0 0x4000;
     Hit.mk 255 0 0 3 0 0 0x4040].
Proof.
  pose proof (chunk_size_only_changes_trg_error RawDataInterpreter.default
                [0x80000001; 0x80000002; 0x80000003] 1 3) as H.
  assert (Hmax : 0 < RawDataInterpreter.max_hits_per_chunk
                       RawDataInterpreter.default) by reflexivity.
  specialize (H ltac:(lia) ltac:(lia) Hmax shaped_reset_state).
  vm_compute in H. exact (proj1 H).
Defined.

(** ** The planes are decoded side by side *)

Lemma interpret_m26_other_plane st lt w pid p' q p :
  p <> p' -> S p <> q ->
  plane_buffers (interpret_m26 st lt w pid p' q).1.1 p = plane_buffers st p.
Proof.
  intros Hne Hq. unfold interpret_m26, plane_buffers, plane_position.
  cbv zeta.
  split_ifs; state_simpl;
    rewrite ?list_lookup_total_insert_ne by lia;
    reflexivity.
Qed.

Lemma interpret_tlu_other_plane fmt st lt w p :
  plane_buffers (interpret_tlu fmt st lt w).1.1 p = plane_buffers st p.
Proof.
  unfold interpret_tlu, plane_buffers, plane_position. cbv zeta. state_simpl.
  rewrite ?list_lookup_total_insert_ne by lia. reflexivity.
Qed.

Lemma interpret_word_other_plane fmt st lt w r (p : nat) :
  (p < 6)%nat ->
  interpret_word fmt st lt w = Some r ->
  (is_mimosa_data w = true -> plane_slot w <> Some p) ->
  plane_buffers r.1.1 p = plane_buffers st p /\
  Forall (fun h => Hit.plane h <> Z.of_nat p + 1) r.2.
Proof.
  intros Hp Hstep Hslot.
  apply interpret_word_cases in Hstep
    as [(Hm & p' & q & Hp' & Hq & ->)|[(Hm & Ht & ->)|(Hm & Ht & ->)]].
  - specialize (Hslot Hm). unfold plane_slot in Hslot.
    rewrite Hp' in Hslot.
    assert (Hne : p <> p') by (intros ->; apply Hslot; reflexivity).
    pose proof (get_plane_number_range w) as Hr.
    destruct (py_index_plane w p' q Hp' Hq) as (Hp6 & Hq7 & Hqn & Hn6).
    destruct (py_index_6 _ _ Hp') as (_ & _ & Hp'n).
    assert (Hplane : get_plane_number w <> Z.of_nat p + 1).
    { intros Heq. apply Hne.
      destruct (Z.ltb_spec (get_plane_number w - 1) 0); lia. }
    split.
    + apply interpret_m26_other_plane; [exact Hne|].
      intros Heq. apply Hplane. lia.
    + apply List.Forall_forall. intros h Hin.
      rewrite (interpret_m26_hit_plane _ _ _ _ _ _ _ Hin).
      replace (get_plane_number w - 1 + 1) with (get_plane_number w) by lia.
      rewrite u8_small by lia. exact Hplane.
  - split; [apply interpret_tlu_other_plane|].
    apply List.Forall_forall. intros h Hin.
    destruct (interpret_tlu_slots fmt st lt w p) as (_ & _ & H255).
    rewrite (H255 h Hin). lia.
  - cbn [fst snd]. split; [|constructor].
    unfold plane_buffers, plane_position. state_simpl. reflexivity.
Qed.

Lemma interpret_words_other_plane fmt (p : nat) :
  (p < 6)%nat ->
  forall ws st lt r,
    interpret_words fmt ws st lt = Some r ->
    Forall (fun w => is_mimosa_data w = true -> plane_slot w <> Some p) ws ->
    plane_buffers r.1.1 p = plane_buffers st p /\
    Forall (fun h => Hit.plane h <> Z.of_nat p + 1) r.2.
Proof.
  intros Hp. induction ws as [|w ws IH]; intros st lt r Hrun Hall.
  - cbn [interpret_words] in Hrun. inversion Hrun; subst.
    split; [reflexivity|constructor].
  - inversion Hall as [|? ? Hw Hrest]; subst.
    rewrite interpret_words_cons in Hrun.
    destruct (interpret_word fmt st lt w) as [r1|] eqn:Hstep;
      cbn [mbind option_bind] in Hrun; [|discriminate].
    destruct (interpret_words fmt ws r1.1.1 r1.1.2) as [r2|] eqn:Hrun2;
      cbn [mbind option_bind] in Hrun; [|discriminate].
    inversion Hrun; subst. cbn [fst snd].
    destruct (interpret_word_other_plane fmt st lt w r1 p Hp Hstep Hw)
      as [Hb1 Hh1].
    destruct (IH _ _ _ Hrun2 Hrest) as [Hb2 Hh2].
    split; [rewrite Hb2; exact Hb1|].
    apply Forall_app. split; assumption.
Qed.

(** X20. The planes are decoded side by side: a call of [interpret_raw_data]
    on raw data with no Mimosa26 word for the slot [p] of the per plane
    buffers leaves the word index, frame length, word count, row, loss flag,
    frame time stamp and frame number of that slot as they were, whatever the
    words of the other planes and of the TLU are, and returns no hit with the
    plane number [p + 1]. *)
Theorem planes_do_not_interfere it raw_data hits it' (p : nat) :
  (p < 6)%nat ->
  RawDataInterpreter.interpret_raw_data it raw_data = Some (hits, it') ->
  Forall (fun w => is_mimosa_data w = true -> plane_slot w <> Some p)
    raw_data ->
  plane_buffers (RawDataInterpreter.buffers it') p
    = plane_buffers (RawDataInterpreter.buffers it) p /\
  Forall (fun h => Hit.plane h <> Z.of_nat p + 1) hits.
Proof.
  intros Hp Hrun Hall. unfold RawDataInterpreter.interpret_raw_data in Hrun.
  destruct (build_hits raw_data (RawDataInterpreter.buffers it)
              (RawDataInterpreter.max_hits_per_chunk it)
              (RawDataInterpreter.trigger_data_format it))
    as [[hs st']|] eqn:Hbuild; cbn [mbind option_bind fst snd] in Hrun;
    [|discriminate].
  inversion Hrun; subst. cbn [RawDataInterpreter.buffers].
  apply build_hits_sound in Hbuild as (lt' & Hwords).
  apply (interpret_words_other_plane _ p Hp _ _ _ _ Hwords Hall).
Qed.

Lemma planes_do_not_interfere_witness :
  exists hits it',
    RawDataInterpreter.interpret_raw_data RawDataInterpreter.default
      [0x20215555; 0x20200001; 0x80000001] = Some (hits, it') /\
    plane_buffers (RawDataInterpreter.buffers it') 0
      = plane_buffers
          (RawDataInterpreter.buffers RawDataInterpreter.default) 0 /\
    Forall (fun h => Hit.plane h <> Z.of_nat 0 + 1) hits.
Proof.
  eexists. eexists. split; [vm_compute; reflexivity|].
  eapply (planes_do_not_interfere RawDataInterpreter.default
            [0x20215555; 0x20200001; 0x80000001]).
  - lia.
  - vm_compute. reflexivity.
  - repeat (constructor; [intros Hm; vm_compute in *; congruence|]).
    constructor.
Defined.
